(** * HomeDashSensor: presence detection and display fading

    A shallow embedding of the presence state machine
    ([_old/proximity.py]), of the asynchronous fade worker
    ([_old/display.py]) and of the all-in-one control script
    ([proximity_display_control.py]), followed by the properties that
    the design document states about them; then of the frame
    processing of the sensor ([sensors/proximity_sensor.py]), of the
    display manager ([sensors/display_manager.py]) and of the air
    quality score of the script, with further properties read off the
    code.

    Conventions of the embedding:
    - Python [int] is [Z] (unbounded);
    - Python [float] is [Q]: every float is a rational, and the
      arithmetic is carried out exactly, without the rounding of
      IEEE-754 (no NaN, no infinities); a statement over [Q] is about
      the formulas of the code evaluated exactly, and where the
      rounding itself decides (a scenario that fixes a number, an
      easing curve next to 1) the computation is evaluated in double
      precision too ([Binary64]);
    - [time.time()] is an oracle: the k-th call of a run returns
      [clock k];
    - a write to the brightness file succeeds or raises; the k-th
      attempt of a run succeeds iff [io k = true];
    - [None] as a result stands for an uncaught [ZeroDivisionError]. *)

From Stdlib Require Import ZArith QArith Qround Bool List String Lia Lqa.
From Stdlib Require PrimFloat.
Import ListNotations.

Local Open Scope Z_scope.

(** ** Python numerics *)

Module Py.

(** [int(x)] on a float: truncation toward zero. *)
Definition int (x : Q) : Z :=
  if Qle_bool 0 x then Qfloor x else Qceiling x.

(** [round(x)] on a float: nearest integer, ties to the even one. *)
Definition round (x : Q) : Z :=
  let f := Qfloor x in
  match ((x - inject_Z f) ?= (1 # 2))%Q with
  | Lt => f
  | Gt => f + 1
  | Eq => if Z.even f then f else f + 1
  end.

(** [range(n)] as the list of its values. *)
Definition range (n : Z) : list Z :=
  map Z.of_nat (seq 0 (Z.to_nat n)).

(** [x < y] on floats. *)
Definition ltb (x y : Q) : bool := negb (Qle_bool y x).

(** [x / y] on floats, raising on a zero divisor. *)
Definition div (x y : Q) : option Q :=
  if Qeq_bool y 0 then None else Some (x / y)%Q.

(** The normalised progress of a fade ranges over the unit interval. *)
Definition unit_interval (t : Q) : Prop := (0 <= t <= 1)%Q.

End Py.

(** ** Double precision

    Where a property is about one concrete computation, the same
    expression is also evaluated in IEEE-754 double precision, the
    arithmetic of Python's [float]. *)

Module Binary64.

Import PrimFloat.

(** The interpolation of [calculate_adaptive_brightness],
    [min_brightness + ratio * (max_brightness - min_brightness)] with
    [ratio = (lux - low_threshold) / (high_threshold - low_threshold)]. *)
Definition interpolate (min_brightness max_brightness lux low high : float) : float :=
  (min_brightness + (lux - low) / (high - low) * (max_brightness - min_brightness))%float.

(** [lo <= x < hi], on which [int(x)] is [lo] for consecutive integers. *)
Definition within (lo hi x : float) : bool :=
  leb lo x && ltb x hi.

(** The interpolation at 250 lux between the thresholds 10 and 500,
    for the brightness bounds 0 and 255. *)
Definition interpolate_250 : float := interpolate 0 255 250 10 500.

(** [124 <= interpolate_250 < 125] *)
Definition interpolate_250_within_124_125 : bool :=
  within 124 125 interpolate_250.

(** The double of an integer; exact below 2^53, where every sum and
    product below is of representable numbers. *)
Fixpoint of_pos (p : positive) : float :=
  match p with
  | xH => 1
  | xO q => 2 * of_pos q
  | xI q => 2 * of_pos q + 1
  end%float.

Definition of_Z (z : Z) : float :=
  match z with
  | Z0 => 0
  | Zpos p => of_pos p
  | Zneg p => - of_pos p
  end%float.

(** [_apply_easing] of [_old/display.py], operation by operation as
    Python evaluates it. *)
Definition _apply_easing (fade_easing : string) (progress : float) : float :=
  if String.eqb fade_easing "linear" then progress
  else if String.eqb fade_easing "ease_in_out" then
    (progress * progress * (3 - 2 * progress))%float
  else if String.eqb fade_easing "quintic" then
    (progress * progress * progress * (progress * (progress * 6 - 15) + 10))%float
  else progress.

(** The progress [step / steps] of [_fade_worker] and its eased
    value. *)
Definition eased_progress (fade_easing : string) (steps step : Z) : float :=
  _apply_easing fade_easing (of_Z step / of_Z steps)%float.

(** [start_brightness + brightness_diff * eased_progress], the number
    that [_fade_worker] hands to [int()] at a step before the last. *)
Definition brightness_float (fade_easing : string)
    (start_brightness brightness_diff steps step : Z) : float :=
  (of_Z start_brightness
   + of_Z brightness_diff * eased_progress fade_easing steps step)%float.

(** [0 <= x <= 1] *)
Definition unit_interval (x : float) : bool := leb 0 x && leb x 1.

(** [lo <= x <= hi]; [int(x)] is then between the integers [lo] and
    [hi] too. *)
Definition between (lo hi : Z) (x : float) : bool :=
  leb (of_Z lo) x && leb x (of_Z hi).

(** The eased progress stays in the unit interval at every step of a
    fade of [steps] steps. *)
Definition easing_within_unit (fade_easing : string) (steps : Z) : bool :=
  forallb (fun step => unit_interval (eased_progress fade_easing steps step))
          (Py.range (steps + 1)).

(** The number handed to [int()] stays between the start and the
    target at every step before the last of a fade of [steps] steps. *)
Definition fade_within (fade_easing : string) (start target steps : Z) : bool :=
  forallb (fun step =>
             between (Z.min start target) (Z.max start target)
               (brightness_float fade_easing start (target - start) steps step))
          (Py.range steps).

End Binary64.

(** ** The presence detector of [_old/proximity.py] *)

Module Proximity.

Record DetectionConfig := {
  threshold_mm : Z;
  detection_zones : Z;
  consecutive_required : Z;
  no_presence_required : Z
}.

(** The defaults of [config.py]. *)
Definition default_config : DetectionConfig :=
  {| threshold_mm := 400; detection_zones := 6;
     consecutive_required := 3; no_presence_required := 10 |}.

Record ProximityReading := {
  distance_mm : Z;
  zones_in_range : Z;
  valid : bool;
  timestamp : Q
}.

Record DetectionState := {
  human_present : bool;
  consecutive_detections : Z;
  consecutive_non_detections : Z;
  last_detection_time : Q;
  detection_history : list bool
}.

(** [DetectionState()] *)
Definition DetectionState_init : DetectionState :=
  {| human_present := false; consecutive_detections := 0;
     consecutive_non_detections := 0; last_detection_time := 0;
     detection_history := [] |}.

(** [DetectionState.add_detection]: append, and drop the oldest entry
    beyond twenty. *)
Definition add_detection (detected : bool) (s : DetectionState) : DetectionState :=
  let h := (detection_history s ++ [detected])%list in
  let h' := if (20 <? Z.of_nat (List.length h)) then tl h else h in
  {| human_present := human_present s;
     consecutive_detections := consecutive_detections s;
     consecutive_non_detections := consecutive_non_detections s;
     last_detection_time := last_detection_time s;
     detection_history := h' |}.

(** The detector object, together with the number of [time.time()]
    calls made so far. *)
Record ProximityDetector := {
  config : DetectionConfig;
  state : DetectionState;
  _last_valid_distance : option Z;
  _detection_start_time : option Q;
  ticks : nat
}.

(** [ProximityDetector(config)] *)
Definition ProximityDetector_init (c : DetectionConfig) : ProximityDetector :=
  {| config := c; state := DetectionState_init;
     _last_valid_distance := None; _detection_start_time := None;
     ticks := 0 |}.

Definition with_state (s : DetectionState) (d : ProximityDetector) : ProximityDetector :=
  {| config := config d; state := s;
     _last_valid_distance := _last_valid_distance d;
     _detection_start_time := _detection_start_time d;
     ticks := ticks d |}.

Definition set_human_present (b : bool) (s : DetectionState) : DetectionState :=
  {| human_present := b;
     consecutive_detections := consecutive_detections s;
     consecutive_non_detections := consecutive_non_detections s;
     last_detection_time := last_detection_time s;
     detection_history := detection_history s |}.

Definition set_counters (cd cnd : Z) (s : DetectionState) : DetectionState :=
  {| human_present := human_present s;
     consecutive_detections := cd;
     consecutive_non_detections := cnd;
     last_detection_time := last_detection_time s;
     detection_history := detection_history s |}.

Definition set_last_detection_time (t : Q) (s : DetectionState) : DetectionState :=
  {| human_present := human_present s;
     consecutive_detections := consecutive_detections s;
     consecutive_non_detections := consecutive_non_detections s;
     last_detection_time := t;
     detection_history := detection_history s |}.

Section Detector.

(** The wall clock: [clock k] is what the k-th call of
    [time.time()] returns. *)
Variable clock : nat -> Q.

Definition time_time (d : ProximityDetector) : Q * ProximityDetector :=
  (clock (ticks d),
   {| config := config d; state := state d;
      _last_valid_distance := _last_valid_distance d;
      _detection_start_time := _detection_start_time d;
      ticks := S (ticks d) |}).

(** [_validate_movement] *)
Definition _validate_movement (d : ProximityDetector) (reading : ProximityReading) : bool :=
  match _last_valid_distance d with
  | None => true
  | Some last =>
      let distance_change := Z.abs (distance_mm reading - last) in
      let max_realistic_change := 300 in
      if max_realistic_change <? distance_change then false
      else
        let min_zones_for_validation :=
          Z.max 1 (detection_zones (config d) - 1) in
        if (distance_mm reading <=? threshold_mm (config d))
           && (zones_in_range reading <? min_zones_for_validation)
        then false
        else true
  end.

(** [_is_detection_criteria_met] *)
Definition _is_detection_criteria_met (d : ProximityDetector) (reading : ProximityReading) : bool :=
  let distance_ok := distance_mm reading <=? threshold_mm (config d) in
  let zones_ok := detection_zones (config d) <=? zones_in_range reading in
  let movement_ok := _validate_movement d reading in
  distance_ok && zones_ok && movement_ok.

(** [_should_trigger_detection] *)
Definition _should_trigger_detection (d : ProximityDetector) : bool :=
  consecutive_required (config d) <=? consecutive_detections (state d).

(** [_should_trigger_non_detection]; the clock is read only when
    the dwell guard is evaluated. *)
Definition _should_trigger_non_detection (d : ProximityDetector) : bool * ProximityDetector :=
  if consecutive_non_detections (state d) <? no_presence_required (config d)
  then (false, d)
  else
    match _detection_start_time d with
    | None => (true, d)
    | Some start =>
        let min_detection_duration := 2%Q in
        let (now, d1) := time_time d in
        let detection_duration := (now - start)%Q in
        (Qle_bool min_detection_duration detection_duration, d1)
    end.

(** [_handle_invalid_reading] *)
Definition _handle_invalid_reading (d : ProximityDetector) : bool * ProximityDetector :=
  let s1 := set_counters 0 (consecutive_non_detections (state d) + 1) (state d) in
  let s2 :=
    if human_present s1
       && (no_presence_required (config d) * 2 <=? consecutive_non_detections s1)
    then set_human_present false s1
    else s1 in
  (human_present s2, with_state s2 d).

(** [process_reading]; [None] is Python's [None]. A dataclass
    instance is always truthy, so [not reading] is the test for
    [None]. *)
Definition process_reading (d : ProximityDetector) (reading : option ProximityReading)
  : bool * ProximityDetector :=
  match reading with
  | None => _handle_invalid_reading d
  | Some r =>
      if negb (valid r) then _handle_invalid_reading d
      else
        let detected := _is_detection_criteria_met d r in
        let d1 := with_state (add_detection detected (state d)) d in
        (* update detection counters *)
        let d2 :=
          if detected then
            let d' :=
              with_state
                (set_counters (consecutive_detections (state d1) + 1) 0 (state d1)) d1 in
            if negb (human_present (state d')) then
              let (now, d'') := time_time d' in
              {| config := config d''; state := state d'';
                 _last_valid_distance := _last_valid_distance d'';
                 _detection_start_time := Some now;
                 ticks := ticks d'' |}
            else d'
          else
            with_state
              (set_counters 0 (consecutive_non_detections (state d1) + 1) (state d1)) d1 in
        (* determine if state should change *)
        let d3 :=
          if negb (human_present (state d2)) && _should_trigger_detection d2 then
            let d' := with_state (set_human_present true (state d2)) d2 in
            let (now, d'') := time_time d' in
            with_state (set_last_detection_time now (state d'')) d''
          else if human_present (state d2) then
            let (leave, d') := _should_trigger_non_detection d2 in
            if leave then with_state (set_human_present false (state d')) d'
            else d'
          else d2 in
        (* store last valid distance *)
        let d4 :=
          {| config := config d3; state := state d3;
             _last_valid_distance := Some (distance_mm r);
             _detection_start_time := _detection_start_time d3;
             ticks := ticks d3 |} in
        (human_present (state d4), d4)
  end.

(** The detector after a sequence of [process_reading] calls. *)
Definition run (d : ProximityDetector) (readings : list (option ProximityReading))
  : ProximityDetector :=
  fold_left (fun d r => snd (process_reading d r)) readings d.

(** The verdicts returned by a sequence of [process_reading] calls. *)
Fixpoint verdicts (d : ProximityDetector) (readings : list (option ProximityReading))
  : list bool :=
  match readings with
  | [] => []
  | r :: rs =>
      let (b, d') := process_reading d r in
      b :: verdicts d' rs
  end.

End Detector.

(** The two counters are not both nonzero. *)
Definition counters_exclusive (s : DetectionState) : Prop :=
  consecutive_detections s = 0 \/ consecutive_non_detections s = 0.

(** [ProximityReading(distance_mm=d, zones_in_range=z)] as the demo
    builds them: valid, stamped by the caller. *)
Definition reading (d z : Z) : ProximityReading :=
  {| distance_mm := d; zones_in_range := z; valid := true; timestamp := 0 |}.

End Proximity.

(** ** The display controller of [_old/display.py] *)

Module Display.

Record DisplayConfig := {
  fade_in_duration : Q;
  fade_out_duration : Q;
  adaptive_brightness_enabled : bool;
  min_brightness : Z;
  max_brightness : Z;
  light_threshold_low : Q;
  light_threshold_high : Q;
  fade_duration : Q;
  fade_steps : Z;
  fade_easing : string
}.

(** The defaults of [config.py]. *)
Definition default_config : DisplayConfig :=
  {| fade_in_duration := 2; fade_out_duration := 3;
     adaptive_brightness_enabled := true;
     min_brightness := 0; max_brightness := 255;
     light_threshold_low := 10; light_threshold_high := 500;
     fade_duration := 1; fade_steps := 600;
     fade_easing := "quintic" |}.

Record DisplayState := {
  current_brightness : Z;
  target_brightness : Z;
  is_fading : bool;
  is_awake : bool
}.

(** [DisplayState()] *)
Definition DisplayState_init : DisplayState :=
  {| current_brightness := 0; target_brightness := 0;
     is_fading := false; is_awake := false |}.

(** The controller object and the brightness file it drives:
    [content] is what the file holds, [written] the values
    successfully written so far (latest first), [attempts] the
    number of writes tried so far. *)
Record DisplayController := {
  config : DisplayConfig;
  state : DisplayState;
  _brightness_path : option string;
  content : Z;
  written : list Z;
  attempts : nat
}.

(** [DisplayController(config)], next to a file holding [c]. *)
Definition DisplayController_init (cfg : DisplayConfig) (c : Z) : DisplayController :=
  {| config := cfg; state := DisplayState_init; _brightness_path := None;
     content := c; written := []; attempts := 0 |}.

Definition with_state (s : DisplayState) (w : DisplayController) : DisplayController :=
  {| config := config w; state := s; _brightness_path := _brightness_path w;
     content := content w; written := written w; attempts := attempts w |}.

Definition set_current_brightness (b : Z) (s : DisplayState) : DisplayState :=
  {| current_brightness := b; target_brightness := target_brightness s;
     is_fading := is_fading s; is_awake := is_awake s |}.

Definition set_target_brightness (b : Z) (s : DisplayState) : DisplayState :=
  {| current_brightness := current_brightness s; target_brightness := b;
     is_fading := is_fading s; is_awake := is_awake s |}.

Definition set_is_fading (b : bool) (s : DisplayState) : DisplayState :=
  {| current_brightness := current_brightness s;
     target_brightness := target_brightness s;
     is_fading := b; is_awake := is_awake s |}.

Definition set_is_awake (b : bool) (s : DisplayState) : DisplayState :=
  {| current_brightness := current_brightness s;
     target_brightness := target_brightness s;
     is_fading := is_fading s; is_awake := b |}.

(** [_apply_easing], in exact arithmetic; [Binary64._apply_easing] is
    the same curve in double precision. *)
Definition _apply_easing (cfg : DisplayConfig) (progress : Q) : Q :=
  if String.eqb (fade_easing cfg) "linear" then progress
  else if String.eqb (fade_easing cfg) "ease_in_out" then
    progress * progress * (3 - 2 * progress)
  else if String.eqb (fade_easing cfg) "quintic" then
    progress * progress * progress * (progress * (progress * 6 - 15) + 10)
  else progress.

(** The target that [set_adaptive_brightness] computes from the
    ambient light (the same lines are in [sensors/display_manager.py]). *)
Definition adaptive_target (cfg : DisplayConfig) (lux : Q) : Z :=
  if Qle_bool lux (light_threshold_low cfg) then min_brightness cfg + 50
  else if Qle_bool (light_threshold_high cfg) lux then max_brightness cfg
  else
    let ratio :=
      ((lux - light_threshold_low cfg)
       / (light_threshold_high cfg - light_threshold_low cfg))%Q in
    Py.int (50 + ratio * inject_Z (max_brightness cfg - 50)).

Section Controller.

(** Outcome of the writes to the brightness file: the k-th attempt
    succeeds iff [io k = true]. *)
Variable io : nat -> bool.

(** [_read_brightness] (a file that holds an integer). *)
Definition _read_brightness (w : DisplayController) : Z :=
  match _brightness_path w with
  | None => 0
  | Some _ => content w
  end.

(** [_write_brightness]: clamp, write, report success. *)
Definition _write_brightness (w : DisplayController) (brightness : Z)
  : bool * DisplayController :=
  match _brightness_path w with
  | None => (false, w)
  | Some _ =>
      let brightness :=
        Z.max (min_brightness (config w))
              (Z.min (max_brightness (config w)) brightness) in
      if io (attempts w) then
        (true,
         {| config := config w; state := state w;
            _brightness_path := _brightness_path w;
            content := brightness; written := brightness :: written w;
            attempts := S (attempts w) |})
      else
        (false,
         {| config := config w; state := state w;
            _brightness_path := _brightness_path w;
            content := content w; written := written w;
            attempts := S (attempts w) |})
  end.

(** [initialize], given the paths that the glob pattern matches. *)
Definition initialize (w : DisplayController) (brightness_paths : list string)
  : bool * DisplayController :=
  match brightness_paths with
  | [] => (false, w)
  | p :: _ =>
      let w1 :=
        {| config := config w; state := state w; _brightness_path := Some p;
           content := content w; written := written w;
           attempts := attempts w |} in
      let current := _read_brightness w1 in
      let (_, w2) := _write_brightness w1 current in
      let s :=
        set_is_awake (0 <? current)
          (set_target_brightness current
             (set_current_brightness current (state w2))) in
      (true, with_state s w2)
  end.

(** The value that iteration [step] of [_fade_worker] computes, in
    exact arithmetic; [Binary64.brightness_float] is the number handed
    to [int()] in double precision. *)
Definition new_brightness (cfg : DisplayConfig)
    (start_brightness brightness_diff target_brightness steps step : Z) : Z :=
  if step =? steps then target_brightness
  else
    let progress := (inject_Z step / inject_Z steps)%Q in
    let eased_progress := _apply_easing cfg progress in
    Py.int (inject_Z start_brightness
            + inject_Z brightness_diff * eased_progress).

(** One iteration of the loop of [_fade_worker]: compute, write,
    and record the value when the write went through. *)
Definition fade_step (start_brightness brightness_diff target_brightness steps : Z)
    (w : DisplayController) (step : Z) : DisplayController :=
  let new_brightness :=
    new_brightness (config w) start_brightness brightness_diff
      target_brightness steps step in
  let (ok, w1) := _write_brightness w new_brightness in
  if ok then with_state (set_current_brightness new_brightness (state w1)) w1
  else w1.

(** [_fade_worker], run to its end. The pauses between the steps
    change nothing in the state and are left out. *)
Definition _fade_worker (w : DisplayController) (target_brightness : Z) (duration : Q)
  : option DisplayController :=
  let start_brightness := current_brightness (state w) in
  let brightness_diff := target_brightness - start_brightness in
  if brightness_diff =? 0 then Some w
  else
    let steps := fade_steps (config w) in
    match Py.div duration (inject_Z steps) with
    | None => None
    | Some step_duration =>
        Some (fold_left
                (fade_step start_brightness brightness_diff target_brightness steps)
                (Py.range (steps + 1)) w)
    end.

(** [_start_fade] when no other fade is pending, which the lock
    held by every caller ensures. *)
Definition _start_fade (w : DisplayController) (target_brightness : Z) (duration : Q)
  : option DisplayController :=
  let w1 :=
    with_state
      (set_is_fading true (set_target_brightness target_brightness (state w))) w in
  match _fade_worker w1 target_brightness duration with
  | None => None
  | Some w2 => Some (with_state (set_is_fading false (state w2)) w2)
  end.

(** [wake_display] *)
Definition wake_display (w : DisplayController) (target : option Z)
  : option DisplayController :=
  let target :=
    match target with
    | None => max_brightness (config w)
    | Some t => t
    end in
  if is_awake (state w) && (target_brightness (state w) =? target)
  then Some w
  else
    match _start_fade w target (fade_in_duration (config w)) with
    | None => None
    | Some w1 => Some (with_state (set_is_awake true (state w1)) w1)
    end.

(** [sleep_display] *)
Definition sleep_display (w : DisplayController) : option DisplayController :=
  if negb (is_awake (state w)) then Some w
  else
    match _start_fade w (min_brightness (config w)) (fade_out_duration (config w)) with
    | None => None
    | Some w1 => Some (with_state (set_is_awake false (state w1)) w1)
    end.

(** [set_adaptive_brightness] *)
Definition set_adaptive_brightness (w : DisplayController) (lux : Q)
  : option DisplayController :=
  if negb (adaptive_brightness_enabled (config w)) || negb (is_awake (state w))
  then Some w
  else
    let target := adaptive_target (config w) lux in
    if 10 <? Z.abs (target - target_brightness (state w)) then
      _start_fade w target (fade_duration (config w) * (1 # 2))
    else Some w.

End Controller.

End Display.

(** ** The all-in-one script [proximity_display_control.py] *)

Module Script.

(** The values of the global [config] that the display code reads. *)
Record ProximityConfig := {
  adaptive_brightness_enabled : bool;
  min_brightness : Z;
  light_threshold_low : Q;
  light_threshold_high : Q;
  fade_steps : Z;
  fade_easing : string
}.

(** The defaults of [ProximityConfig._set_defaults]. *)
Definition default_config : ProximityConfig :=
  {| adaptive_brightness_enabled := true; min_brightness := 20;
     light_threshold_low := 10; light_threshold_high := 500;
     fade_steps := 120; fade_easing := "ease_in_out" |}.

Section WithConfig.

Variable config : ProximityConfig.

(** [LightSensorController.calculate_adaptive_brightness] *)
Definition calculate_adaptive_brightness (lux : Q) (max_brightness : Z) : Z :=
  if negb (adaptive_brightness_enabled config) then max_brightness
  else
    let low_threshold := light_threshold_low config in
    let high_threshold := light_threshold_high config in
    let brightness :=
      if Qle_bool lux low_threshold then min_brightness config
      else if Qle_bool high_threshold lux then max_brightness
      else
        let ratio := ((lux - low_threshold) / (high_threshold - low_threshold))%Q in
        Py.int (inject_Z (min_brightness config)
                + ratio * inject_Z (max_brightness - min_brightness config)) in
    Z.max (min_brightness config) (Z.min brightness max_brightness).

(** The display object and the brightness file it drives, as in
    [Display.DisplayController]. *)
Record DisplayController := {
  max_brightness : Z;
  current_brightness : Z;
  content : Z;
  written : list Z;
  attempts : nat
}.

(** The three easing curves inlined in [fade_to]; an unknown name
    falls back to the cubic one. *)
Definition cubic_in_out (t : Q) : Q :=
  if Py.ltb t (1 # 2) then 4 * t * t * t
  else 1 - (-2 * t + 2) ^ 3 / 2.

Definition quintic_in_out (t : Q) : Q :=
  if Py.ltb t (1 # 2) then 16 * t * t * t * t * t
  else 1 - (-2 * t + 2) ^ 5 / 2.

Definition eased (t : Q) : Q :=
  if String.eqb (fade_easing config) "quintic" then quintic_in_out t
  else if String.eqb (fade_easing config) "ease_in_out" then cubic_in_out t
  else if String.eqb (fade_easing config) "linear" then t
  else cubic_in_out t.

(** [min_step_delay = (1000 / 60) / 1000 / 10] *)
Definition min_step_delay : Q := (1000 / 60) / 1000 / 10.

Section Controller.

Variable io : nat -> bool.

(** [DisplayController.set_brightness] *)
Definition set_brightness (w : DisplayController) (value : Z)
  : bool * DisplayController :=
  let value := Z.max 0 (Z.min value (max_brightness w)) in
  if io (attempts w) then
    (true,
     {| max_brightness := max_brightness w; current_brightness := value;
        content := value; written := value :: written w;
        attempts := S (attempts w) |})
  else
    (false,
     {| max_brightness := max_brightness w;
        current_brightness := current_brightness w;
        content := content w; written := written w;
        attempts := S (attempts w) |}).

(** The value that iteration [i] of [fade_to] computes. *)
Definition brightness_at (start target steps i : Z) : Z :=
  let t := (inject_Z i / inject_Z steps)%Q in
  let eased_t := eased t in
  let brightness_float :=
    (inject_Z start + inject_Z (target - start) * eased_t)%Q in
  Py.round brightness_float.

(** One iteration of the loop of [fade_to]; the loop carries the
    display and [last_brightness]. *)
Definition fade_iter (start target steps : Z)
    (acc : DisplayController * Z) (i : Z) : DisplayController * Z :=
  let (w, last_brightness) := acc in
  let brightness := brightness_at start target steps i in
  if negb (brightness =? last_brightness) then
    (snd (set_brightness w brightness), brightness)
  else (w, last_brightness).

(** What the loop of [fade_to] maintains when the writes go
    through: the tracked brightness is the start value as long
    as nothing was written, and the clamped last value
    afterwards. *)
Definition fade_invariant (start maxb : Z) (acc : DisplayController * Z) : Prop :=
  max_brightness (fst acc) = maxb
  /\ ((snd acc = start /\ current_brightness (fst acc) = start)
      \/ current_brightness (fst acc) = Z.max 0 (Z.min (snd acc) maxb)).

(** What the loop of [fade_to] has written when the writes go
    through: nothing as long as the value has stayed on the start,
    and the clamped last value, latest, afterwards. *)
Definition written_invariant (start : Z) (w0 : DisplayController)
    (acc : DisplayController * Z) : Prop :=
  max_brightness (fst acc) = max_brightness w0
  /\ ((snd acc = start
       /\ written (fst acc) = written w0 /\ content (fst acc) = content w0)
      \/ (hd_error (written (fst acc))
          = Some (Z.max 0 (Z.min (snd acc) (max_brightness w0)))
          /\ content (fst acc) = Z.max 0 (Z.min (snd acc) (max_brightness w0)))).

(** The loop of [fade_to] for a settled number of steps. *)
Definition fade_loop (w : DisplayController) (start target steps : Z)
  : DisplayController :=
  fst (fold_left (fade_iter start target steps) (Py.range (steps + 1)) (w, start)).

(** The number of steps [fade_to] settles on: fewer than asked
    for when the pace would exceed a tenth of the 60Hz frame. In
    exact arithmetic: where [duration / min_step_delay] is within
    rounding of an integer, the program may settle on the
    neighbouring number of steps. *)
Definition settle_steps (duration : Q) (steps : Z) : option Z :=
  match Py.div duration (inject_Z steps) with
  | None => None
  | Some step_delay =>
      if Py.ltb step_delay min_step_delay then
        let steps := Py.int (duration / min_step_delay) in
        match Py.div duration (inject_Z steps) with
        | None => None
        | Some _ => Some steps
        end
      else Some steps
  end.

(** [DisplayController.fade_to], run to its end without being
    cancelled. *)
Definition fade_to (w : DisplayController) (target : Z) (duration : Q)
    (steps : option Z) : option DisplayController :=
  let target := Z.max 0 (Z.min target (max_brightness w)) in
  let start := current_brightness w in
  if start =? target then Some w
  else
    let steps :=
      match steps with
      | None => fade_steps config
      | Some s => s
      end in
    match settle_steps duration steps with
    | None => None
    | Some steps => Some (fade_loop w start target steps)
    end.

End Controller.

End WithConfig.

End Script.

(** ** Diagnostics and reset of the presence detector ([_old/proximity.py]) *)

Module Diagnostics.

Import Proximity.

(** [sum(l)] on a list of booleans, [True] counting for 1. *)
Definition sum (l : list bool) : Z :=
  fold_left (fun acc (b : bool) => acc + (if b then 1 else 0)) l 0.

(** The slice [l[-n:]]: the last [n] elements, or all of them. *)
Definition last_n {A : Type} (n : nat) (l : list A) : list A :=
  skipn (List.length l - n) l.

(** [get_detection_confidence] *)
Definition get_detection_confidence (d : ProximityDetector) : Q :=
  match detection_history (state d) with
  | [] => 0
  | h =>
      let recent_detections := sum (last_n 10 h) in
      (inject_Z recent_detections
       / inject_Z (Z.min 10 (Z.of_nat (List.length h))))%Q
  end.

(** The entry ["recent_detection_rate"] of [get_detection_stats]. *)
Definition recent_detection_rate (d : ProximityDetector) : Q :=
  match detection_history (state d) with
  | [] => 0
  | h =>
      (inject_Z (sum (last_n 5 h))
       / inject_Z (Z.min 5 (Z.of_nat (List.length h))))%Q
  end.

(** [reset_detection_state] *)
Definition reset_detection_state (d : ProximityDetector) : ProximityDetector :=
  {| config := config d; state := DetectionState_init;
     _last_valid_distance := None; _detection_start_time := None;
     ticks := ticks d |}.

(** The same detector with another verdict history. *)
Definition with_history (h : list bool) (d : ProximityDetector) : ProximityDetector :=
  with_state
    {| human_present := human_present (state d);
       consecutive_detections := consecutive_detections (state d);
       consecutive_non_detections := consecutive_non_detections (state d);
       last_detection_time := last_detection_time (state d);
       detection_history := h |} d.

(** What a detector shows of itself apart from the history: presence,
    counters, stored distance, detection start and clock position. *)
Definition observable (d : ProximityDetector)
  : bool * Z * Z * option Z * option Q * nat :=
  (human_present (state d), consecutive_detections (state d),
   consecutive_non_detections (state d), _last_valid_distance d,
   _detection_start_time d, ticks d).

(** The same detector after [k] more readings of the clock. *)
Definition later (k : nat) (d : ProximityDetector) : ProximityDetector :=
  {| config := config d; state := state d;
     _last_valid_distance := _last_valid_distance d;
     _detection_start_time := _detection_start_time d;
     ticks := ticks d + k |}.

(** A reading that [process_reading] hands to
    [_handle_invalid_reading]: none, or one flagged invalid. *)
Definition invalid (r : option ProximityReading) : Prop :=
  match r with
  | None => True
  | Some r => valid r = false
  end.

(** A valid reading beyond the distance threshold. *)
Definition far (c : DetectionConfig) (r : ProximityReading) : Prop :=
  valid r = true /\ threshold_mm c < distance_mm r.

(** A run of valid readings that are close enough, seen by enough
    zones, and each within 300mm of the distance stored before it. *)
Fixpoint steady (c : DetectionConfig) (last : option Z) (rs : list ProximityReading)
  : Prop :=
  match rs with
  | [] => True
  | r :: rs' =>
      valid r = true
      /\ distance_mm r <= threshold_mm c
      /\ detection_zones c <= zones_in_range r
      /\ match last with
         | None => True
         | Some l => Z.abs (distance_mm r - l) <= 300
         end
      /\ steady c (Some (distance_mm r)) rs'
  end.

End Diagnostics.

(** ** From a sensor frame to a reading ([sensors/proximity_sensor.py]) *)

Module Sensor.

Import Proximity.

(** The ranging data of one frame: a distance and a target status per
    zone. *)
Record RangingData := {
  data_distance_mm : list Z;
  data_target_status : list Z
}.

Definition center_zones : list Z :=
  [18; 19; 20; 21; 26; 27; 28; 29; 34; 35; 36; 37; 42; 43; 44; 45].

(** [l[i]] for an index that is not negative; [None] is an
    [IndexError]. *)
Definition index (l : list Z) (i : Z) : option Z :=
  nth_error l (Z.to_nat i).

(** One iteration of the loop of [_process_ranging_data] over
    [(valid_distances, zones_in_range)]. *)
Definition zone_step (data : RangingData) (acc : option (list Z * Z)) (i : Z)
  : option (list Z * Z) :=
  match acc with
  | None => None
  | Some (valid_distances, zones_in_range) =>
      if i <? Z.of_nat (List.length (data_distance_mm data)) then
        match index (data_distance_mm data) i, index (data_target_status data) i with
        | Some distance, Some target_status =>
            let zone_threshold := 2000 in
            if ((target_status =? 6) || (target_status =? 13))
               && ((50 <=? distance) && (distance <=? 4000))
            then
              Some ((valid_distances ++ [distance])%list,
                    if distance <=? zone_threshold then zones_in_range + 1
                    else zones_in_range)
            else Some (valid_distances, zones_in_range)
        | _, _ => None
        end
      else Some (valid_distances, zones_in_range)
  end.

(** [min(l)] of a list that is not empty. *)
Definition minimum (x : Z) (l : list Z) : Z := fold_left Z.min l x.

(** [_process_ranging_data]; [None] is the [IndexError] of a frame
    with fewer target statuses than distances. The distances are
    integers, so [int(min_distance)] changes nothing, and [now] is the
    time with which [__post_init__] stamps the reading. *)
Definition _process_ranging_data (now : Q) (data : RangingData)
  : option ProximityReading :=
  match fold_left (zone_step data) center_zones (Some ([], 0)) with
  | None => None
  | Some (valid_distances, zones_in_range) =>
      let min_distance :=
        match valid_distances with
        | [] => 4000
        | x :: l => minimum x l
        end in
      Some {| distance_mm := min_distance;
              zones_in_range := zones_in_range;
              valid := 0 <? Z.of_nat (List.length valid_distances);
              timestamp := now |}
  end.

(** Zone [i] holds a usable distance [x]: a valid target status and a
    distance within the range of the sensor. *)
Definition usable (data : RangingData) (i x : Z) : Prop :=
  index (data_distance_mm data) i = Some x
  /\ (exists s, index (data_target_status data) i = Some s /\ (s = 6 \/ s = 13))
  /\ 50 <= x <= 4000.

(** How many of the distances are within the zone threshold. *)
Definition near (l : list Z) : Z :=
  Z.of_nat (List.length (filter (fun x => x <=? 2000) l)).

(** A frame with a target status for every distance. *)
Definition well_formed (data : RangingData) : Prop :=
  (List.length (data_distance_mm data) <= List.length (data_target_status data))%nat.

(** What [read] hands to the detector: nothing, or the reading made
    of some frame (the latest one, or the one kept from before). *)
Definition from_sensor (r : option ProximityReading) : Prop :=
  r = None
  \/ exists now data, well_formed data /\ r = _process_ranging_data now data.

End Sensor.

(** ** The frame detector of the script ([proximity_display_control.py]) *)

Module FrameDetector.

(** The [Detection] section of the global [config]. *)
Record DetectionDefaults := {
  config_threshold_mm : Z;
  config_detection_zones : Z;
  config_consecutive_required : Z;
  config_no_presence_required : Z
}.

Record ProximityDetector := {
  threshold_mm : Z;
  detection_zones : Z;
  consecutive_required : Z;
  no_presence_required : Z;
  consecutive_detections : Z;
  no_presence_count : Z
}.

(** [x or y] for an optional integer [x]: [None] and 0 are falsy. *)
Definition or_default (x : option Z) (y : Z) : Z :=
  match x with
  | None => y
  | Some v => if v =? 0 then y else v
  end.

(** [ProximityDetector(threshold_mm, detection_zones,
    consecutive_required, no_presence_required)] *)
Definition ProximityDetector_init (config : DetectionDefaults)
    (threshold_mm detection_zones consecutive_required no_presence_required : option Z)
  : ProximityDetector :=
  {| threshold_mm := or_default threshold_mm (config_threshold_mm config);
     detection_zones := or_default detection_zones (config_detection_zones config);
     consecutive_required :=
       or_default consecutive_required (config_consecutive_required config);
     no_presence_required :=
       or_default no_presence_required (config_no_presence_required config);
     consecutive_detections := 0;
     no_presence_count := 0 |}.

Definition set_counts (cd npc : Z) (d : ProximityDetector) : ProximityDetector :=
  {| threshold_mm := threshold_mm d;
     detection_zones := detection_zones d;
     consecutive_required := consecutive_required d;
     no_presence_required := no_presence_required d;
     consecutive_detections := cd;
     no_presence_count := npc |}.

(** The test of [analyze_distances] on one frame: enough zones see
    something closer than the threshold. *)
Definition presence_detected (d : ProximityDetector) (distances : list Z) : bool :=
  let close_distances :=
    filter (fun x => (0 <? x) && (x <? threshold_mm d)) distances in
  let zones_detected := Z.of_nat (List.length close_distances) in
  detection_zones d <=? zones_detected.

(** [analyze_distances] *)
Definition analyze_distances (d : ProximityDetector) (distances : list Z)
  : bool * ProximityDetector :=
  if presence_detected d distances then
    let d1 := set_counts (consecutive_detections d + 1) 0 d in
    if consecutive_required d1 <=? consecutive_detections d1 then (true, d1)
    else (consecutive_required d1 <=? consecutive_detections d1, d1)
  else
    let d1 := set_counts 0 (no_presence_count d + 1) d in
    if no_presence_required d1 <=? no_presence_count d1 then (false, d1)
    else (consecutive_required d1 <=? consecutive_detections d1, d1).

(** The detector after a sequence of frames. *)
Definition run (d : ProximityDetector) (frames : list (list Z)) : ProximityDetector :=
  fold_left (fun d f => snd (analyze_distances d f)) frames d.

End FrameDetector.

(** ** The air quality score of the script ([proximity_display_control.py]) *)

Module Environment.

Record EnvironmentalData := {
  temperature : Q;
  pressure : Q;
  humidity : Q;
  gas_resistance : Q;
  air_quality_score : Z
}.

(** [current_data] as [__init__] sets it. *)
Definition EnvironmentalData_init : EnvironmentalData :=
  {| temperature := 0; pressure := 0; humidity := 0; gas_resistance := 0;
     air_quality_score := 0 |}.

(** What the sensor library holds after a measurement. *)
Record SensorData := {
  data_temperature : Q;
  data_pressure : Q;
  data_humidity : Q;
  data_gas_resistance : Q;
  data_heat_stable : bool
}.

(** The outcome of [sensor.get_sensor_data()]: an exception, no new
    data, or new data. *)
Inductive Measurement :=
| Raises
| NoData
| NewData (data : SensorData).

(** [min(a, b)] and [max(a, b)] on floats: the first argument unless
    the second is strictly smaller, respectively larger. *)
Definition min (a b : Q) : Q := if Py.ltb b a then b else a.

Definition max (a b : Q) : Q := if Py.ltb a b then b else a.

(** The score that [read_environmental_data] derives from the gas
    resistance, before [int]. In exact arithmetic: within rounding of
    the upper edge of a band the program may reach the next integer. *)
Definition air_quality (gas_res : Q) : Q :=
  if Py.ltb 200000 gas_res then 90 + min 10 ((gas_res - 200000) / 50000)
  else if Py.ltb 100000 gas_res then 70 + (gas_res - 100000) / 5000
  else if Py.ltb 50000 gas_res then 40 + (gas_res - 50000) / 2500
  else if Py.ltb 10000 gas_res then 10 + (gas_res - 10000) / 1334
  else max 0 (gas_res / 1000).

(** [read_environmental_data] *)
Definition read_environmental_data (enabled has_sensor gas_enabled : bool)
    (m : Measurement) (current_data : EnvironmentalData) : EnvironmentalData :=
  if negb enabled || negb has_sensor then current_data
  else
    match m with
    | Raises => current_data
    | NoData => current_data
    | NewData data =>
        {| temperature := data_temperature data;
           pressure := data_pressure data;
           humidity := data_humidity data;
           gas_resistance :=
             if data_heat_stable data then data_gas_resistance data else 0;
           air_quality_score :=
             if data_heat_stable data && gas_enabled
             then Py.int (air_quality (data_gas_resistance data))
             else air_quality_score current_data |}
    end.

(** [get_air_quality_description] *)
Definition get_air_quality_description (current_data : EnvironmentalData) : string :=
  let score := air_quality_score current_data in
  if 90 <=? score then "Excellent 🌟"
  else if 70 <=? score then "Good 😊"
  else if 40 <=? score then "Moderate 😐"
  else if 10 <=? score then "Poor 😞"
  else "Very Poor ⚠️".

End Environment.

(** ** The display manager ([sensors/display_manager.py]) *)

Module Manager.

Definition FADE_STEP : Z := 5.

(** [range(start, stop, step)] for a step that is not zero. *)
Definition range3 (start stop step : Z) : list Z :=
  let n :=
    if 0 <? step then
      if start <? stop then (stop - start + step - 1) / step else 0
    else
      if stop <? start then (start - stop - step - 1) / (- step) else 0 in
  map (fun i => start + i * step) (Py.range n).

(** The manager and the brightness file it drives: [content] is what
    the file holds, [readable] whether reading it goes through,
    [written] the values written so far (latest first), [attempts] the
    number of writes tried so far. *)
Record DisplayManager := {
  config : Display.DisplayConfig;
  state : Display.DisplayState;
  max_brightness : Z;
  content : Z;
  readable : bool;
  written : list Z;
  attempts : nat
}.

Section Manager.

(** The k-th write of a run goes through iff [io k = true]; a write
    that does not raises, and nothing catches it. *)
Variable io : nat -> bool.

(** [set_brightness]; [None] is the exception. *)
Definition set_brightness (w : DisplayManager) (value : Z) : option DisplayManager :=
  let value := Z.max 0 (Z.min value (max_brightness w)) in
  if io (attempts w) then
    Some {| config := config w; state := state w;
            max_brightness := max_brightness w;
            content := value; readable := readable w;
            written := value :: written w; attempts := S (attempts w) |}
  else None.

(** [get_brightness] *)
Definition get_brightness (w : DisplayManager) : Z :=
  if readable w then content w else max_brightness w.

(** The loop of [fade_to]: the values are written one after the
    other, up to the first write that raises. *)
Definition write_all (l : list Z) (acc : option DisplayManager) : option DisplayManager :=
  fold_left
    (fun acc b =>
       match acc with
       | None => None
       | Some w => set_brightness w b
       end) l acc.

(** [fade_to]; the pauses between the writes are left out. *)
Definition fade_to (w : DisplayManager) (target : Z) : option DisplayManager :=
  let current := get_brightness w in
  let step := if current <? target then FADE_STEP else - FADE_STEP in
  if step =? 0 then Some w
  else
    match write_all (range3 current target step) (Some w) with
    | None => None
    | Some w1 => set_brightness w1 target
    end.

(** [set_adaptive_brightness] *)
Definition set_adaptive_brightness (w : DisplayManager) (lux : Q) : option DisplayManager :=
  if negb (Display.adaptive_brightness_enabled (config w)) then Some w
  else
    let target := Display.adaptive_target (config w) lux in
    if 10 <? Z.abs (target - Display.target_brightness (state w)) then
      fade_to w target
    else Some w.

End Manager.

(** The value that [set_brightness] writes for a request [v]. *)
Definition clamp (w : DisplayManager) (v : Z) : Z :=
  Z.max 0 (Z.min v (max_brightness w)).

(** The values that [fade_to] asks for, in order. *)
Definition requested (w : DisplayManager) (target : Z) : list Z :=
  let current := get_brightness w in
  (range3 current target (if current <? target then FADE_STEP else - FADE_STEP)
   ++ [target])%list.

End Manager.

(** ** Vocabulary of the statements about writes *)

Module Writes.

(** No two neighbours of the list are equal. *)
Definition no_repeat (l : list Z) : Prop :=
  forall i a b, nth_error l i = Some a -> nth_error l (S i) = Some b -> a <> b.

(** Neighbours of the list are at most [k] apart. *)
Definition stride (k : Z) (l : list Z) : Prop :=
  forall i a b, nth_error l i = Some a -> nth_error l (S i) = Some b ->
                Z.abs (b - a) <= k.

End Writes.

(** * Properties of the numeric primitives *)

Section PyFacts.

Local Open Scope Q_scope.

Lemma Qle_bool_false (x y : Q) : Qle_bool x y = false <-> y < x.
Proof.
  rewrite <- not_true_iff_false, Qle_bool_iff. split.
  - apply Qnot_le_lt.
  - apply Qlt_not_le.
Qed.

Lemma ltb_lt (x y : Q) : Py.ltb x y = true <-> x < y.
Proof. unfold Py.ltb. rewrite negb_true_iff. apply Qle_bool_false. Qed.

Lemma ltb_ge (x y : Q) : Py.ltb x y = false <-> y <= x.
Proof. unfold Py.ltb. rewrite negb_false_iff. apply Qle_bool_iff. Qed.

Lemma Qeq_bool_inject_Z (z : Z) : Qeq_bool (inject_Z z) 0 = true <-> z = 0%Z.
Proof.
  rewrite Qeq_bool_iff. change 0 with (inject_Z 0).
  apply inject_Z_injective.
Qed.

(** A division by a nonzero integer goes through. *)
Lemma div_inject_Z (x : Q) (z : Z) :
  z <> 0%Z -> Py.div x (inject_Z z) = Some (x / inject_Z z).
Proof.
  intros Hz. unfold Py.div.
  destruct (Qeq_bool (inject_Z z) 0) eqn:E; [|reflexivity].
  apply Qeq_bool_inject_Z in E. contradiction.
Qed.

(** [int] is monotone. *)
Lemma int_mono (x y : Q) : x <= y -> (Py.int x <= Py.int y)%Z.
Proof.
  intros Hxy. unfold Py.int.
  destruct (Qle_bool 0 x) eqn:Hx; destruct (Qle_bool 0 y) eqn:Hy.
  - now apply Qfloor_resp_le.
  - apply Qle_bool_iff in Hx. apply Qle_bool_false in Hy. lra.
  - apply Qle_bool_false in Hx. apply Qle_bool_iff in Hy.
    transitivity 0%Z.
    + change 0%Z with (Qceiling 0). apply Qceiling_resp_le. lra.
    + change 0%Z with (Qfloor 0). now apply Qfloor_resp_le.
  - now apply Qceiling_resp_le.
Qed.

(** [int] leaves integers alone. *)
Lemma int_Z (z : Z) : Py.int (inject_Z z) = z.
Proof.
  unfold Py.int. destruct (Qle_bool 0 (inject_Z z));
    [apply Qfloor_Z | apply Qceiling_Z].
Qed.

Lemma int_between (a b : Z) (x : Q) :
  inject_Z a <= x -> x <= inject_Z b -> (a <= Py.int x <= b)%Z.
Proof.
  intros Ha Hb. split.
  - rewrite <- (int_Z a). now apply int_mono.
  - rewrite <- (int_Z b). now apply int_mono.
Qed.

(** [round] stays within one half of its argument's floor side: it is
    the floor or the floor plus one, the latter only above the floor. *)
Lemma round_cases (x : Q) :
  Py.round x = Qfloor x
  \/ (Py.round x = (Qfloor x + 1)%Z /\ inject_Z (Qfloor x) < x).
Proof.
  unfold Py.round.
  destruct (Qcompare_spec (x - inject_Z (Qfloor x)) (1 # 2)) as [H|H|H].
  - destruct (Z.even (Qfloor x)); [now left|]. right. split; [reflexivity|].
    lra.
  - now left.
  - right. split; [reflexivity|]. lra.
Qed.

Lemma round_between (a b : Z) (x : Q) :
  inject_Z a <= x -> x <= inject_Z b -> (a <= Py.round x <= b)%Z.
Proof.
  intros Ha Hb.
  assert (Hfa : (a <= Qfloor x)%Z).
  { rewrite <- (Qfloor_Z a). now apply Qfloor_resp_le. }
  assert (Hfb : (Qfloor x <= b)%Z).
  { rewrite <- (Qfloor_Z b). now apply Qfloor_resp_le. }
  destruct (round_cases x) as [H|[H Hlt]]; rewrite H; [lia|].
  split; [lia|].
  assert (Hs : inject_Z (Qfloor x) < inject_Z b) by lra.
  rewrite <- Zlt_Qlt in Hs. lia.
Qed.

(** [round] leaves integers alone. *)
Lemma round_Z (z : Z) (x : Q) : x == inject_Z z -> Py.round x = z.
Proof.
  intros H. assert (z <= Py.round x <= z)%Z; [|lia].
  apply round_between; rewrite H; apply Qle_refl.
Qed.

Lemma range_succ (n : Z) :
  (0 <= n)%Z -> Py.range (n + 1) = (Py.range n ++ [n])%list.
Proof.
  intros Hn. unfold Py.range.
  replace (Z.to_nat (n + 1)) with (S (Z.to_nat n)) by lia.
  rewrite seq_S, map_app. cbn. now rewrite Z2Nat.id.
Qed.

Lemma range_bounds (n i : Z) : In i (Py.range n) -> (0 <= i < n)%Z.
Proof.
  unfold Py.range. rewrite in_map_iff. intros (k & <- & Hk).
  apply in_seq in Hk. lia.
Qed.

(** Products of numbers of the unit interval stay in it. *)
Lemma unit_mult (a b : Q) :
  0 <= a <= 1 -> 0 <= b <= 1 -> 0 <= a * b <= 1.
Proof. intros Ha Hb. nra. Qed.

End PyFacts.

(** * Properties of the presence detector *)

Section ProximityFacts.

Import Proximity.

Variable clock : nat -> Q.

Ltac step_case :=
  match goal with
  | H : ?b = _ |- context [?b] => rewrite H
  | |- context [if ?b then _ else _] => destruct b eqn:?
  | |- context [match ?x with Some _ => _ | None => _ end] =>
      destruct x eqn:?
  end; cbn in *.

Ltac step_cases := cbn in *; repeat step_case.

(** The state after a valid reading, field by field. *)
Lemma process_reading_valid (d : ProximityDetector) (r : ProximityReading) :
  valid r = true ->
  let d' := snd (process_reading clock d (Some r)) in
  let detected := _is_detection_criteria_met d r in
  config d' = config d
  /\ _last_valid_distance d' = Some (distance_mm r)
  /\ consecutive_detections (state d')
     = (if detected then consecutive_detections (state d) + 1 else 0)
  /\ consecutive_non_detections (state d')
     = (if detected then 0 else consecutive_non_detections (state d) + 1)
  /\ human_present (state d')
     = (if human_present (state d)
        then negb
               ((no_presence_required (config d)
                 <=? consecutive_non_detections (state d'))
                && match _detection_start_time d with
                   | None => true
                   | Some start => Qle_bool 2 (clock (ticks d) - start)
                   end)
        else consecutive_required (config d) <=? consecutive_detections (state d'))
  /\ fst (process_reading clock d (Some r)) = human_present (state d').
Proof.
  intros Hv d' detected. subst d' detected.
  unfold process_reading. rewrite Hv. cbn [negb].
  destruct (_is_detection_criteria_met d r) eqn:Hdet;
  destruct (human_present (state d)) eqn:Hp;
  unfold _should_trigger_detection, _should_trigger_non_detection.
  all: step_cases.
  all: repeat split; step_cases; try reflexivity; try congruence; try lia.
Qed.

(** The state after a missing or invalid reading. *)
Lemma process_reading_invalid (d : ProximityDetector) (r : option ProximityReading) :
  match r with None => True | Some r => valid r = false end ->
  let d' := snd (process_reading clock d r) in
  config d' = config d
  /\ consecutive_detections (state d') = 0
  /\ consecutive_non_detections (state d')
     = consecutive_non_detections (state d) + 1.
Proof.
  intros Hr. destruct r as [r|]; unfold process_reading; [rewrite Hr|];
    cbn [negb]; unfold _handle_invalid_reading; step_cases; auto.
Qed.

Lemma process_reading_config (d : ProximityDetector) (r : option ProximityReading) :
  config (snd (process_reading clock d r)) = config d.
Proof.
  destruct r as [r|].
  - destruct (valid r) eqn:Hv.
    + apply (process_reading_valid d r Hv).
    + apply (process_reading_invalid d (Some r) Hv).
  - apply (process_reading_invalid d None I).
Qed.

Lemma run_app (d : ProximityDetector) (l1 l2 : list (option ProximityReading)) :
  run clock d (l1 ++ l2) = run clock (run clock d l1) l2.
Proof. unfold run. apply fold_left_app. Qed.

Lemma run_config (l : list (option ProximityReading)) (d : ProximityDetector) :
  config (run clock d l) = config d.
Proof.
  revert d. induction l as [|r l IH]; intros d; [reflexivity|].
  cbn. unfold run in IH. rewrite IH. apply process_reading_config.
Qed.

(** One call leaves at least one of the two counters at zero. *)
Lemma process_reading_exclusive (d : ProximityDetector) (r : option ProximityReading) :
  counters_exclusive (state (snd (process_reading clock d r))).
Proof.
  unfold counters_exclusive.
  destruct r as [r|]; [destruct (valid r) eqn:Hv|].
  - destruct (process_reading_valid d r Hv) as (_ & _ & Hcd & Hcnd & _).
    destruct (_is_detection_criteria_met d r); auto.
  - left. apply (process_reading_invalid d (Some r) Hv).
  - left. apply (process_reading_invalid d None I).
Qed.


(** The boolean test for leaving, as a proposition. *)
Lemma leaving_iff (n cnd : Z) (start : option Q) (now : Q) :
  negb ((n <=? cnd)
        && match start with
           | None => true
           | Some s => Qle_bool 2 (now - s)
           end) = false
  <-> n <= cnd
      /\ match start with
         | None => True
         | Some s => (2 <= now - s)%Q
         end.
Proof.
  rewrite negb_false_iff, andb_true_iff, Z.leb_le.
  destruct start as [s|]; [rewrite Qle_bool_iff|]; intuition.
Qed.

(** C1. Along every sequence of readings, a valid reading turns
    presence on exactly when the detection counter has reached
    [consecutive_required], and turns it off exactly when the
    non-detection counter has reached [no_presence_required] and two
    seconds have passed since the recorded detection start; without a
    recorded start the counter alone decides. The defaults of the two
    thresholds are 3 and 10. *)
Theorem presence_transitions
    (c : DetectionConfig) (pre : list (option ProximityReading))
    (r : ProximityReading) :
  valid r = true ->
  let d := run clock (ProximityDetector_init c) pre in
  let d' := snd (process_reading clock d (Some r)) in
  (human_present (state d) = false ->
     (human_present (state d') = true
      <-> consecutive_required c <= consecutive_detections (state d')))
  /\ (human_present (state d) = true ->
     (human_present (state d') = false
      <-> no_presence_required c <= consecutive_non_detections (state d')
          /\ match _detection_start_time d with
             | None => True
             | Some start => (2 <= clock (ticks d) - start)%Q
             end))
  /\ consecutive_required default_config = 3
  /\ no_presence_required default_config = 10.
Proof.
  intros Hv d d'.
  destruct (process_reading_valid d r Hv) as (_ & _ & _ & _ & Hp & _).
  fold d' in Hp. assert (Hc : config d = c) by apply run_config.
  rewrite Hc in Hp.
  split; [intros Hf; rewrite Hp, Hf; apply Z.leb_le|].
  split; [intros Ht; rewrite Hp, Ht; apply leaving_iff|].
  split; reflexivity.
Qed.

(** C2. After any sequence of calls of [process_reading] from the
    initial state, with valid, invalid and missing readings, one of
    the two counters is zero; and one more call either increments the
    detection counter and zeroes the other, or zeroes the detection
    counter and increments the other. *)
Theorem counters_never_both_nonzero
    (c : DetectionConfig) (readings : list (option ProximityReading))
    (r : option ProximityReading) :
  let d := run clock (ProximityDetector_init c) readings in
  let d' := snd (process_reading clock d r) in
  counters_exclusive (state d)
  /\ ((consecutive_detections (state d') = consecutive_detections (state d) + 1
       /\ consecutive_non_detections (state d') = 0)
      \/ (consecutive_detections (state d') = 0
          /\ consecutive_non_detections (state d')
             = consecutive_non_detections (state d) + 1)).
Proof.
  intros d d'. split.
  - subst d. destruct readings as [|r0 l] using rev_ind.
    + left. reflexivity.
    + rewrite run_app. cbn. apply process_reading_exclusive.
  - subst d'. destruct r as [r|]; [destruct (valid r) eqn:Hv|].
    + destruct (process_reading_valid d r Hv) as (_ & _ & Hcd & Hcnd & _).
      destruct (_is_detection_criteria_met d r); [left|right]; split; assumption.
    + right. apply (process_reading_invalid d (Some r) Hv).
    + right. apply (process_reading_invalid d None I).
Qed.


(** C4, amended. With [consecutive_required] at least 1, a valid
    reading more than 300mm away from the stored distance is counted
    as a non-detection: it never turns presence on, and it turns
    presence off exactly when it completes the no-presence window
    (with the dwell guard). *)
Theorem jump_reading_is_non_detection
    (d : ProximityDetector) (r : ProximityReading) (last : Z) :
  valid r = true ->
  _last_valid_distance d = Some last ->
  300 < Z.abs (distance_mm r - last) ->
  1 <= consecutive_required (config d) ->
  let d' := snd (process_reading clock d (Some r)) in
  consecutive_detections (state d') = 0
  /\ consecutive_non_detections (state d')
     = consecutive_non_detections (state d) + 1
  /\ (human_present (state d) = false -> human_present (state d') = false)
  /\ (human_present (state d) = true ->
      (human_present (state d') = false
       <-> no_presence_required (config d)
           <= consecutive_non_detections (state d) + 1
           /\ match _detection_start_time d with
              | None => True
              | Some start => (2 <= clock (ticks d) - start)%Q
              end)).
Proof.
  intros Hv Hl Hj Hc d'.
  assert (Hdet : _is_detection_criteria_met d r = false).
  { unfold _is_detection_criteria_met, _validate_movement. rewrite Hl.
    apply Z.ltb_lt in Hj. rewrite Hj. apply andb_false_r. }
  destruct (process_reading_valid d r Hv) as (_ & _ & Hcd & Hcnd & Hp & _).
  fold d' in Hcd, Hcnd, Hp. rewrite Hdet in Hcd, Hcnd.
  rewrite Hcd, Hcnd in Hp. rewrite Hcd, Hcnd.
  split; [reflexivity|]. split; [reflexivity|].
  split; [intros Hf; rewrite Hp, Hf; apply Z.leb_gt; lia|].
  intros Ht. rewrite Hp, Ht. apply leaving_iff.
Qed.

End ProximityFacts.

(** Witness of C1: a clock that advances by one second per call, and
    the third of three close readings, which turns presence on. *)
Lemma presence_transitions_witness :
  let clock := fun k : nat => inject_Z (Z.of_nat k) in
  let r := Proximity.reading 300 8 in
  let d := Proximity.run clock
             (Proximity.ProximityDetector_init Proximity.default_config)
             [Some r; Some r] in
  Proximity.valid r = true
  /\ Proximity.human_present (Proximity.state d) = false
  /\ Proximity.human_present
       (Proximity.state (snd (Proximity.process_reading clock d (Some r)))) = true.
Proof.
  intros clock r d.
  assert (Hv : Proximity.valid r = true) by reflexivity.
  split; [exact Hv|]. split; [reflexivity|].
  destruct (presence_transitions clock Proximity.default_config
              [Some r; Some r] r Hv) as (Hon & _).
  apply Hon; [reflexivity|]. vm_compute. discriminate.
Defined.

(** C4, as stated, fails: after three close readings and nine distant
    ones, a tenth reading that jumps from 500mm to 2000mm completes the
    no-presence window and turns presence off. *)
Lemma jump_reading_clears_presence :
  let clock := fun k : nat => inject_Z (10 * Z.of_nat k) in
  let near := Some (Proximity.reading 300 8) in
  let away := Some (Proximity.reading 500 0) in
  let d := Proximity.run clock
             (Proximity.ProximityDetector_init Proximity.default_config)
             ([near; near; near] ++ repeat away 9) in
  let r := Proximity.reading 2000 0 in
  Proximity.valid r = true
  /\ Proximity._last_valid_distance d = Some 500
  /\ 300 < Z.abs (Proximity.distance_mm r - 500)
  /\ Proximity.human_present (Proximity.state d) = true
  /\ Proximity.human_present
       (Proximity.state (snd (Proximity.process_reading clock d (Some r)))) = false
  /\ Proximity.human_present
       (Proximity.state (snd (Proximity.process_reading clock d (Some r))))
     <> Proximity.human_present (Proximity.state d).
Proof. cbv zeta. repeat split. vm_compute. discriminate. Qed.

(** Witness of C4, amended, on the same run. *)
Lemma jump_reading_is_non_detection_witness :
  let clock := fun k : nat => inject_Z (10 * Z.of_nat k) in
  let near := Some (Proximity.reading 300 8) in
  let away := Some (Proximity.reading 500 0) in
  let d := Proximity.run clock
             (Proximity.ProximityDetector_init Proximity.default_config)
             ([near; near; near] ++ repeat away 9) in
  let r := Proximity.reading 2000 0 in
  (Proximity.valid r = true
   /\ Proximity._last_valid_distance d = Some 500
   /\ 300 < Z.abs (Proximity.distance_mm r - 500)
   /\ 1 <= Proximity.consecutive_required (Proximity.config d))
  /\ Proximity.consecutive_detections
       (Proximity.state (snd (Proximity.process_reading clock d (Some r)))) = 0
  /\ Proximity.consecutive_non_detections
       (Proximity.state (snd (Proximity.process_reading clock d (Some r)))) = 10.
Proof.
  intros clock near away d r.
  assert (H1 : Proximity.valid r = true) by reflexivity.
  assert (H2 : Proximity._last_valid_distance d = Some 500) by reflexivity.
  assert (H3 : 300 < Z.abs (Proximity.distance_mm r - 500)) by reflexivity.
  assert (H4 : 1 <= Proximity.consecutive_required (Proximity.config d))
    by (vm_compute; discriminate).
  split; [repeat split; assumption|].
  destruct (jump_reading_is_non_detection clock d r 500 H1 H2 H3 H4)
    as (Hcd & Hcnd & _).
  split; [exact Hcd|]. rewrite Hcnd. reflexivity.
Defined.

(** * Properties of the brightness mapping *)

Section MappingFacts.

Import Script.

Variable config : ProximityConfig.

(** Clamping into the brightness range is monotone. *)
Lemma clamp_mono (lo hi a b : Z) :
  a <= b -> Z.max lo (Z.min a hi) <= Z.max lo (Z.min b hi).
Proof. lia. Qed.

(** The interpolated value grows with the light level when the
    range is not empty. *)
Lemma interpolation_mono (lo hi l1 l2 : Q) (a d : Z) :
  (lo < hi)%Q -> 0 <= d -> (l1 <= l2)%Q ->
  (inject_Z a + (l1 - lo) / (hi - lo) * inject_Z d
   <= inject_Z a + (l2 - lo) / (hi - lo) * inject_Z d)%Q.
Proof.
  intros Hlh Hd Hl.
  assert (H0 : (0 <= inject_Z d)%Q) by (change 0%Q with (inject_Z 0); now rewrite <- Zle_Qle).
  assert (Hi : (0 <= / (hi - lo))%Q) by (apply Qinv_le_0_compat; lra).
  unfold Qdiv.
  apply Qplus_le_r, Qmult_le_compat_r; [|exact H0].
  apply Qmult_le_compat_r; [lra|exact Hi].
Qed.

(** The mapping of the script. With ordered thresholds,
    [calculate_adaptive_brightness] never decreases when the light
    level grows, and its result lies between [min_brightness] and
    [max_brightness] whenever these two bound a range. *)
Theorem adaptive_brightness_monotone_bounded
    (max_brightness : Z) (l1 l2 : Q) :
  (light_threshold_low config < light_threshold_high config)%Q ->
  (l1 <= l2)%Q ->
  calculate_adaptive_brightness config l1 max_brightness
  <= calculate_adaptive_brightness config l2 max_brightness
  /\ (min_brightness config <= max_brightness ->
      min_brightness config
      <= calculate_adaptive_brightness config l1 max_brightness
      <= max_brightness).
Proof.
  intros Hlh Hl. unfold calculate_adaptive_brightness.
  destruct (adaptive_brightness_enabled config); cbn [negb]; [|lia].
  split; [|lia].
  destruct (Z_le_gt_dec (min_brightness config) max_brightness) as [Hmm|Hmm];
    [|lia].
  destruct (Qle_bool l1 (light_threshold_low config)) eqn:H1.
  { lia. }
  destruct (Qle_bool l2 (light_threshold_low config)) eqn:H2.
  { apply Qle_bool_false in H1. apply Qle_bool_iff in H2. lra. }
  destruct (Qle_bool (light_threshold_high config) l2) eqn:H3.
  { lia. }
  destruct (Qle_bool (light_threshold_high config) l1) eqn:H4.
  { apply Qle_bool_iff in H4. apply Qle_bool_false in H3. lra. }
  apply clamp_mono, int_mono, interpolation_mono; [exact Hlh|lia|exact Hl].
Qed.

(** The target of [Display.set_adaptive_brightness] follows another
    line (a floor of [min_brightness + 50], a ramp from 50) and is
    not monotone once [min_brightness] is positive: in the dark the
    target is 70, just above the low threshold it is 50. *)
Lemma adaptive_target_not_monotone :
  let cfg :=
    {| Display.fade_in_duration := 2; Display.fade_out_duration := 3;
       Display.adaptive_brightness_enabled := true;
       Display.min_brightness := 20; Display.max_brightness := 255;
       Display.light_threshold_low := 10; Display.light_threshold_high := 500;
       Display.fade_duration := 1; Display.fade_steps := 600;
       Display.fade_easing := "quintic" |} in
  Display.adaptive_target cfg 10 = 70 /\ Display.adaptive_target cfg 11 = 50.
Proof. split; reflexivity. Qed.

End MappingFacts.

(** The mapping at the defaults of the script, for 100 and 250 lux. *)
Lemma adaptive_brightness_monotone_bounded_witness :
  ((Script.light_threshold_low Script.default_config
    < Script.light_threshold_high Script.default_config)%Q
   /\ (100 <= 250)%Q
   /\ Script.min_brightness Script.default_config <= 255)
  /\ Script.calculate_adaptive_brightness Script.default_config 100 255
     <= Script.calculate_adaptive_brightness Script.default_config 250 255
  /\ Script.min_brightness Script.default_config
     <= Script.calculate_adaptive_brightness Script.default_config 100 255
     <= 255.
Proof.
  assert (H1 : (Script.light_threshold_low Script.default_config
                < Script.light_threshold_high Script.default_config)%Q)
    by reflexivity.
  assert (H2 : (100 <= 250)%Q) by (vm_compute; discriminate).
  assert (H3 : Script.min_brightness Script.default_config <= 255)
    by (vm_compute; discriminate).
  split; [repeat split; assumption|].
  destruct (adaptive_brightness_monotone_bounded
              Script.default_config 255 100 250 H1 H2) as [Hm Hb].
  split; [exact Hm|exact (Hb H3)].
Defined.

(** C5, on the mapping of the display manager. The target of
    [DisplayManager.set_adaptive_brightness] is [min_brightness + 50]
    in the dark and a ramp from 50 above the low threshold, where the
    script ramps from [min_brightness] and clamps. With
    [min_brightness = 20] the manager fades the display to 70 at 10 lux
    and to 50 at 11 lux: more light, less brightness. With
    [min_brightness = 100] the target at 11 lux, 50, is below
    [min_brightness]; with [max_brightness = 40] it is 49, above
    [max_brightness]. *)
Theorem manager_adaptive_brightness_not_monotone :
  let io := fun _ : nat => true in
  let cfg := fun min_brightness max_brightness : Z =>
    {| Display.fade_in_duration := 2; Display.fade_out_duration := 3;
       Display.adaptive_brightness_enabled := true;
       Display.min_brightness := min_brightness;
       Display.max_brightness := max_brightness;
       Display.light_threshold_low := 10; Display.light_threshold_high := 500;
       Display.fade_duration := 1; Display.fade_steps := 600;
       Display.fade_easing := "quintic" |} in
  let w :=
    {| Manager.config := cfg 20 255;
       Manager.state := Display.DisplayState_init;
       Manager.max_brightness := 255; Manager.content := 0;
       Manager.readable := true; Manager.written := []; Manager.attempts := 0 |} in
  (10 <= 11)%Q
  /\ option_map Manager.content (Manager.set_adaptive_brightness io w 10) = Some 70
  /\ option_map Manager.content (Manager.set_adaptive_brightness io w 11) = Some 50
  /\ Display.adaptive_target (cfg 100 255) 11 = 50
  /\ 50 < Display.min_brightness (cfg 100 255)
  /\ Display.adaptive_target (cfg 0 40) 11 = 49
  /\ Display.max_brightness (cfg 0 40) < 49.
Proof.
  cbn zeta. split; [discriminate|].
  split; [vm_compute; reflexivity|]. split; [vm_compute; reflexivity|].
  repeat split.
Qed.

(** C9, as stated, fails: the mapping of 250 lux with bounds 0 and
    255 and thresholds 10 and 500 is 124, which is not within one of
    130. *)
Lemma adaptive_brightness_250_not_130 :
  let config :=
    {| Script.adaptive_brightness_enabled := true; Script.min_brightness := 0;
       Script.light_threshold_low := 10; Script.light_threshold_high := 500;
       Script.fade_steps := 120; Script.fade_easing := "ease_in_out" |} in
  ~ (129 <= Script.calculate_adaptive_brightness config 250 255 <= 131).
Proof. vm_compute. intros [H _]. apply H. reflexivity. Qed.

(** C9, amended. The mapping of 250 lux with bounds 0 and 255 and
    thresholds 10 and 500 is 124: the linear interpolation
    0 + (250 - 10) / (500 - 10) * (255 - 0) = 6120/49, between 124 and
    125, cut to its integer part. In double precision the interpolation
    lies between 124 and 125 as well. *)
Theorem adaptive_brightness_250_is_124 :
  let config :=
    {| Script.adaptive_brightness_enabled := true; Script.min_brightness := 0;
       Script.light_threshold_low := 10; Script.light_threshold_high := 500;
       Script.fade_steps := 120; Script.fade_easing := "ease_in_out" |} in
  Script.calculate_adaptive_brightness config 250 255 = 124
  /\ (inject_Z 0 + (250 - 10) / (500 - 10) * inject_Z (255 - 0) == 6120 # 49)%Q
  /\ (124 < 6120 # 49 < 125)%Q
  /\ Binary64.interpolate_250_within_124_125 = true.
Proof.
  cbv zeta. split; [reflexivity|]. split; [reflexivity|].
  split; [split; reflexivity|]. vm_compute. reflexivity.
Qed.

(** * Properties of the easing curves *)

Section EasingFacts.

Local Open Scope Q_scope.

(** Smoothstep, [t * t * (3 - 2 * t)]. *)
Lemma smoothstep_unit (t : Q) :
  Py.unit_interval t -> Py.unit_interval (t * t * (3 - 2 * t)).
Proof.
  unfold Py.unit_interval. intros [H0 H1].
  assert (Ht2 : 0 <= t * t <= 1) by (apply unit_mult; split; assumption).
  assert (Hc : 0 <= (1 - t) * (1 - t)) by nra.
  split; [nra|].
  assert (He : 1 - t * t * (3 - 2 * t) == (1 - t) * (1 - t) * (1 + 2 * t)) by ring.
  assert (0 <= (1 - t) * (1 - t) * (1 + 2 * t)) by (apply Qmult_le_0_compat; lra).
  lra.
Qed.

(** Smootherstep, [t * t * t * (t * (t * 6 - 15) + 10)]. *)
Lemma smootherstep_unit (t : Q) :
  Py.unit_interval t -> Py.unit_interval (t * t * t * (t * (t * 6 - 15) + 10)).
Proof.
  unfold Py.unit_interval. intros [H0 H1].
  assert (Ht2 : 0 <= t * t <= 1) by (apply unit_mult; split; assumption).
  assert (Ht3 : 0 <= t * t * t <= 1) by (apply unit_mult; [assumption|split; assumption]).
  assert (Hu2 : 0 <= (1 - t) * (1 - t) <= 1) by (apply unit_mult; split; lra).
  assert (Hu3 : 0 <= (1 - t) * (1 - t) * (1 - t) <= 1)
    by (apply unit_mult; [assumption|split; lra]).
  assert (Hq : 0 <= t * (t * 6 - 15) + 10) by nra.
  assert (Hr : 0 <= 6 * (t * t) + 3 * t + 1) by lra.
  assert (He : 1 - t * t * t * (t * (t * 6 - 15) + 10)
               == (1 - t) * (1 - t) * (1 - t) * (6 * (t * t) + 3 * t + 1)) by ring.
  split.
  - apply Qmult_le_0_compat; [apply Ht3|exact Hq].
  - assert (0 <= (1 - t) * (1 - t) * (1 - t) * (6 * (t * t) + 3 * t + 1))
      by (apply Qmult_le_0_compat; [apply Hu3|exact Hr]).
    lra.
Qed.

(** The two halves of the piecewise curves of [fade_to]. *)
Lemma cubic_in_out_unit (t : Q) :
  Py.unit_interval t -> Py.unit_interval (Script.cubic_in_out t).
Proof.
  unfold Py.unit_interval, Script.cubic_in_out. intros [H0 H1].
  destruct (Py.ltb t (1 # 2)) eqn:Hh.
  - apply ltb_lt in Hh.
    assert (Hd : 0 <= 2 * t <= 1) by lra.
    assert (Hd2 : 0 <= (2 * t) * (2 * t) <= 1) by (apply unit_mult; assumption).
    assert (Hd3 : 0 <= (2 * t) * (2 * t) * (2 * t) <= 1) by (apply unit_mult; assumption).
    assert (He : 4 * t * t * t == (1 # 2) * ((2 * t) * (2 * t) * (2 * t))) by ring.
    rewrite He. lra.
  - apply ltb_ge in Hh.
    set (u := -2 * t + 2).
    assert (Hu : 0 <= u <= 1) by (unfold u; lra).
    assert (Hu2 : 0 <= u * u <= 1) by (apply unit_mult; assumption).
    assert (Hu3 : 0 <= u * u * u <= 1) by (apply unit_mult; assumption).
    assert (He : 1 - u ^ 3 / 2 == 1 - (1 # 2) * (u * u * u)) by (simpl; field).
    rewrite He. lra.
Qed.

Lemma quintic_in_out_unit (t : Q) :
  Py.unit_interval t -> Py.unit_interval (Script.quintic_in_out t).
Proof.
  unfold Py.unit_interval, Script.quintic_in_out. intros [H0 H1].
  destruct (Py.ltb t (1 # 2)) eqn:Hh.
  - apply ltb_lt in Hh.
    assert (Hd : 0 <= 2 * t <= 1) by lra.
    assert (Hd2 : 0 <= (2 * t) * (2 * t) <= 1) by (apply unit_mult; assumption).
    assert (Hd3 : 0 <= (2 * t) * (2 * t) * (2 * t) <= 1) by (apply unit_mult; assumption).
    assert (Hd5 : 0 <= (2 * t) * (2 * t) * (2 * t) * ((2 * t) * (2 * t)) <= 1)
      by (apply unit_mult; assumption).
    assert (He : 16 * t * t * t * t * t
                 == (1 # 2) * ((2 * t) * (2 * t) * (2 * t) * ((2 * t) * (2 * t))))
      by ring.
    rewrite He. lra.
  - apply ltb_ge in Hh.
    set (u := -2 * t + 2).
    assert (Hu : 0 <= u <= 1) by (unfold u; lra).
    assert (Hu2 : 0 <= u * u <= 1) by (apply unit_mult; assumption).
    assert (Hu3 : 0 <= u * u * u <= 1) by (apply unit_mult; assumption).
    assert (Hu5 : 0 <= u * u * u * (u * u) <= 1) by (apply unit_mult; assumption).
    assert (He : 1 - u ^ 5 / 2 == 1 - (1 # 2) * (u * u * u * (u * u)))
      by (simpl; field).
    rewrite He. lra.
Qed.

(** Every curve of [_apply_easing] fixes 0 and 1 and maps the unit
    interval into itself. *)
Lemma apply_easing_unit (cfg : Display.DisplayConfig) (t : Q) :
  Display._apply_easing cfg 0 == 0
  /\ Display._apply_easing cfg 1 == 1
  /\ (Py.unit_interval t -> Py.unit_interval (Display._apply_easing cfg t)).
Proof.
  unfold Display._apply_easing.
  repeat match goal with
         | |- context [if ?b then _ else _] => destruct b
         end.
  all: split; [reflexivity|split; [reflexivity|intros Ht]].
  all: auto using smoothstep_unit, smootherstep_unit.
Qed.

(** Every curve of [fade_to] fixes 0 and 1 and maps the unit interval
    into itself. *)
Lemma eased_unit (config : Script.ProximityConfig) (t : Q) :
  Script.eased config 0 == 0
  /\ Script.eased config 1 == 1
  /\ (Py.unit_interval t -> Py.unit_interval (Script.eased config t)).
Proof.
  unfold Script.eased.
  repeat match goal with
         | |- context [if ?b then _ else _] => destruct b
         end.
  all: split; [reflexivity|split; [reflexivity|intros Ht]].
  all: auto using quintic_in_out_unit, cubic_in_out_unit.
Qed.

End EasingFacts.

(** * Properties of the fades *)

Section FadeValues.

Local Open Scope Q_scope.

(** A fraction [i / steps] of the loop counter lies in the unit
    interval. *)
Lemma progress_unit (steps i : Z) :
  (0 < steps)%Z -> (0 <= i <= steps)%Z ->
  Py.unit_interval (inject_Z i / inject_Z steps).
Proof.
  intros Hs [H0 H1]. unfold Py.unit_interval.
  assert (Hsq : 0 < inject_Z steps)
    by (change 0 with (inject_Z 0); now rewrite <- Zlt_Qlt).
  assert (Hi0 : 0 <= inject_Z i)
    by (change 0 with (inject_Z 0); now rewrite <- Zle_Qle).
  assert (Hi1 : inject_Z i <= inject_Z steps) by now rewrite <- Zle_Qle.
  split.
  - apply Qle_shift_div_l; [exact Hsq|]. lra.
  - apply Qle_shift_div_r; [exact Hsq|]. lra.
Qed.

(** A point of the segment from [a] to [b]. *)
Lemma lerp_between (a b : Z) (e : Q) :
  Py.unit_interval e ->
  inject_Z (Z.min a b) <= inject_Z a + inject_Z (b - a) * e
  /\ inject_Z a + inject_Z (b - a) * e <= inject_Z (Z.max a b).
Proof.
  unfold Py.unit_interval. intros [H0 H1].
  unfold Z.sub. rewrite inject_Z_plus, inject_Z_opp.
  destruct (Z.le_ge_cases a b) as [Hab|Hab].
  - rewrite Z.min_l, Z.max_r by lia. rewrite Zle_Qle in Hab. nra.
  - rewrite Z.min_r, Z.max_l by lia. rewrite Zle_Qle in Hab. nra.
Qed.

End FadeValues.

(** C10, as stated, fails in the arithmetic of the program. In double
    precision the quintic curve of [_old/display.py] passes 1 at the
    progress 174672/174673, by one rounding error; at that step of a
    fade from 255 to 12 in 174673 steps the worker hands a number
    between 11 and 12 to [int()] and so computes 11, below the
    target. *)
Lemma quintic_overshoots_in_binary64 :
  PrimFloat.ltb (Binary64.of_Z 1) (Binary64.eased_progress "quintic" 174673 174672)
  = true
  /\ Binary64.within (Binary64.of_Z 11) (Binary64.of_Z 12)
       (Binary64.brightness_float "quintic" 255 (12 - 255) 174673 174672)
     = true
  /\ 11 < Z.min 255 12.
Proof. split; [vm_compute; reflexivity|]. split; [vm_compute|]; reflexivity. Qed.

(** C10. In exact arithmetic, each easing curve of either
    implementation sends 0 to 0 and 1 to 1 and the unit interval into
    itself; hence the value computed at any step of a fade, by
    [_fade_worker] as by [fade_to], lies between the start and the
    target. In double precision, the three curves of [_old/display.py]
    stay in the unit interval at every step of a fade of the default
    600 steps, and the numbers handed to [int()] between the start and
    the target over the whole range of brightness, up and down. *)
Theorem fade_never_overshoots
    (cfg : Display.DisplayConfig) (config : Script.ProximityConfig)
    (start target steps i : Z) (t : Q) :
  0 < steps -> 0 <= i <= steps -> Py.unit_interval t ->
  (Display._apply_easing cfg 0 == 0 /\ Display._apply_easing cfg 1 == 1
   /\ Py.unit_interval (Display._apply_easing cfg t))%Q
  /\ (Script.eased config 0 == 0 /\ Script.eased config 1 == 1
      /\ Py.unit_interval (Script.eased config t))%Q
  /\ Z.min start target
     <= Display.new_brightness cfg start (target - start) target steps i
     <= Z.max start target
  /\ Z.min start target
     <= Script.brightness_at config start target steps i
     <= Z.max start target
  /\ (forall fade_easing,
        In fade_easing ["linear"; "ease_in_out"; "quintic"]%string ->
        Binary64.easing_within_unit fade_easing
          (Display.fade_steps Display.default_config) = true
        /\ Binary64.fade_within fade_easing 0 255
             (Display.fade_steps Display.default_config) = true
        /\ Binary64.fade_within fade_easing 255 0
             (Display.fade_steps Display.default_config) = true).
Proof.
  intros Hs Hi Ht.
  destruct (apply_easing_unit cfg t) as (A0 & A1 & At).
  destruct (eased_unit config t) as (E0 & E1 & Et).
  split; [auto|]. split; [auto|].
  pose proof (progress_unit steps i Hs Hi) as Hp.
  split; [|split].
  - unfold Display.new_brightness.
    destruct (i =? steps); [lia|].
    apply int_between; apply lerp_between;
      now apply (apply_easing_unit cfg (inject_Z i / inject_Z steps)).
  - unfold Script.brightness_at.
    apply round_between; apply lerp_between;
      now apply (eased_unit config (inject_Z i / inject_Z steps)).
  - intros fade_easing [<-|[<-|[<-|[]]]]; vm_compute; repeat split.
Qed.

(** Witness of C10: step 3 of 12 of a fade from 0 to 255 with the
    default curves. *)
Lemma fade_never_overshoots_witness :
  (0 < 12 /\ 0 <= 3 <= 12 /\ Py.unit_interval (1 # 4))
  /\ 0 <= Display.new_brightness Display.default_config 0 255 255 12 3 <= 255
  /\ 0 <= Script.brightness_at Script.default_config 0 255 12 3 <= 255.
Proof.
  assert (H1 : 0 < 12) by reflexivity.
  assert (H2 : 0 <= 3 <= 12) by (split; discriminate).
  assert (H3 : Py.unit_interval (1 # 4)) by (split; discriminate).
  split; [repeat split; (assumption || apply H2 || apply H3)|].
  destruct (fade_never_overshoots Display.default_config Script.default_config
              0 255 12 3 (1 # 4) H1 H2 H3) as (_ & _ & Hd & Hs & _).
  split; [exact Hd|exact Hs].
Defined.

Section WorkerFacts.

Import Display.

Variable io : nat -> bool.
Hypothesis io_ok : forall k, io k = true.

(** A write that goes through stores the clamped value in the file
    and leaves the tracked state alone. *)
Lemma write_brightness_ok (w : DisplayController) (b : Z) :
  _brightness_path w <> None ->
  let r := _write_brightness io w b in
  let clamped :=
    Z.max (min_brightness (config w)) (Z.min (max_brightness (config w)) b) in
  fst r = true
  /\ content (snd r) = clamped
  /\ written (snd r) = clamped :: written w
  /\ state (snd r) = state w
  /\ config (snd r) = config w
  /\ _brightness_path (snd r) = _brightness_path w.
Proof.
  intros Hp. unfold _write_brightness.
  destruct (_brightness_path w) eqn:E; [|congruence].
  rewrite io_ok. cbn. repeat split.
Qed.

(** What one iteration of the fade does when the write goes through. *)
Lemma fade_step_ok (start diff target steps : Z) (w : DisplayController) (step : Z) :
  _brightness_path w <> None ->
  let w' := fade_step io start diff target steps w step in
  let b := new_brightness (config w) start diff target steps step in
  current_brightness (state w') = b
  /\ content w'
     = Z.max (min_brightness (config w)) (Z.min (max_brightness (config w)) b)
  /\ written w' = content w' :: written w
  /\ config w' = config w
  /\ _brightness_path w' = _brightness_path w.
Proof.
  intros Hp. unfold fade_step.
  destruct (write_brightness_ok w
              (new_brightness (config w) start diff target steps step) Hp)
    as (Hok & Hc & Hw & Hs & Hcfg & Hpath).
  destruct (_write_brightness io w _) as [ok w1]. cbn in *. subst ok. cbn.
  rewrite Hc, Hw. repeat split; assumption.
Qed.

Lemma fade_steps_preserve (start diff target steps : Z) (l : list Z)
    (w : DisplayController) :
  _brightness_path w <> None ->
  let w' := fold_left (fade_step io start diff target steps) l w in
  config w' = config w /\ _brightness_path w' = _brightness_path w.
Proof.
  revert w. induction l as [|i l IH]; intros w Hp; [split; reflexivity|].
  cbn. destruct (fade_step_ok start diff target steps w i Hp)
    as (_ & _ & _ & Hcfg & Hpath).
  destruct (IH (fade_step io start diff target steps w i)) as [H1 H2].
  - rewrite Hpath. exact Hp.
  - split; [now rewrite H1|now rewrite H2].
Qed.

(** The fade worker ends on its target. *)
Lemma fade_worker_reaches_target (w : DisplayController) (target : Z) (duration : Q) :
  _brightness_path w <> None ->
  0 < fade_steps (config w) ->
  exists w',
    _fade_worker io w target duration = Some w'
    /\ current_brightness (state w') = target
    /\ (current_brightness (state w) <> target ->
        min_brightness (config w) <= target <= max_brightness (config w) ->
        content w' = target /\ hd_error (written w') = Some target).
Proof.
  intros Hp Hs. unfold _fade_worker.
  destruct (target - current_brightness (state w) =? 0) eqn:Hd.
  { exists w. apply Z.eqb_eq in Hd. split; [reflexivity|]. split; lia. }
  set (steps := fade_steps (config w)) in *.
  rewrite div_inject_Z by lia. eexists. split; [reflexivity|].
  rewrite range_succ, fold_left_app by lia. cbn [fold_left].
  set (w1 := fold_left _ (Py.range steps) w).
  destruct (fade_steps_preserve (current_brightness (state w))
              (target - current_brightness (state w)) target steps
              (Py.range steps) w Hp) as [Hcfg Hpath].
  fold w1 in Hcfg, Hpath.
  assert (Hp1 : _brightness_path w1 <> None) by now rewrite Hpath.
  destruct (fade_step_ok (current_brightness (state w))
              (target - current_brightness (state w)) target steps w1 steps Hp1)
    as (Hcur & Hcont & Hwr & _).
  unfold new_brightness in Hcur, Hcont. rewrite Z.eqb_refl in Hcur, Hcont.
  split; [exact Hcur|]. intros _ Hr. rewrite Hcfg in Hcont.
  assert (Hc : content (fade_step io (current_brightness (state w))
                          (target - current_brightness (state w)) target steps
                          w1 steps) = target) by lia.
  split; [exact Hc|]. rewrite Hwr, Hc. reflexivity.
Qed.

End WorkerFacts.

Section ScriptFadeFacts.

Import Script.

Variable config : ProximityConfig.
Variable io : nat -> bool.
Hypothesis io_ok : forall k, io k = true.

(** A write that goes through records the clamped value, in the file
    and in the display object alike. *)
Lemma set_brightness_ok (w : DisplayController) (value : Z) :
  let r := set_brightness io w value in
  let clamped := Z.max 0 (Z.min value (max_brightness w)) in
  fst r = true
  /\ current_brightness (snd r) = clamped
  /\ content (snd r) = clamped
  /\ written (snd r) = clamped :: written w
  /\ max_brightness (snd r) = max_brightness w.
Proof. unfold set_brightness. rewrite io_ok. cbn. repeat split. Qed.

Lemma fade_iter_inv (start target steps maxb : Z)
    (acc : DisplayController * Z) (i : Z) :
  fade_invariant start maxb acc -> fade_invariant start maxb (fade_iter config io start target steps acc i).
Proof.
  destruct acc as [w last]. unfold fade_invariant, fade_iter. cbn [fst snd].
  intros [Hm H].
  destruct (brightness_at config start target steps i =? last) eqn:E; cbn [negb].
  - split; assumption.
  - destruct (set_brightness_ok w (brightness_at config start target steps i))
      as (_ & Hc & _ & _ & Hmax).
    cbn [fst snd]. rewrite Hmax, Hc, Hm. split; [reflexivity|now right].
Qed.

Lemma fade_fold_inv (start target steps maxb : Z) (l : list Z)
    (acc : DisplayController * Z) :
  fade_invariant start maxb acc ->
  fade_invariant start maxb (fold_left (fade_iter config io start target steps) l acc).
Proof.
  revert acc. induction l as [|i l IH]; intros acc H; [exact H|].
  cbn. apply IH, fade_iter_inv, H.
Qed.

(** The curve is at 1 when the progress is. *)
Lemma eased_one (t : Q) : (t == 1 -> eased config t == 1)%Q.
Proof.
  intros H. unfold eased, quintic_in_out, cubic_in_out.
  assert (Hh : Py.ltb t (1 # 2) = false) by (apply ltb_ge; rewrite H; discriminate).
  rewrite Hh.
  repeat match goal with
         | |- context [if ?b then _ else _] => destruct b
         end; rewrite H; reflexivity.
Qed.

(** The last iteration computes the target itself. *)
Lemma brightness_at_final (start target steps : Z) :
  steps <> 0 -> brightness_at config start target steps steps = target.
Proof.
  intros Hs. unfold brightness_at. apply round_Z.
  assert (Hq : ~ (inject_Z steps == 0)%Q).
  { change 0%Q with (inject_Z 0). rewrite inject_Z_injective. exact Hs. }
  rewrite (eased_one (inject_Z steps / inject_Z steps)).
  - unfold Z.sub. rewrite inject_Z_plus, inject_Z_opp. ring.
  - now field.
Qed.

(** The loop ends on its target. *)
Lemma fade_loop_reaches_target (w : DisplayController) (start target steps : Z) :
  0 < steps ->
  current_brightness w = start ->
  start <> target ->
  0 <= target <= max_brightness w ->
  current_brightness (fade_loop config io w start target steps) = target.
Proof.
  intros Hs Hc Hne Hr. unfold fade_loop.
  rewrite range_succ, fold_left_app by lia. cbn [fold_left].
  pose proof (fade_fold_inv start target steps (max_brightness w)
                (Py.range steps) (w, start)) as Hinv.
  destruct (fold_left _ (Py.range steps) (w, start)) as [w1 last].
  destruct Hinv as [Hm H]; [split; [reflexivity|left; split; [reflexivity|exact Hc]]|].
  cbn [fst snd] in Hm, H. unfold fade_iter.
  rewrite brightness_at_final by lia.
  destruct (target =? last) eqn:E; cbn [negb fst snd].
  - apply Z.eqb_eq in E. subst last. destruct H as [[H _]|H]; [congruence|].
    rewrite H. lia.
  - destruct (set_brightness_ok w1 target) as (_ & Hcur & _).
    rewrite Hcur, Hm. lia.
Qed.

Lemma min_step_delay_val : (min_step_delay == 1 # 600)%Q.
Proof. reflexivity. Qed.

(** With a positive step count and a duration that is not negative,
    [fade_to] settles on a positive number of steps or divides by
    zero; from a 600th of a second on it settles. *)
Lemma settle_steps_positive (duration : Q) (steps : Z) :
  0 < steps -> (0 <= duration)%Q ->
  match settle_steps duration steps with
  | None => (duration < 1 # 600)%Q
  | Some n => 0 < n
  end.
Proof.
  intros Hs Hd. unfold settle_steps.
  rewrite div_inject_Z by lia.
  destruct (Py.ltb _ min_step_delay) eqn:Hl; [|exact Hs].
  set (n := Py.int (duration / min_step_delay)).
  assert (He : (duration / min_step_delay == duration * 600)%Q)
    by (rewrite min_step_delay_val; field).
  assert (Hn : 0 <= n).
  { change 0 with (Py.int (inject_Z 0)). apply int_mono. rewrite He.
    change (inject_Z 0) with 0%Q. lra. }
  destruct (Z.eq_dec n 0) as [Hz|Hz].
  - rewrite Hz. cbn. apply Qnot_le_lt. intros Hge.
    assert (1 <= n); [|lia].
    change 1 with (Py.int (inject_Z 1)). apply int_mono. rewrite He.
    change (inject_Z 1) with 1%Q. lra.
  - rewrite div_inject_Z by exact Hz. lia.
Qed.

(** [fade_to] ends on its target whenever it runs to its end. *)
Lemma fade_to_reaches_target (w : DisplayController) (target : Z) (duration : Q)
    (steps : option Z) :
  0 < match steps with None => fade_steps config | Some s => s end ->
  (0 <= duration)%Q ->
  0 <= target <= max_brightness w ->
  match fade_to config io w target duration steps with
  | None => (duration < 1 # 600)%Q
  | Some w' => current_brightness w' = target
  end.
Proof.
  intros Hs Hd Hr. unfold fade_to.
  replace (Z.max 0 (Z.min target (max_brightness w))) with target by lia.
  destruct (current_brightness w =? target) eqn:E.
  { now apply Z.eqb_eq in E. }
  apply Z.eqb_neq in E.
  pose proof (settle_steps_positive duration _ Hs Hd) as Hn.
  destruct (settle_steps duration _) as [n|]; [|exact Hn].
  now apply fade_loop_reaches_target.
Qed.

End ScriptFadeFacts.

Section ScriptFadeWrites.

Import Script.

Variable config : ProximityConfig.
Variable io : nat -> bool.
Hypothesis io_ok : forall k, io k = true.

(** After an iteration, [last_brightness] is the value of that
    iteration, written or not. *)
Lemma fade_iter_last (start target steps : Z)
    (acc : DisplayController * Z) (i : Z) :
  snd (fade_iter config io start target steps acc i)
  = brightness_at config start target steps i.
Proof.
  destruct acc as [w last]. unfold fade_iter.
  destruct (brightness_at config start target steps i =? last) eqn:E;
    cbn [negb snd]; [|reflexivity].
  symmetry. now apply Z.eqb_eq.
Qed.

Lemma fade_iter_written (start target steps : Z) (w0 : DisplayController)
    (acc : DisplayController * Z) (i : Z) :
  written_invariant start w0 acc ->
  written_invariant start w0 (fade_iter config io start target steps acc i).
Proof.
  destruct acc as [w last]. unfold written_invariant, fade_iter. cbn [fst snd].
  intros [Hm H].
  destruct (brightness_at config start target steps i =? last) eqn:E; cbn [negb].
  - split; assumption.
  - destruct (set_brightness_ok io io_ok w
                (brightness_at config start target steps i))
      as (_ & _ & Hc & Hw & Hmax).
    cbn [fst snd]. rewrite Hmax, Hc, Hw, Hm. split; [reflexivity|].
    right. split; reflexivity.
Qed.

Lemma fade_fold_written (start target steps : Z) (w0 : DisplayController)
    (l : list Z) (acc : DisplayController * Z) :
  written_invariant start w0 acc ->
  written_invariant start w0
    (fold_left (fade_iter config io start target steps) l acc).
Proof.
  revert acc. induction l as [|i l IH]; intros acc H; [exact H|].
  cbn. apply IH, fade_iter_written, H.
Qed.

(** A loop that has to move ends with the target in the file, as the
    value written last. *)
Lemma fade_loop_writes_target (w : DisplayController) (start target steps : Z) :
  0 < steps ->
  start <> target ->
  0 <= target <= max_brightness w ->
  content (fade_loop config io w start target steps) = target
  /\ hd_error (written (fade_loop config io w start target steps)) = Some target.
Proof.
  intros Hs Hne Hr. unfold fade_loop.
  pose proof (fade_fold_written start target steps w
                (Py.range (steps + 1)) (w, start)) as Hinv.
  assert (Hlast : snd (fold_left (fade_iter config io start target steps)
                         (Py.range (steps + 1)) (w, start)) = target).
  { rewrite range_succ, fold_left_app by lia. cbn [fold_left].
    rewrite fade_iter_last. apply brightness_at_final. lia. }
  destruct (fold_left _ (Py.range (steps + 1)) (w, start)) as [w1 last].
  unfold written_invariant in Hinv. cbn [fst snd] in *. subst last.
  destruct Hinv as [_ [[H _]|[Hw Hc]]].
  - split; [reflexivity|]. left. repeat split.
  - congruence.
  - rewrite Hc, Hw. replace (Z.max 0 (Z.min target (max_brightness w)))
      with target by lia. split; reflexivity.
Qed.

(** [fade_to] that runs to its end has written its target last,
    unless it started there. *)
Lemma fade_to_writes_target (w : DisplayController) (target : Z) (duration : Q)
    (steps : option Z) :
  0 < match steps with None => fade_steps config | Some s => s end ->
  (0 <= duration)%Q ->
  0 <= target <= max_brightness w ->
  match fade_to config io w target duration steps with
  | None => (duration < 1 # 600)%Q
  | Some w' =>
      current_brightness w' = target
      /\ (current_brightness w <> target ->
          content w' = target /\ hd_error (written w') = Some target)
  end.
Proof.
  intros Hs Hd Hr.
  pose proof (fade_to_reaches_target config io io_ok w target duration steps
                Hs Hd Hr) as Hreach.
  unfold fade_to in *.
  replace (Z.max 0 (Z.min target (max_brightness w))) with target in * by lia.
  destruct (current_brightness w =? target) eqn:E.
  { apply Z.eqb_eq in E. split; [exact E|]. intros Hne. congruence. }
  apply Z.eqb_neq in E.
  pose proof (settle_steps_positive duration _ Hs Hd) as Hn.
  destruct (settle_steps duration _) as [n|]; [|exact Hn].
  split; [exact Hreach|]. intros _.
  now apply fade_loop_writes_target.
Qed.

End ScriptFadeWrites.

(** C6, as stated, fails for a negative duration: [fade_to] of the
    script then settles on a negative number of steps, its loop runs
    zero times, and the fade completes without a write, the display
    still on 0 for a target of 200. *)
Lemma fade_negative_duration_writes_nothing :
  let io := fun _ : nat => true in
  let sw :=
    {| Script.max_brightness := 255; Script.current_brightness := 0;
       Script.content := 0; Script.written := []; Script.attempts := 0 |} in
  (forall k, io k = true)
  /\ 0 <= 200 <= Script.max_brightness sw
  /\ 0 < Script.fade_steps Script.default_config
  /\ Script.fade_to Script.default_config io sw 200 (-1) None = Some sw
  /\ Script.current_brightness sw <> 200.
Proof.
  cbn zeta. split; [reflexivity|]. split; [split; discriminate|].
  split; [reflexivity|]. split; [vm_compute; reflexivity|discriminate].
Qed.

(** C6. When every write goes through, a fade to a target within range
    that runs to its end leaves [current_brightness] on the target,
    whatever the positive step count and the easing curve, and, unless
    it started on the target, with the target in the file as the value
    written last: the worker of [_old/display.py] for any duration;
    [fade_to] of the script for any duration that is not negative,
    where it either ends so or, below a 600th of a second, stops on a
    division by zero. *)
Theorem fade_ends_on_target
    (io : nat -> bool)
    (w : Display.DisplayController) (target : Z) (duration : Q)
    (config : Script.ProximityConfig) (sw : Script.DisplayController)
    (starget : Z) (sduration : Q) (steps : option Z) :
  (forall k, io k = true) ->
  Display._brightness_path w <> None ->
  0 < Display.fade_steps (Display.config w) ->
  Display.min_brightness (Display.config w) <= target
  <= Display.max_brightness (Display.config w) ->
  0 < match steps with None => Script.fade_steps config | Some s => s end ->
  (0 <= sduration)%Q ->
  0 <= starget <= Script.max_brightness sw ->
  (exists w',
      Display._fade_worker io w target duration = Some w'
      /\ Display.current_brightness (Display.state w') = target
      /\ (Display.current_brightness (Display.state w) <> target ->
          Display.content w' = target
          /\ hd_error (Display.written w') = Some target))
  /\ match Script.fade_to config io sw starget sduration steps with
     | None => (sduration < 1 # 600)%Q
     | Some sw' =>
         Script.current_brightness sw' = starget
         /\ (Script.current_brightness sw <> starget ->
             Script.content sw' = starget
             /\ hd_error (Script.written sw') = Some starget)
     end.
Proof.
  intros Hio Hp Hs Hr Hss Hd Hsr. split.
  - destruct (fade_worker_reaches_target io Hio w target duration Hp Hs)
      as (w' & Hw & Hc & Hf).
    exists w'. split; [exact Hw|]. split; [exact Hc|]. intros Hne. now apply Hf.
  - now apply fade_to_writes_target.
Qed.

(** Witness of C6: a fade to 200 over two seconds, from a dark display,
    with the defaults of either configuration. *)
Lemma fade_ends_on_target_witness :
  let io := fun _ : nat => true in
  let w :=
    {| Display.config := Display.default_config;
       Display.state := Display.DisplayState_init;
       Display._brightness_path := Some "/sys/class/backlight/rpi_backlight/brightness"%string;
       Display.content := 0; Display.written := []; Display.attempts := 0 |} in
  let sw :=
    {| Script.max_brightness := 255; Script.current_brightness := 0;
       Script.content := 0; Script.written := []; Script.attempts := 0 |} in
  ((forall k, io k = true)
   /\ Display._brightness_path w <> None
   /\ 0 < Display.fade_steps (Display.config w)
   /\ Display.min_brightness (Display.config w) <= 200
      <= Display.max_brightness (Display.config w)
   /\ 0 < Script.fade_steps Script.default_config
   /\ (0 <= 2)%Q
   /\ 0 <= 200 <= Script.max_brightness sw)
  /\ (exists w',
         Display._fade_worker io w 200 2 = Some w'
         /\ Display.current_brightness (Display.state w') = 200)
  /\ match Script.fade_to Script.default_config io sw 200 2 None with
     | None => (2 < 1 # 600)%Q
     | Some sw' =>
         Script.current_brightness sw' = 200
         /\ Script.content sw' = 200
         /\ hd_error (Script.written sw') = Some 200
     end.
Proof.
  intros io w sw.
  assert (H1 : forall k, io k = true) by reflexivity.
  assert (H2 : Display._brightness_path w <> None) by discriminate.
  assert (H3 : 0 < Display.fade_steps (Display.config w)) by reflexivity.
  assert (H4 : Display.min_brightness (Display.config w) <= 200
               <= Display.max_brightness (Display.config w))
    by (split; discriminate).
  assert (H5 : 0 < Script.fade_steps Script.default_config) by reflexivity.
  assert (H6 : (0 <= 2)%Q) by discriminate.
  assert (H7 : 0 <= 200 <= Script.max_brightness sw) by (split; discriminate).
  split; [repeat split; (assumption || apply H4 || apply H7)|].
  destruct (fade_ends_on_target io w 200 2 Script.default_config sw 200 2 None
              H1 H2 H3 H4 H5 H6 H7) as [(w' & Hw & Hc & _) Hs].
  split; [exists w'; split; assumption|].
  destruct (Script.fade_to Script.default_config io sw 200 2 None) as [sw'|];
    [|exact Hs].
  destruct Hs as [Hcur Hwr]. split; [exact Hcur|]. apply Hwr. discriminate.
Defined.

Section TrackingFacts.

Import Display.

Variable io : nat -> bool.

(** A failed write leaves the tracked brightness and the file as
    they were. *)
Lemma fade_step_failed_write (start diff target steps : Z)
    (w : DisplayController) (step : Z) :
  io (attempts w) = false ->
  let w' := fade_step io start diff target steps w step in
  current_brightness (state w') = current_brightness (state w)
  /\ content w' = content w /\ written w' = written w.
Proof.
  intros Hf. unfold fade_step, _write_brightness.
  destruct (_brightness_path w); [rewrite Hf|]; cbn; repeat split.
Qed.

(** After a write that went through, the tracked brightness is the
    value asked for and the file holds that value clamped; the two
    agree exactly when the value asked for is within the range. *)
Lemma fade_step_tracked_and_written (start diff target steps : Z)
    (w : DisplayController) (step : Z) :
  io (attempts w) = true ->
  _brightness_path w <> None ->
  min_brightness (config w) <= max_brightness (config w) ->
  let w' := fade_step io start diff target steps w step in
  let b := new_brightness (config w) start diff target steps step in
  current_brightness (state w') = b
  /\ content w' = Z.max (min_brightness (config w)) (Z.min (max_brightness (config w)) b)
  /\ (current_brightness (state w') = content w'
      <-> min_brightness (config w) <= b <= max_brightness (config w)).
Proof.
  intros Hs Hp Hr. unfold fade_step, _write_brightness.
  destruct (_brightness_path w); [|congruence]. rewrite Hs. cbn.
  split; [reflexivity|]. split; [reflexivity|]. lia.
Qed.

End TrackingFacts.

(** C7, on the input where it fails. With [min_brightness = 20] and a
    brightness file that holds 0, [initialize] and then the first step
    of the fade of [wake_display] each write 20 to the file, the
    request 0 clamped, while the tracked [current_brightness] is set
    to 0, a value that was never written. A wake to 300 likewise ends
    with 300 tracked and 255 in the file. The script's
    [set_brightness] records the clamped value instead. *)
Theorem fade_step_tracks_unwritten_value :
  let cfg :=
    {| Display.fade_in_duration := 2; Display.fade_out_duration := 3;
       Display.adaptive_brightness_enabled := true;
       Display.min_brightness := 20; Display.max_brightness := 255;
       Display.light_threshold_low := 10; Display.light_threshold_high := 500;
       Display.fade_duration := 1; Display.fade_steps := 600;
       Display.fade_easing := "quintic" |} in
  let io := fun _ : nat => true in
  let w0 :=
    snd (Display.initialize io (Display.DisplayController_init cfg 0)
           ["/sys/class/backlight/rpi_backlight/brightness"%string]) in
  let w1 := Display.fade_step io 0 255 255 600 w0 0 in
  (Display.current_brightness (Display.state w0) = 0 /\ Display.content w0 = 20)
  /\ (Display.new_brightness cfg 0 255 255 600 0 = 0
      /\ Display.written w1 = [20; 20]
      /\ Display.current_brightness (Display.state w1) = 0)
  /\ (exists w2,
         Display.wake_display io w0 (Some 300) = Some w2
         /\ Display.current_brightness (Display.state w2) = 300
         /\ Display.content w2 = 255)
  /\ (forall (sw : Script.DisplayController) (value : Z),
         let sw' := snd (Script.set_brightness io sw value) in
         Script.current_brightness sw' = Script.content sw'
         /\ hd_error (Script.written sw') = Some (Script.current_brightness sw')).
Proof.
  cbv zeta. split; [split; reflexivity|]. split; [repeat split|].
  split.
  - eexists. split; [vm_compute; reflexivity|]. split; reflexivity.
  - intros sw value. split; reflexivity.
Qed.


(** * Further properties of the presence detector *)

Section DetectorFacts.

Import Proximity Diagnostics.

Variable clock : nat -> Q.

Ltac branch :=
  match goal with
  | H : ?b = _ |- context [?b] => rewrite H
  | |- context [if ?b then _ else _] => destruct b eqn:?
  | |- context [match ?x with Some _ => _ | None => _ end] =>
      destruct x eqn:?
  end; cbn in *.

Ltac branches := cbn in *; repeat branch.

(** What a valid reading leaves in the fields that the transition
    rules do not decide. *)
Lemma process_reading_valid_rest (d : ProximityDetector) (r : ProximityReading) :
  valid r = true ->
  let d' := snd (process_reading clock d (Some r)) in
  detection_history (state d')
  = detection_history (add_detection (_is_detection_criteria_met d r) (state d))
  /\ (ticks d <= ticks d' <= ticks d + 2)%nat
  /\ (human_present (state d) = true ->
      _detection_start_time d' = _detection_start_time d)
  /\ (_is_detection_criteria_met d r = false ->
      _detection_start_time d' = _detection_start_time d).
Proof.
  intros Hv d'. subst d'. unfold process_reading. rewrite Hv. cbn [negb].
  destruct (_is_detection_criteria_met d r) eqn:Hdet;
  destruct (human_present (state d)) eqn:Hp;
  unfold _should_trigger_detection, _should_trigger_non_detection.
  all: branches.
  all: repeat split; branches; try reflexivity; try congruence; try lia.
Qed.

(** What a missing or invalid reading does: it is counted as a
    non-detection, it clears presence exactly when the count reaches
    twice [no_presence_required], and it touches nothing else. *)
Lemma handle_invalid_reading_spec (d : ProximityDetector) :
  let d' := snd (_handle_invalid_reading d) in
  human_present (state d')
  = human_present (state d)
    && negb (no_presence_required (config d) * 2
             <=? consecutive_non_detections (state d) + 1)
  /\ fst (_handle_invalid_reading d) = human_present (state d')
  /\ consecutive_detections (state d') = 0
  /\ consecutive_non_detections (state d') = consecutive_non_detections (state d) + 1
  /\ detection_history (state d') = detection_history (state d)
  /\ _last_valid_distance d' = _last_valid_distance d
  /\ _detection_start_time d' = _detection_start_time d
  /\ ticks d' = ticks d
  /\ config d' = config d.
Proof.
  unfold _handle_invalid_reading. cbn.
  destruct (human_present (state d)) eqn:Hp; cbn;
    [destruct (_ <=? _) eqn:E; cbn|]; rewrite ?Hp; repeat split.
Qed.


Lemma process_reading_invalid_eq (d : ProximityDetector) (r : option ProximityReading) :
  invalid r -> process_reading clock d r = _handle_invalid_reading d.
Proof.
  destruct r as [r|]; cbn; [intros ->|]; reflexivity.
Qed.

(** A missing or invalid reading through [process_reading]. *)
Lemma invalid_reading_spec (d : ProximityDetector) (r : option ProximityReading) :
  invalid r ->
  let d' := snd (process_reading clock d r) in
  human_present (state d')
  = human_present (state d)
    && negb (no_presence_required (config d) * 2
             <=? consecutive_non_detections (state d) + 1)
  /\ (human_present (state d) = false -> human_present (state d') = false)
  /\ consecutive_detections (state d') = 0
  /\ consecutive_non_detections (state d') = consecutive_non_detections (state d) + 1
  /\ detection_history (state d') = detection_history (state d)
  /\ _last_valid_distance d' = _last_valid_distance d
  /\ _detection_start_time d' = _detection_start_time d
  /\ ticks d' = ticks d.
Proof.
  intros Hr d'. subst d'. rewrite (process_reading_invalid_eq d r Hr).
  destruct (handle_invalid_reading_spec d)
    as (Hp & _ & Hcd & Hcnd & Hh & Hl & Hs & Ht & _).
  repeat split; try assumption.
  intros Hf. rewrite Hp, Hf. reflexivity.
Qed.

(** Along missing or invalid readings: the non-detection count grows
    by one each, presence is cleared once the count reaches twice
    [no_presence_required], and the clock, the stored distance, the
    start time and the history stay as they are. *)
Lemma run_invalid (rs : list (option ProximityReading)) (d : ProximityDetector) :
  Forall invalid rs ->
  let d' := run clock d rs in
  let n := consecutive_non_detections (state d) + Z.of_nat (List.length rs) in
  consecutive_non_detections (state d') = n
  /\ config d' = config d
  /\ (rs <> [] ->
      human_present (state d')
      = human_present (state d) && (n <? no_presence_required (config d) * 2)
      /\ consecutive_detections (state d') = 0)
  /\ detection_history (state d') = detection_history (state d)
  /\ _last_valid_distance d' = _last_valid_distance d
  /\ _detection_start_time d' = _detection_start_time d
  /\ ticks d' = ticks d.
Proof.
  induction rs as [|r rs IH] using rev_ind; intros Hf.
  - cbn. repeat split; auto; try lia; congruence.
  - apply Forall_app in Hf. destruct Hf as [Hrs Hr].
    inversion Hr as [|? ? Hr' _]; subst.
    specialize (IH Hrs). cbn zeta in IH.
    destruct IH as (Hn & Hc & Hp & Hh & Hl & Hs & Ht).
    rewrite run_app. cbn [run fold_left]. fold (run clock d rs).
    destruct (invalid_reading_spec (run clock d rs) r Hr')
      as (Ep & _ & Ecd & Ecnd & Eh & El & Es & Et).
    cbn zeta. rewrite Ep, Ecd, Ecnd, Eh, El, Es, Et, process_reading_config.
    rewrite Hn, Hc, Hh, Hl, Hs, Ht, length_app. cbn [List.length].
    split; [lia|]. split; [reflexivity|]. split; [|auto].
    intros _. split; [|reflexivity].
    rewrite <- Z.ltb_antisym.
    replace (Z.of_nat (List.length rs + 1)) with (Z.of_nat (List.length rs) + 1)
      by lia.
    rewrite Z.add_assoc.
    destruct rs as [|r0 rs0].
    + cbn [run fold_left List.length Z.of_nat]. now rewrite Z.add_0_r.
    + destruct Hp as [Hp _]; [discriminate|]. rewrite Hp, <- andb_assoc. f_equal.
      destruct (Z.ltb_spec
                  (consecutive_non_detections (state d)
                   + Z.of_nat (List.length (r0 :: rs0)))
                  (no_presence_required (config d) * 2));
        destruct (Z.ltb_spec
                    (consecutive_non_detections (state d)
                     + Z.of_nat (List.length (r0 :: rs0)) + 1)
                    (no_presence_required (config d) * 2));
        (reflexivity || lia).
Qed.

(** X1: while the sensor delivers nothing usable (no reading, or a
    reading flagged invalid), every call counts as a non-detection and
    presence is held until the count of non-detections reaches twice
    [no_presence_required], whatever the dwell time; from then on it is
    cleared. The clock is not read, and the stored distance and the
    start of the detection are kept. *)
Theorem unavailable_sensor_clears_presence
    (d : ProximityDetector) (rs : list (option ProximityReading)) :
  Forall invalid rs ->
  rs <> [] ->
  let d' := run clock d rs in
  let n := consecutive_non_detections (state d) + Z.of_nat (List.length rs) in
  human_present (state d')
  = human_present (state d) && (n <? no_presence_required (config d) * 2)
  /\ consecutive_detections (state d') = 0
  /\ consecutive_non_detections (state d') = n
  /\ _last_valid_distance d' = _last_valid_distance d
  /\ _detection_start_time d' = _detection_start_time d
  /\ ticks d' = ticks d.
Proof.
  intros Hf Hne.
  destruct (run_invalid rs d Hf) as (Hn & _ & Hp & _ & Hl & Hs & Ht).
  destruct (Hp Hne) as [Hp1 Hp2]. cbn zeta. auto 10.
Qed.

(** The history after one more verdict. *)
Lemma add_detection_length (b : bool) (s : DetectionState) :
  let n := List.length (detection_history s) in
  List.length (detection_history (add_detection b s))
  = if 20 <? Z.of_nat (n + 1)%nat then n else (n + 1)%nat.
Proof.
  unfold add_detection. cbn. rewrite length_app. cbn [List.length].
  destruct (20 <? _).
  - destruct (detection_history s); cbn; [reflexivity|].
    rewrite length_app. cbn. lia.
  - now rewrite length_app.
Qed.

(** The counters along a run from the initial state. *)
Lemma run_counters (c : DetectionConfig) (rs : list (option ProximityReading)) :
  let d := run clock (ProximityDetector_init c) rs in
  let n := Z.of_nat (List.length rs) in
  0 <= consecutive_detections (state d) <= n
  /\ 0 <= consecutive_non_detections (state d) <= n
  /\ (human_present (state d) = true -> consecutive_required c <= n)
  /\ (Z.of_nat (List.length (detection_history (state d))) <= Z.min 20 n).
Proof.
  induction rs as [|r rs IH] using rev_ind.
  - cbn. repeat split; try lia; try discriminate.
  - rewrite run_app, length_app. cbn [run fold_left List.length].
    fold (run clock (ProximityDetector_init c) rs).
    set (d := run clock (ProximityDetector_init c) rs) in *.
    assert (Hc : config d = c) by apply run_config.
    cbn zeta in IH. destruct IH as (Hcd & Hcnd & Hp & Hh).
    destruct r as [r|]; [destruct (valid r) eqn:Hv|].
    + destruct (process_reading_valid clock d r Hv) as (_ & _ & Ecd & Ecnd & Ep & _).
      destruct (process_reading_valid_rest d r Hv) as (Eh & _).
      rewrite Ecd, Ecnd, Ep, Eh, Hc.
      pose proof (add_detection_length (_is_detection_criteria_met d r) (state d))
        as Hlen. cbn zeta in Hlen.
      assert (Hlen' : Z.of_nat (List.length (detection_history
                        (add_detection (_is_detection_criteria_met d r) (state d))))
                      <= Z.min 20 (Z.of_nat (List.length rs + 1))).
      { rewrite Hlen. destruct (20 <? _) eqn:E; [|apply Z.ltb_ge in E]; lia. }
      clear Hlen.
      destruct (_is_detection_criteria_met d r);
        (repeat split; try lia;
         destruct (human_present (state d));
         [intros _; specialize (Hp eq_refl); lia
         |intros H; apply Z.leb_le in H; lia]).
    + destruct (invalid_reading_spec d (Some r) Hv)
        as (Ep & _ & Ecd & Ecnd & Eh & _).
      rewrite Ecd, Ecnd, Eh, Ep. repeat split; try lia.
      intros H. apply andb_true_iff in H. destruct H as [H _].
      specialize (Hp H). lia.
    + destruct (invalid_reading_spec d None I)
        as (Ep & _ & Ecd & Ecnd & Eh & _).
      rewrite Ecd, Ecnd, Eh, Ep. repeat split; try lia.
      intros H. apply andb_true_iff in H. destruct H as [H _].
      specialize (Hp H). lia.
Qed.

(** X2: from a fresh detector, presence is never reported before
    [consecutive_required] readings have been processed, whatever the
    readings are; and neither counter exceeds the number of readings
    processed. *)
Theorem presence_needs_full_window
    (c : DetectionConfig) (rs : list (option ProximityReading)) :
  let d := run clock (ProximityDetector_init c) rs in
  (human_present (state d) = true ->
   consecutive_required c <= Z.of_nat (List.length rs))
  /\ 0 <= consecutive_detections (state d) <= Z.of_nat (List.length rs)
  /\ 0 <= consecutive_non_detections (state d) <= Z.of_nat (List.length rs).
Proof.
  destruct (run_counters c rs) as (H1 & H2 & H3 & _). auto.
Qed.

(** X3: the verdict history holds at most twenty entries, and at most
    one per reading processed. *)
Theorem history_is_bounded
    (c : DetectionConfig) (rs : list (option ProximityReading)) :
  let d := run clock (ProximityDetector_init c) rs in
  (List.length (detection_history (state d)) <= 20)%nat
  /\ (List.length (detection_history (state d)) <= List.length rs)%nat.
Proof.
  destruct (run_counters c rs) as (_ & _ & _ & H). cbn zeta in *. lia.
Qed.

(** X4: with both windows at least one reading long, a detector
    started fresh never reports absence while holding a completed
    detection window: whenever [human_present] is false,
    [consecutive_detections] is below [consecutive_required]. *)
Theorem absent_window_incomplete
    (c : DetectionConfig) (rs : list (option ProximityReading)) :
  1 <= consecutive_required c ->
  1 <= no_presence_required c ->
  let d := run clock (ProximityDetector_init c) rs in
  human_present (state d) = false ->
  consecutive_detections (state d) < consecutive_required c.
Proof.
  intros Hr Hn. induction rs as [|r rs IH] using rev_ind.
  - cbn. lia.
  - rewrite run_app. cbn [run fold_left].
    fold (run clock (ProximityDetector_init c) rs).
    set (d := run clock (ProximityDetector_init c) rs) in *.
    assert (Hc : config d = c) by apply run_config.
    destruct (run_counters c rs) as (_ & Hcnd & _). fold d in Hcnd.
    cbn zeta in IH.
    destruct r as [r|]; [destruct (valid r) eqn:Hv|].
    + destruct (process_reading_valid clock d r Hv) as (_ & _ & Ecd & Ecnd & Ep & _).
      rewrite Ecd, Ecnd in Ep. rewrite Ep, Ecd, Hc.
      destruct (human_present (state d)).
      * destruct (_is_detection_criteria_met d r); [|lia].
        replace (no_presence_required c <=? 0) with false
          by (symmetry; apply Z.leb_gt; lia).
        discriminate.
      * intros H. apply Z.leb_gt in H. exact H.
    + destruct (invalid_reading_spec d (Some r) Hv) as (_ & _ & Ecd & _).
      rewrite Ecd. lia.
    + destruct (invalid_reading_spec d None I) as (_ & _ & Ecd & _).
      rewrite Ecd. lia.
Qed.

(** A reading that is close enough, seen by enough zones and not a
    jump is a detection. *)
Lemma detection_criteria_sufficient (d : ProximityDetector) (r : ProximityReading) :
  1 <= detection_zones (config d) ->
  distance_mm r <= threshold_mm (config d) ->
  detection_zones (config d) <= zones_in_range r ->
  match _last_valid_distance d with
  | None => True
  | Some last => Z.abs (distance_mm r - last) <= 300
  end ->
  _is_detection_criteria_met d r = true.
Proof.
  intros Hz Hd Hzn Hl. unfold _is_detection_criteria_met, _validate_movement.
  replace (distance_mm r <=? threshold_mm (config d)) with true
    by (symmetry; apply Z.leb_le; exact Hd).
  replace (detection_zones (config d) <=? zones_in_range r) with true
    by (symmetry; apply Z.leb_le; exact Hzn).
  destruct (_last_valid_distance d) as [last|]; [|reflexivity].
  replace (300 <? Z.abs (distance_mm r - last)) with false
    by (symmetry; apply Z.ltb_ge; exact Hl).
  replace (zones_in_range r <? Z.max 1 (detection_zones (config d) - 1)) with false
    by (symmetry; apply Z.ltb_ge; lia).
  reflexivity.
Qed.

(** X5: when at least one zone is required, a reading is a detection
    exactly when it is within the distance threshold, seen by enough
    zones, and no more than 300mm from the distance stored before it;
    the zone consistency check of [_validate_movement] rejects nothing
    that the zone criterion accepts. *)
Theorem zone_consistency_check_is_redundant
    (d : ProximityDetector) (r : ProximityReading) :
  1 <= detection_zones (config d) ->
  (_is_detection_criteria_met d r = true
   <-> distance_mm r <= threshold_mm (config d)
       /\ detection_zones (config d) <= zones_in_range r
       /\ match _last_valid_distance d with
          | None => True
          | Some last => Z.abs (distance_mm r - last) <= 300
          end).
Proof.
  intros Hz. split.
  - unfold _is_detection_criteria_met, _validate_movement.
    rewrite !andb_true_iff, !Z.leb_le. intros [[Hd Hzn] Hm].
    split; [exact Hd|]. split; [exact Hzn|].
    destruct (_last_valid_distance d) as [last|]; [|exact I].
    destruct (300 <? Z.abs (distance_mm r - last)) eqn:E; [discriminate|].
    now apply Z.ltb_ge in E.
  - intros (Hd & Hzn & Hl). now apply detection_criteria_sufficient.
Qed.

(** A distant reading is a non-detection in every state. *)
Lemma far_not_detected (d : ProximityDetector) (r : ProximityReading) :
  far (config d) r -> _is_detection_criteria_met d r = false.
Proof.
  intros [_ H]. unfold _is_detection_criteria_met.
  replace (distance_mm r <=? _) with false by (symmetry; apply Z.leb_gt; lia).
  reflexivity.
Qed.

(** Distant readings short of the no-presence window leave a present
    detector present, with its start time and clock untouched. *)
Lemma run_far (rs : list ProximityReading) (d : ProximityDetector) :
  human_present (state d) = true ->
  Forall (far (config d)) rs ->
  consecutive_non_detections (state d) + Z.of_nat (List.length rs)
  < no_presence_required (config d) ->
  let d' := run clock d (map Some rs) in
  human_present (state d') = true
  /\ consecutive_non_detections (state d')
     = consecutive_non_detections (state d) + Z.of_nat (List.length rs)
  /\ config d' = config d
  /\ _detection_start_time d' = _detection_start_time d
  /\ ticks d' = ticks d.
Proof.
  revert d. induction rs as [|r rs IH]; intros d Hp Hf Hn.
  - cbn. repeat split; auto. lia.
  - inversion Hf as [|? ? Hr Hrs]; subst. cbn [map run fold_left].
    cbn [List.length] in Hn.
    pose proof (far_not_detected d r Hr) as Hdet.
    destruct Hr as [Hv Hd].
    destruct (process_reading_valid clock d r Hv) as (Ec & _ & _ & Ecnd & Ep & _).
    rewrite Hdet in Ecnd. rewrite Ecnd, Hp in Ep.
    replace (no_presence_required (config d) <=? _) with false in Ep
      by (symmetry; apply Z.leb_gt; lia).
    cbn in Ep.
    set (d1 := snd (process_reading clock d (Some r))) in *.
    assert (Es : _detection_start_time d1 = _detection_start_time d /\ ticks d1 = ticks d).
    { subst d1. unfold process_reading. rewrite Hv, Hdet. cbn.
      rewrite Hp. cbn. unfold _should_trigger_non_detection. cbn.
      replace (consecutive_non_detections (state d) + 1 <? _) with true
        by (symmetry; apply Z.ltb_lt; lia).
      cbn. split; reflexivity. }
    destruct Es as [Es Et].
    destruct (IH d1) as (H1 & H2 & H3 & H4 & H5).
    + exact Ep.
    + rewrite Ec. exact Hrs.
    + rewrite Ecnd, Ec. lia.
    + unfold run in *. rewrite H1, H2, H3, H4, H5, Ecnd, Ec, Es, Et.
      repeat split. cbn [List.length]. lia.
Qed.

(** X6: a present detector fed valid readings beyond the distance
    threshold stays present up to the reading that completes the
    no-presence window, and turns absent on that reading, provided
    the detection started at least two seconds before (or no start was
    recorded). *)
Theorem absence_completes_window
    (d : ProximityDetector) (rs : list ProximityReading) (r : ProximityReading) :
  human_present (state d) = true ->
  Forall (far (config d)) (rs ++ [r]) ->
  consecutive_non_detections (state d) + Z.of_nat (List.length rs) + 1
  = no_presence_required (config d) ->
  match _detection_start_time d with
  | None => True
  | Some start => (2 <= clock (ticks d) - start)%Q
  end ->
  human_present (state (run clock d (map Some rs))) = true
  /\ human_present (state (run clock d (map Some (rs ++ [r])))) = false.
Proof.
  intros Hp Hf Hn Hdwell. apply Forall_app in Hf. destruct Hf as [Hrs Hr].
  inversion Hr as [|? ? Hr' _]; subst.
  destruct (run_far rs d Hp Hrs) as (H1 & H2 & H3 & H4 & H5); [lia|].
  split; [exact H1|].
  rewrite map_app, run_app. cbn [map run fold_left].
  fold (run clock d (map Some rs)).
  set (d1 := run clock d (map Some rs)) in *.
  assert (Hr1 : far (config d1) r) by (rewrite H3; exact Hr').
  pose proof (far_not_detected d1 r Hr1) as Hdet. destruct Hr1 as [Hv _].
  destruct (process_reading_valid clock d1 r Hv) as (_ & _ & _ & Ecnd & Ep & _).
  rewrite Hdet in Ecnd. rewrite Ep, H1, Ecnd, H2, H3, H4, H5.
  apply leaving_iff. split; [lia|exact Hdwell].
Qed.

(** A steady reading is a detection. *)
Lemma steady_detected (d : ProximityDetector) (r : ProximityReading)
    (rs : list ProximityReading) :
  1 <= detection_zones (config d) ->
  steady (config d) (_last_valid_distance d) (r :: rs) ->
  valid r = true /\ _is_detection_criteria_met d r = true
  /\ steady (config d) (Some (distance_mm r)) rs.
Proof.
  intros Hz (Hv & Hd & Hzn & Hl & Hs). split; [exact Hv|]. split; [|exact Hs].
  now apply detection_criteria_sufficient.
Qed.

(** Steady readings short of the detection window leave an absent
    detector absent and are all counted. *)
Lemma run_steady (rs : list ProximityReading) (d : ProximityDetector) :
  1 <= detection_zones (config d) ->
  human_present (state d) = false ->
  steady (config d) (_last_valid_distance d) rs ->
  consecutive_detections (state d) + Z.of_nat (List.length rs)
  < consecutive_required (config d) ->
  let d' := run clock d (map Some rs) in
  human_present (state d') = false
  /\ consecutive_detections (state d')
     = consecutive_detections (state d) + Z.of_nat (List.length rs)
  /\ config d' = config d
  /\ _last_valid_distance d'
     = match rev rs with
       | [] => _last_valid_distance d
       | r :: _ => Some (distance_mm r)
       end.
Proof.
  revert d. induction rs as [|r rs IH]; intros d Hz Hp Hs Hn.
  - cbn. repeat split; auto. lia.
  - cbn [map run fold_left]. cbn [List.length] in Hn.
    destruct (steady_detected d r rs Hz Hs) as (Hv & Hdet & Hs').
    destruct (process_reading_valid clock d r Hv) as (Ec & El & Ecd & _ & Ep & _).
    rewrite Hdet in Ecd. rewrite Ecd, Hp in Ep.
    set (d1 := snd (process_reading clock d (Some r))) in *.
    assert (Hp1 : human_present (state d1) = false)
      by (rewrite Ep; apply Z.leb_gt; lia).
    destruct (IH d1) as (H1 & H2 & H3 & H4).
    + now rewrite Ec.
    + exact Hp1.
    + rewrite Ec, El. exact Hs'.
    + rewrite Ecd, Ec. lia.
    + unfold run in *. rewrite H1, H2, H3, H4, Ecd, Ec, El.
      repeat split; [cbn [List.length]; lia|].
      cbn [rev]. destruct (rev rs); reflexivity.
Qed.

(** X7: an absent detector fed valid readings that are close enough,
    seen by enough zones and each within 300mm of the one before stays
    absent up to the reading that completes the detection window, and
    turns present on that reading. *)
Theorem presence_completes_window
    (d : ProximityDetector) (rs : list ProximityReading) (r : ProximityReading) :
  1 <= detection_zones (config d) ->
  human_present (state d) = false ->
  steady (config d) (_last_valid_distance d) (rs ++ [r]) ->
  consecutive_detections (state d) + Z.of_nat (List.length rs) + 1
  = consecutive_required (config d) ->
  human_present (state (run clock d (map Some rs))) = false
  /\ human_present (state (run clock d (map Some (rs ++ [r])))) = true.
Proof.
  intros Hz Hp Hs Hn.
  assert (Hsplit : steady (config d) (_last_valid_distance d) rs
                   /\ steady (config d)
                        (match rev rs with
                         | [] => _last_valid_distance d
                         | x :: _ => Some (distance_mm x)
                         end) [r]).
  { clear Hn Hp Hz. revert Hs. generalize (_last_valid_distance d).
    induction rs as [|x rs IH]; intros last Hs.
    - cbn in *. tauto.
    - cbn [app steady] in Hs. destruct Hs as (Hv & Hd & Hzn & Hl & Hs).
      destruct (IH _ Hs) as [H1 H2]. split.
      + cbn [steady]. tauto.
      + cbn [rev]. destruct (rev rs) as [|y l] eqn:E; cbn [app]; exact H2. }
  destruct Hsplit as [Hrs Hr].
  destruct (run_steady rs d Hz Hp Hrs) as (H1 & H2 & H3 & H4); [lia|].
  split; [exact H1|].
  rewrite map_app, run_app. cbn [map run fold_left].
  fold (run clock d (map Some rs)).
  set (d1 := run clock d (map Some rs)) in *.
  rewrite <- H4, <- H3 in Hr.
  destruct (steady_detected d1 r [] (ltac:(rewrite H3; exact Hz)) Hr)
    as (Hv & Hdet & _).
  destruct (process_reading_valid clock d1 r Hv) as (_ & _ & Ecd & _ & Ep & _).
  rewrite Hdet in Ecd. rewrite Ep, H1, Ecd, H2, H3. apply Z.leb_le. lia.
Qed.

Ltac records :=
  cbv [with_history later with_state add_detection set_counters
       set_human_present set_last_detection_time];
  cbn;
  repeat match goal with
         | H : human_present (state ?d) = _ |- context [human_present (state ?d)] =>
             rewrite H
         | H : ?c = _ |- context [if ?c then _ else _] => rewrite H
         end;
  try reflexivity.

(** The verdict history does not feed back: one call. *)
Lemma process_reading_with_history
    (h : list bool) (d : ProximityDetector) (r : option ProximityReading) :
  let res := process_reading clock (with_history h d) r in
  res = (fst (process_reading clock d r),
         with_history (detection_history (state (snd res)))
           (snd (process_reading clock d r))).
Proof.
  destruct r as [r|]; [destruct (valid r) eqn:Hv|].
  - unfold process_reading. rewrite Hv. cbn [negb].
    change (_is_detection_criteria_met (with_history h d) r)
      with (_is_detection_criteria_met d r).
    destruct (_is_detection_criteria_met d r) eqn:Hdet;
    destruct (human_present (state d)) eqn:Hp;
    unfold _should_trigger_detection, _should_trigger_non_detection.
    all: branches; records.
  - unfold process_reading. rewrite Hv. cbn [negb].
    unfold _handle_invalid_reading.
    destruct (human_present (state d)) eqn:Hp; branches; records.
  - unfold process_reading, _handle_invalid_reading.
    destruct (human_present (state d)) eqn:Hp; branches; records.
Qed.

(** X8: the verdict history is for diagnostics only: two detectors
    that differ in their history alone return the same verdicts and
    end with the same presence, counters, stored distance, start time
    and clock position. *)
Theorem history_never_feeds_back
    (rs : list (option ProximityReading)) (h : list bool) (d : ProximityDetector) :
  verdicts clock (with_history h d) rs = verdicts clock d rs
  /\ observable (run clock (with_history h d) rs) = observable (run clock d rs).
Proof.
  revert h d. induction rs as [|r rs IH]; intros h d.
  - split; reflexivity.
  - change (run clock (with_history h d) (r :: rs))
      with (run clock (snd (process_reading clock (with_history h d) r)) rs).
    change (run clock d (r :: rs))
      with (run clock (snd (process_reading clock d r)) rs).
    cbn [verdicts].
    pose proof (process_reading_with_history h d r) as H. cbn zeta in H.
    destruct (process_reading clock (with_history h d) r) as [b1 d1] eqn:E1.
    destruct (process_reading clock d r) as [b2 d2] eqn:E2.
    cbn [fst snd] in H. remember (detection_history (state d1)) as h1 eqn:Eh.
    injection H as Hb Hd. clear Eh. cbn [snd].
    rewrite Hb, Hd. destruct (IH h1 d2) as [Hv Ho].
    rewrite Hv, Ho. split; reflexivity.
Qed.

(** The sum of a list of booleans counts at most its length. *)
Lemma sum_bounds (l : list bool) : 0 <= sum l <= Z.of_nat (List.length l).
Proof.
  unfold sum.
  assert (H : forall acc,
             acc <= fold_left (fun a (b : bool) => a + (if b then 1 else 0)) l acc
             <= acc + Z.of_nat (List.length l)).
  { induction l as [|b l IH]; intros acc; cbn [fold_left List.length]; [lia|].
    specialize (IH (acc + (if b then 1 else 0))). destruct b; lia. }
  specialize (H 0). lia.
Qed.

Lemma last_n_length {A : Type} (n : nat) (l : list A) :
  List.length (last_n n l) = Nat.min n (List.length l).
Proof. unfold last_n. rewrite length_skipn. lia. Qed.

Lemma rate_bounds (n : nat) (h : list bool) :
  (0 < n)%nat -> h <> [] ->
  (0 <= inject_Z (sum (last_n n h))
        / inject_Z (Z.min (Z.of_nat n) (Z.of_nat (List.length h))) <= 1)%Q.
Proof.
  intros Hn Hh.
  pose proof (sum_bounds (last_n n h)) as Hs. rewrite last_n_length in Hs.
  assert (Hl : (0 < List.length h)%nat) by (destruct h; [congruence|cbn; lia]).
  set (m := Z.min (Z.of_nat n) (Z.of_nat (List.length h))) in *.
  assert (Hm : 0 < m) by (unfold m; lia).
  assert (Hsm : sum (last_n n h) <= m) by (unfold m; lia).
  assert (Hmq : (0 < inject_Z m)%Q)
    by (change 0%Q with (inject_Z 0); now rewrite <- Zlt_Qlt).
  destruct Hs as [Hs0 _]. rewrite Zle_Qle in Hs0, Hsm.
  change (inject_Z 0) with 0%Q in Hs0.
  split.
  - apply Qle_shift_div_l; [exact Hmq|]. lra.
  - apply Qle_shift_div_r; [exact Hmq|]. lra.
Qed.

(** X9: the detection confidence and the recent detection rate lie
    between 0 and 1, and are 0 on an empty history (no division by
    zero). *)
Theorem confidence_is_a_fraction (d : ProximityDetector) :
  (0 <= get_detection_confidence d <= 1)%Q
  /\ (0 <= recent_detection_rate d <= 1)%Q
  /\ (detection_history (state d) = [] ->
      get_detection_confidence d = 0%Q /\ recent_detection_rate d = 0%Q).
Proof.
  unfold get_detection_confidence, recent_detection_rate.
  destruct (detection_history (state d)) as [|b h] eqn:E.
  - repeat split; discriminate.
  - split; [|split; [|discriminate]].
    + apply (rate_bounds 10 (b :: h)); [lia|discriminate].
    + apply (rate_bounds 5 (b :: h)); [lia|discriminate].
Qed.

(** A detector whose clock has been read [k] more times sees the
    clock [k] readings later. *)
Lemma process_reading_later
    (k : nat) (d : ProximityDetector) (r : option ProximityReading) :
  process_reading clock (later k d) r
  = (fst (process_reading (fun n => clock (n + k)%nat) d r),
     later k (snd (process_reading (fun n => clock (n + k)%nat) d r))).
Proof.
  destruct r as [r|]; [destruct (valid r) eqn:Hv|].
  - unfold process_reading. rewrite Hv. cbn [negb].
    change (_is_detection_criteria_met (later k d) r)
      with (_is_detection_criteria_met d r).
    destruct (_is_detection_criteria_met d r) eqn:Hdet;
    destruct (human_present (state d)) eqn:Hp;
    unfold _should_trigger_detection, _should_trigger_non_detection.
    all: branches; records.
  - unfold process_reading. rewrite Hv. cbn [negb].
    unfold _handle_invalid_reading.
    destruct (human_present (state d)) eqn:Hp; branches; records.
  - unfold process_reading, _handle_invalid_reading.
    destruct (human_present (state d)) eqn:Hp; branches; records.
Qed.

Lemma verdicts_later
    (rs : list (option ProximityReading)) (k : nat) (d : ProximityDetector) :
  verdicts clock (later k d) rs = verdicts (fun n => clock (n + k)%nat) d rs.
Proof.
  revert d. induction rs as [|r rs IH]; intros d; [reflexivity|].
  cbn [verdicts]. rewrite process_reading_later.
  destruct (process_reading (fun n => clock (n + k)%nat) d r) as [b d'].
  cbn [fst snd]. now rewrite IH.
Qed.

(** X10: after [reset_detection_state] the detector answers every
    sequence of readings as a newly built detector with the same
    configuration does, the clock going on from where it was. *)
Theorem reset_gives_fresh_detector
    (d : ProximityDetector) (rs : list (option ProximityReading)) :
  verdicts clock (reset_detection_state d) rs
  = verdicts (fun n => clock (n + ticks d)%nat)
      (ProximityDetector_init (config d)) rs.
Proof.
  change (reset_detection_state d)
    with (later (ticks d) (ProximityDetector_init (config d))).
  apply verdicts_later.
Qed.

End DetectorFacts.

Lemma unavailable_sensor_clears_presence_witness :
  let clock := fun k : nat => inject_Z (Z.of_nat k) in
  let near := Some (Proximity.reading 300 8) in
  let d := Proximity.run clock
             (Proximity.ProximityDetector_init Proximity.default_config)
             [near; near; near] in
  let rs := repeat (@None Proximity.ProximityReading) 20 in
  (Forall Diagnostics.invalid rs /\ rs <> [])
  /\ Proximity.human_present (Proximity.state d) = true
  /\ Proximity.human_present (Proximity.state (Proximity.run clock d rs)) = false.
Proof.
  intros clock near d rs.
  assert (H1 : Forall Diagnostics.invalid rs) by (repeat constructor).
  assert (H2 : rs <> []) by discriminate.
  split; [split; assumption|]. split; [reflexivity|].
  destruct (unavailable_sensor_clears_presence clock d rs H1 H2) as (Hp & _).
  rewrite Hp. reflexivity.
Defined.

Lemma absent_window_incomplete_witness :
  let clock := fun k : nat => inject_Z (Z.of_nat k) in
  let c := Proximity.default_config in
  let rs := [Some (Proximity.reading 300 8); Some (Proximity.reading 310 8)] in
  let d := Proximity.run clock (Proximity.ProximityDetector_init c) rs in
  (1 <= Proximity.consecutive_required c
   /\ 1 <= Proximity.no_presence_required c
   /\ Proximity.human_present (Proximity.state d) = false)
  /\ Proximity.consecutive_detections (Proximity.state d)
     < Proximity.consecutive_required c.
Proof.
  intros clock c rs d.
  assert (H1 : 1 <= Proximity.consecutive_required c) by (vm_compute; discriminate).
  assert (H2 : 1 <= Proximity.no_presence_required c) by (vm_compute; discriminate).
  assert (H3 : Proximity.human_present (Proximity.state d) = false) by reflexivity.
  split; [repeat split; assumption|].
  exact (absent_window_incomplete clock c rs H1 H2 H3).
Defined.

Lemma zone_consistency_check_is_redundant_witness :
  let clock := fun k : nat => inject_Z (Z.of_nat k) in
  let d := Proximity.run clock
             (Proximity.ProximityDetector_init Proximity.default_config)
             [Some (Proximity.reading 350 7)] in
  let r := Proximity.reading 300 6 in
  1 <= Proximity.detection_zones (Proximity.config d)
  /\ Proximity._is_detection_criteria_met d r = true.
Proof.
  intros clock d r.
  assert (H1 : 1 <= Proximity.detection_zones (Proximity.config d))
    by (vm_compute; discriminate).
  split; [exact H1|].
  apply (zone_consistency_check_is_redundant d r H1).
  vm_compute. repeat split; discriminate.
Defined.

Lemma absence_completes_window_witness :
  let clock := fun k : nat => inject_Z (10 * Z.of_nat k) in
  let near := Some (Proximity.reading 300 8) in
  let away := Proximity.reading 500 0 in
  let d := Proximity.run clock
             (Proximity.ProximityDetector_init Proximity.default_config)
             [near; near; near] in
  let rs := repeat away 9 in
  (Proximity.human_present (Proximity.state d) = true
   /\ Forall (Diagnostics.far (Proximity.config d)) (rs ++ [away])
   /\ Proximity.consecutive_non_detections (Proximity.state d)
      + Z.of_nat (List.length rs) + 1
      = Proximity.no_presence_required (Proximity.config d)
   /\ match Proximity._detection_start_time d with
      | None => True
      | Some start => (2 <= clock (Proximity.ticks d) - start)%Q
      end)
  /\ Proximity.human_present
       (Proximity.state (Proximity.run clock d (map Some rs))) = true
  /\ Proximity.human_present
       (Proximity.state (Proximity.run clock d (map Some (rs ++ [away])))) = false.
Proof.
  intros clock near away d rs.
  assert (H1 : Proximity.human_present (Proximity.state d) = true) by reflexivity.
  assert (H2 : Forall (Diagnostics.far (Proximity.config d)) (rs ++ [away]))
    by (vm_compute; repeat constructor).
  assert (H3 : Proximity.consecutive_non_detections (Proximity.state d)
               + Z.of_nat (List.length rs) + 1
               = Proximity.no_presence_required (Proximity.config d))
    by reflexivity.
  assert (H4 : match Proximity._detection_start_time d with
               | None => True
               | Some start => (2 <= clock (Proximity.ticks d) - start)%Q
               end) by (vm_compute; discriminate).
  split; [repeat split; assumption|].
  exact (absence_completes_window clock d rs away H1 H2 H3 H4).
Defined.

Lemma presence_completes_window_witness :
  let clock := fun k : nat => inject_Z (Z.of_nat k) in
  let d := Proximity.ProximityDetector_init Proximity.default_config in
  let rs := [Proximity.reading 300 8; Proximity.reading 310 8] in
  let r := Proximity.reading 320 8 in
  (1 <= Proximity.detection_zones (Proximity.config d)
   /\ Proximity.human_present (Proximity.state d) = false
   /\ Diagnostics.steady (Proximity.config d) (Proximity._last_valid_distance d)
        (rs ++ [r])
   /\ Proximity.consecutive_detections (Proximity.state d)
      + Z.of_nat (List.length rs) + 1
      = Proximity.consecutive_required (Proximity.config d))
  /\ Proximity.human_present
       (Proximity.state (Proximity.run clock d (map Some rs))) = false
  /\ Proximity.human_present
       (Proximity.state (Proximity.run clock d (map Some (rs ++ [r])))) = true.
Proof.
  intros clock d rs r.
  assert (H1 : 1 <= Proximity.detection_zones (Proximity.config d))
    by (vm_compute; discriminate).
  assert (H2 : Proximity.human_present (Proximity.state d) = false) by reflexivity.
  assert (H3 : Diagnostics.steady (Proximity.config d)
                 (Proximity._last_valid_distance d) (rs ++ [r]))
    by (vm_compute; repeat split; discriminate).
  assert (H4 : Proximity.consecutive_detections (Proximity.state d)
               + Z.of_nat (List.length rs) + 1
               = Proximity.consecutive_required (Proximity.config d))
    by reflexivity.
  split; [repeat split; assumption|].
  exact (presence_completes_window clock d rs r H1 H2 H3 H4).
Defined.

(** * Properties of the frame processing *)

Section SensorFacts.

Import Proximity Sensor.

Variable data : RangingData.

Lemma index_some (l : list Z) (i : Z) :
  0 <= i < Z.of_nat (List.length l) -> exists x, index l i = Some x.
Proof.
  intros Hi. unfold index.
  destruct (nth_error l (Z.to_nat i)) as [x|] eqn:E; [now exists x|].
  apply nth_error_None in E. lia.
Qed.

Lemma index_none (l : list Z) (i : Z) :
  Z.of_nat (List.length l) <= i -> index l i = None.
Proof. intros Hi. unfold index. apply nth_error_None. lia. Qed.

(** The loop over the zones, from any accumulator. *)
Lemma zone_loop (zs : list Z) (vd : list Z) (z : Z) :
  (forall i, In i zs -> 0 <= i) ->
  (List.length (data_distance_mm data) <= List.length (data_target_status data))%nat ->
  exists vd',
    fold_left (zone_step data) zs (Some (vd, z)) = Some ((vd ++ vd')%list, z + near vd')
    /\ (List.length vd' <= List.length zs)%nat
    /\ (forall x, In x vd' <-> exists i, In i zs /\ usable data i x).
Proof.
  revert vd z. induction zs as [|i zs IH]; intros vd z Hpos Hlen.
  - exists []. cbn. rewrite app_nil_r, Z.add_0_r. repeat split; auto.
    + intros [].
    + intros (i & [] & _).
  - assert (Hi : 0 <= i) by (apply Hpos; now left).
    assert (Hpos' : forall j, In j zs -> 0 <= j) by (intros j Hj; apply Hpos; now right).
    cbn [fold_left]. unfold zone_step at 2.
    destruct (i <? Z.of_nat (List.length (data_distance_mm data))) eqn:Ei.
    + apply Z.ltb_lt in Ei.
      destruct (index_some (data_distance_mm data) i) as [x Hx]; [lia|].
      destruct (index_some (data_target_status data) i) as [s Hs]; [lia|].
      rewrite Hx, Hs.
      destruct (((s =? 6) || (s =? 13)) && ((50 <=? x) && (x <=? 4000))) eqn:Ec.
      * destruct (IH (vd ++ [x])%list (if x <=? 2000 then z + 1 else z) Hpos' Hlen)
          as (vd' & Hf & Hl & Hin).
        exists (x :: vd'). rewrite Hf, <- app_assoc. cbn [app].
        split; [f_equal; f_equal|split].
        -- unfold near. cbn [filter]. destruct (x <=? 2000); cbn [List.length]; lia.
        -- cbn [List.length]. lia.
        -- intros y. cbn [In]. rewrite Hin. split.
           ++ intros [<-|(j & Hj & Hu)].
              ** exists i. split; [now left|]. unfold usable.
                 rewrite Hx, Hs. apply andb_true_iff in Ec. destruct Ec as [E1 E2].
                 apply orb_true_iff in E1. apply andb_true_iff in E2.
                 rewrite !Z.eqb_eq in E1. rewrite !Z.leb_le in E2.
                 split; [reflexivity|]. split; [exists s; auto|lia].
              ** exists j. split; [now right|exact Hu].
           ++ intros (j & [<-|Hj] & Hu).
              ** left. destruct Hu as (Hu & _). congruence.
              ** right. exists j. auto.
      * destruct (IH vd z Hpos' Hlen) as (vd' & Hf & Hl & Hin).
        exists vd'. rewrite Hf. split; [reflexivity|]. split; [cbn; lia|].
        intros y. rewrite Hin. split.
        -- intros (j & Hj & Hu). exists j. split; [now right|exact Hu].
        -- intros (j & [<-|Hj] & Hu); [|exists j; auto].
           exfalso. destruct Hu as (Hu & (s' & Hs' & Hst) & Hr).
           rewrite Hx in Hu. rewrite Hs in Hs'. injection Hu as <-. injection Hs' as <-.
           apply andb_false_iff in Ec. rewrite orb_false_iff, andb_false_iff in Ec.
           rewrite !Z.eqb_neq, !Z.leb_gt in Ec. lia.
    + apply Z.ltb_ge in Ei.
      destruct (IH vd z Hpos' Hlen) as (vd' & Hf & Hl & Hin).
      exists vd'. rewrite Hf. split; [reflexivity|]. split; [cbn; lia|].
      intros y. rewrite Hin. split.
      * intros (j & Hj & Hu). exists j. split; [now right|exact Hu].
      * intros (j & [<-|Hj] & Hu); [|exists j; auto].
        exfalso. destruct Hu as (Hu & _).
        rewrite index_none in Hu by exact Ei. discriminate.
Qed.

(** The minimum of a list is one of its elements, below all. *)
Lemma minimum_spec (l : list Z) (x : Z) :
  In (minimum x l) (x :: l) /\ (forall y, In y (x :: l) -> minimum x l <= y).
Proof.
  unfold minimum. revert x. induction l as [|a l IH]; intros x; cbn [fold_left].
  - split; [now left|]. intros y [<-|[]]. lia.
  - destruct (IH (Z.min x a)) as [H1 H2]. split.
    + destruct H1 as [H1|H1]; [|right; now right].
      rewrite <- H1. destruct (Z.min_spec x a) as [[_ ->]|[_ ->]]; cbn; auto.
    + intros y Hy. assert (Hm : fold_left Z.min l (Z.min x a) <= Z.min x a)
        by (apply H2; now left).
      destruct Hy as [<-|[<-|Hy]]; [lia|lia|]. apply H2. now right.
Qed.

Lemma near_bounds (l : list Z) : 0 <= near l <= Z.of_nat (List.length l).
Proof. unfold near. pose proof (filter_length_le (fun x => x <=? 2000) l). lia. Qed.

Lemma near_positive (l : list Z) : 0 < near l <-> exists x, In x l /\ x <= 2000.
Proof.
  unfold near. split.
  - intros H. destruct (filter (fun x => x <=? 2000) l) as [|x f] eqn:E;
      [cbn in H; lia|].
    assert (Hx : In x (filter (fun x => x <=? 2000) l)) by (rewrite E; now left).
    apply filter_In in Hx. exists x. rewrite Z.leb_le in Hx. exact Hx.
  - intros (x & Hx & Hl).
    assert (Hf : In x (filter (fun x => x <=? 2000) l))
      by (apply filter_In; rewrite Z.leb_le; auto).
    destruct (filter (fun x => x <=? 2000) l); [destruct Hf|cbn; lia].
Qed.

Lemma center_zones_nonneg (i : Z) : In i center_zones -> 0 <= i.
Proof.
  intros Hi. cbn in Hi. repeat (destruct Hi as [<-|Hi]; [lia|]). destruct Hi.
Qed.

(** A frame gives a reading with at most sixteen zones in range. *)
Lemma process_ranging_data_zones (now : Q) :
  well_formed data ->
  exists r,
    _process_ranging_data now data = Some r /\ 0 <= zones_in_range r <= 16.
Proof.
  intros Hlen. unfold _process_ranging_data.
  destruct (zone_loop center_zones [] 0 center_zones_nonneg Hlen)
    as (vd & Hf & Hl & _).
  rewrite Hf. eexists. split; [reflexivity|]. cbn [zones_in_range app].
  pose proof (near_bounds vd) as Hn.
  change (List.length center_zones) with 16%nat in Hl. lia.
Qed.

(** X11: a frame that has a target status for every distance gives a
    reading (no [IndexError]) with a distance between 50 and 4000 and
    at most 16 zones in range. The reading is valid exactly when one
    of the sixteen centre zones holds a usable distance; its distance
    is then the smallest usable distance of the centre zones, and 4000
    with no zone in range otherwise. Some zone is in range exactly when
    the reading is valid and its distance is at most 2000. *)
Theorem ranging_data_reading (now : Q) :
  well_formed data ->
  exists r,
    _process_ranging_data now data = Some r
    /\ 50 <= distance_mm r <= 4000
    /\ 0 <= zones_in_range r <= 16
    /\ (valid r = true <-> exists i x, In i center_zones /\ usable data i x)
    /\ (valid r = false -> distance_mm r = 4000 /\ zones_in_range r = 0)
    /\ (valid r = true ->
        (exists i, In i center_zones /\ usable data i (distance_mm r))
        /\ (forall i x, In i center_zones -> usable data i x -> distance_mm r <= x))
    /\ (0 < zones_in_range r <-> valid r = true /\ distance_mm r <= 2000).
Proof.
  intros Hlen. unfold _process_ranging_data.
  destruct (zone_loop center_zones [] 0 center_zones_nonneg Hlen)
    as (vd & Hf & Hl & Hin).
  rewrite Hf. cbn [app]. eexists. split; [reflexivity|].
  cbn [distance_mm zones_in_range valid]. rewrite Z.add_0_l.
  assert (Hrange : forall x, In x vd -> 50 <= x <= 4000).
  { intros x Hx. apply Hin in Hx. destruct Hx as (i & _ & _ & _ & Hr). exact Hr. }
  pose proof (near_bounds vd) as Hn. change (List.length center_zones) with 16%nat in Hl.
  destruct vd as [|x l].
  - cbn [List.length Z.of_nat Z.ltb Z.compare].
    split; [lia|]. split; [lia|].
    split; [split; [discriminate|]|].
    { intros (i & y & Hi & Hu). exfalso. apply (proj2 (Hin y)). now exists i. }
    split; [intros _; split; reflexivity|].
    split; [discriminate|].
    split; [cbn; lia|]. intros [H _]. discriminate.
  - pose proof (minimum_spec l x) as [Hm1 Hm2].
    assert (Hv : (0 <? Z.of_nat (List.length (x :: l))) = true)
      by (apply Z.ltb_lt; cbn [List.length]; lia).
    rewrite Hv. split; [apply Hrange, Hm1|]. split; [lia|].
    split; [split; [intros _|reflexivity]|].
    { destruct (proj1 (Hin x)) as (i & Hi & Hu); [now left|]. now exists i, x. }
    split; [discriminate|]. split.
    { intros _. split.
      - apply Hin in Hm1. exact Hm1.
      - intros i y Hi Hu. apply Hm2, Hin. now exists i. }
    rewrite near_positive. split.
    + intros (y & Hy & Hle). split; [reflexivity|]. specialize (Hm2 y Hy). lia.
    + intros [_ Hle]. exists (minimum x l). auto.
Qed.

End SensorFacts.

Section PipelineFacts.

Import Proximity Sensor.

Variable clock : nat -> Q.

(** X12: the sensor and the detector together. The sensor counts
    zones among sixteen, so a detector that requires more than sixteen
    zones never reports presence and never counts a detection,
    whatever the frames show. *)
Theorem more_zones_than_the_sensor_has
    (c : DetectionConfig) (rs : list (option ProximityReading)) :
  Forall from_sensor rs ->
  16 < detection_zones c ->
  1 <= consecutive_required c ->
  let d := run clock (ProximityDetector_init c) rs in
  human_present (state d) = false /\ consecutive_detections (state d) = 0.
Proof.
  intros Hf Hz Hr. induction rs as [|r rs IH] using rev_ind.
  - split; reflexivity.
  - apply Forall_app in Hf. destruct Hf as [Hrs Hr'].
    inversion Hr' as [|? ? Hfrom _]; subst.
    rewrite run_app. cbn [run fold_left].
    fold (run clock (ProximityDetector_init c) rs).
    destruct (IH Hrs) as [Hp Hcd]. clear IH.
    set (d := run clock (ProximityDetector_init c) rs) in *.
    assert (Hc : config d = c) by apply run_config.
    assert (Hnone : forall r0, Diagnostics.invalid r0 ->
              human_present (state (snd (process_reading clock d r0))) = false
              /\ consecutive_detections (state (snd (process_reading clock d r0))) = 0).
    { intros r0 Hi.
      destruct (invalid_reading_spec clock d r0 Hi) as (_ & Hoff & Ecd & _).
      split; [now apply Hoff|exact Ecd]. }
    destruct Hfrom as [->|(now & data & Hwf & ->)]; [exact (Hnone None I)|].
    destruct (process_ranging_data_zones data now Hwf) as (r & -> & Hzr).
    destruct (valid r) eqn:Hv; [|exact (Hnone (Some r) Hv)].
    assert (Hdet : _is_detection_criteria_met d r = false).
    { unfold _is_detection_criteria_met. rewrite Hc.
      replace (detection_zones c <=? zones_in_range r) with false
        by (symmetry; apply Z.leb_gt; lia).
      now rewrite andb_false_r. }
    destruct (process_reading_valid clock d r Hv) as (_ & _ & Ecd & _ & Ep & _).
    rewrite Hdet in Ecd. rewrite Ecd in Ep. rewrite Ep, Ecd, Hp, Hc.
    split; [apply Z.leb_gt; lia|reflexivity].
Qed.

End PipelineFacts.

Lemma ranging_data_reading_witness :
  let data :=
    {| Sensor.data_distance_mm := repeat 3000 20 ++ [1200; 900; 0; 4500];
       Sensor.data_target_status := repeat 6 20 ++ [6; 13; 6; 255] |} in
  Sensor.well_formed data
  /\ exists r,
       Sensor._process_ranging_data 0 data = Some r
       /\ 50 <= Proximity.distance_mm r <= 4000
       /\ 0 <= Proximity.zones_in_range r <= 16.
Proof.
  intros data.
  assert (H1 : Sensor.well_formed data) by (unfold Sensor.well_formed; cbn; lia).
  split; [exact H1|].
  destruct (ranging_data_reading data 0 H1) as (r & Hr & Hd & Hz & _).
  exists r. repeat split; (assumption || apply Hd || apply Hz).
Defined.

Lemma more_zones_than_the_sensor_has_witness :
  let clock := fun k : nat => inject_Z (Z.of_nat k) in
  let c :=
    {| Proximity.threshold_mm := 400; Proximity.detection_zones := 17;
       Proximity.consecutive_required := 3;
       Proximity.no_presence_required := 10 |} in
  let data :=
    {| Sensor.data_distance_mm := repeat 300 64;
       Sensor.data_target_status := repeat 6 64 |} in
  let rs := [None; Sensor._process_ranging_data 0 data;
             Sensor._process_ranging_data 1 data;
             Sensor._process_ranging_data 2 data] in
  (Forall Sensor.from_sensor rs
   /\ 16 < Proximity.detection_zones c
   /\ 1 <= Proximity.consecutive_required c)
  /\ Proximity.human_present
       (Proximity.state
          (Proximity.run clock (Proximity.ProximityDetector_init c) rs)) = false.
Proof.
  intros clock c data rs.
  assert (Hwf : Sensor.well_formed data) by (unfold Sensor.well_formed; cbn; lia).
  assert (H1 : Forall Sensor.from_sensor rs).
  { repeat apply Forall_cons; try apply Forall_nil.
    - left. reflexivity.
    - right. exists 0%Q, data. split; [exact Hwf|reflexivity].
    - right. exists 1%Q, data. split; [exact Hwf|reflexivity].
    - right. exists 2%Q, data. split; [exact Hwf|reflexivity]. }
  assert (H2 : 16 < Proximity.detection_zones c) by reflexivity.
  assert (H3 : 1 <= Proximity.consecutive_required c) by (vm_compute; discriminate).
  split; [repeat split; assumption|].
  exact (proj1 (more_zones_than_the_sensor_has clock c rs H1 H2 H3)).
Defined.

(** * Properties of the frame detector of the script *)

Section FrameDetectorFacts.

Import FrameDetector.

(** The thresholds stay, the counters move. *)
Lemma analyze_distances_state (d : ProximityDetector) (distances : list Z) :
  let d' := snd (analyze_distances d distances) in
  threshold_mm d' = threshold_mm d
  /\ detection_zones d' = detection_zones d
  /\ consecutive_required d' = consecutive_required d
  /\ no_presence_required d' = no_presence_required d
  /\ consecutive_detections d'
     = (if presence_detected d distances then consecutive_detections d + 1 else 0)
  /\ no_presence_count d'
     = (if presence_detected d distances then 0 else no_presence_count d + 1).
Proof.
  unfold analyze_distances.
  destruct (presence_detected d distances); cbn.
  - destruct (consecutive_required d <=? consecutive_detections d + 1);
      cbn; repeat split.
  - destruct (no_presence_required d <=? no_presence_count d + 1);
      cbn; repeat split.
Qed.

(** The verdict on a frame: a frame without presence is answered
    [False] at once, whatever the no-presence count. *)
Lemma analyze_distances_verdict (d : ProximityDetector) (distances : list Z) :
  1 <= consecutive_required d ->
  fst (analyze_distances d distances)
  = (if presence_detected d distances
     then consecutive_required d <=? consecutive_detections d + 1
     else false)
  /\ (consecutive_detections (snd (analyze_distances d distances)) = 0
      \/ no_presence_count (snd (analyze_distances d distances)) = 0).
Proof.
  intros Hr. split.
  - unfold analyze_distances.
    destruct (presence_detected d distances); cbn.
    + destruct (consecutive_required d <=? consecutive_detections d + 1) eqn:E;
        cbn; rewrite ?E; reflexivity.
    + destruct (no_presence_required d <=? no_presence_count d + 1); cbn;
        [reflexivity|]. apply Z.leb_gt. lia.
  - destruct (analyze_distances_state d distances) as (_ & _ & _ & _ & Hcd & Hn).
    destruct (presence_detected d distances); auto.
Qed.

Lemma presence_detected_after (d : ProximityDetector) (f g : list Z) :
  presence_detected (snd (analyze_distances d f)) g = presence_detected d g.
Proof.
  destruct (analyze_distances_state d f) as (Ht & Hz & _).
  unfold presence_detected. now rewrite Ht, Hz.
Qed.

Lemma run_thresholds (frames : list (list Z)) (d : ProximityDetector) :
  consecutive_required (run d frames) = consecutive_required d
  /\ forall g, presence_detected (run d frames) g = presence_detected d g.
Proof.
  revert d. induction frames as [|f frames IH]; intros d; [split; reflexivity|].
  cbn [run fold_left]. fold (run (snd (analyze_distances d f)) frames).
  destruct (IH (snd (analyze_distances d f))) as [H1 H2].
  destruct (analyze_distances_state d f) as (_ & _ & Hr & _).
  split; [now rewrite H1|]. intros g. now rewrite H2, presence_detected_after.
Qed.

Lemma run_snoc (frames : list (list Z)) (f : list Z) (d : ProximityDetector) :
  run d (frames ++ [f]) = snd (analyze_distances (run d frames) f).
Proof. unfold run. now rewrite fold_left_app. Qed.

(** X13: the frame detector of the script. After a frame without
    presence followed by a streak of frames with presence, the
    detection counter is the length of the streak, whatever came
    before; and the answer to the next frame is [True] exactly when
    that frame shows presence too and completes or extends a window of
    [consecutive_required] frames. A frame without presence is answered
    [False] at once: [no_presence_required] delays nothing. *)
Theorem frame_streak
    (d : ProximityDetector) (before : list (list Z)) (gap : list Z)
    (streak : list (list Z)) :
  presence_detected d gap = false ->
  Forall (fun f => presence_detected d f = true) streak ->
  let d' := run d (before ++ gap :: streak) in
  consecutive_detections d' = Z.of_nat (List.length streak)
  /\ (1 <= consecutive_required d ->
      forall f,
        fst (analyze_distances d' f)
        = (presence_detected d f
           && (consecutive_required d <=? Z.of_nat (List.length streak) + 1))).
Proof.
  intros Hgap Hs.
  assert (Hcd : consecutive_detections (run d (before ++ gap :: streak))
                = Z.of_nat (List.length streak)).
  { induction streak as [|f streak IH] using rev_ind.
    - replace (before ++ [gap]) with (before ++ [gap]) by reflexivity.
      rewrite run_snoc.
      destruct (analyze_distances_state (run d before) gap) as (_ & _ & _ & _ & H & _).
      rewrite H. destruct (run_thresholds before d) as [_ Hp].
      now rewrite Hp, Hgap.
    - apply Forall_app in Hs. destruct Hs as [Hs Hf].
      inversion Hf as [|? ? Hf' _]; subst.
      change (before ++ gap :: streak ++ [f])
        with (before ++ (gap :: streak) ++ [f]).
      rewrite app_assoc, run_snoc.
      destruct (analyze_distances_state (run d (before ++ gap :: streak)) f)
        as (_ & _ & _ & _ & H & _).
      rewrite H. destruct (run_thresholds (before ++ gap :: streak) d) as [_ Hp].
      rewrite Hp, Hf', (IH Hs), length_app. cbn [List.length]. lia. }
  split; [exact Hcd|]. intros Hr f.
  destruct (run_thresholds (before ++ gap :: streak) d) as [Hreq Hp].
  destruct (analyze_distances_verdict (run d (before ++ gap :: streak)) f)
    as [Hv _]; [now rewrite Hreq|].
  rewrite Hv, Hp, Hreq, Hcd. destruct (presence_detected d f); reflexivity.
Qed.

End FrameDetectorFacts.

Lemma frame_streak_witness :
  let defaults :=
    {| FrameDetector.config_threshold_mm := 400;
       FrameDetector.config_detection_zones := 6;
       FrameDetector.config_consecutive_required := 3;
       FrameDetector.config_no_presence_required := 10 |} in
  let d := FrameDetector.ProximityDetector_init defaults None (Some 4) None None in
  let close := repeat 300 8 ++ repeat 2000 56 in
  let empty := repeat 0 64 in
  (FrameDetector.presence_detected d empty = false
   /\ Forall (fun f => FrameDetector.presence_detected d f = true) [close; close])
  /\ FrameDetector.consecutive_detections
       (FrameDetector.run d ([close; close; close] ++ empty :: [close; close])) = 2
  /\ fst (FrameDetector.analyze_distances
            (FrameDetector.run d ([close; close; close] ++ empty :: [close; close]))
            close) = true.
Proof.
  intros defaults d close empty.
  assert (H1 : FrameDetector.presence_detected d empty = false) by reflexivity.
  assert (H2 : Forall (fun f => FrameDetector.presence_detected d f = true)
                 [close; close]) by (repeat constructor).
  split; [split; assumption|].
  destruct (frame_streak d [close; close; close] empty [close; close] H1 H2)
    as [Hcd Hv].
  split; [exact Hcd|]. rewrite Hv; [reflexivity|]. vm_compute. discriminate.
Defined.

(** * Further properties of the display of the script *)

Section ScriptDisplayFacts.

Import Script.

Variable config : ProximityConfig.
Variable io : nat -> bool.

(** [set_brightness], whatever the outcome of the write. *)
Lemma set_brightness_any (w : DisplayController) (value : Z) :
  let w' := snd (set_brightness io w value) in
  max_brightness w' = max_brightness w
  /\ (current_brightness w = content w -> current_brightness w' = content w')
  /\ (written w' = written w
      \/ written w' = Z.max 0 (Z.min value (max_brightness w)) :: written w)
  /\ (attempts w' = S (attempts w)).
Proof.
  unfold set_brightness. destruct (io (attempts w)); cbn; repeat split; auto.
Qed.

(** What the loop keeps whether the writes go through or not. *)
Lemma fade_fold_any (start target steps : Z) (l : list Z)
    (w : DisplayController) (last : Z) :
  current_brightness w = content w ->
  let w' := fst (fold_left (fade_iter config io start target steps) l (w, last)) in
  max_brightness w' = max_brightness w
  /\ current_brightness w' = content w'
  /\ (forall v, In v (written w') ->
                In v (written w)
                \/ exists b, v = Z.max 0 (Z.min b (max_brightness w)))
  /\ (attempts w' <= attempts w + List.length l)%nat.
Proof.
  revert w last. induction l as [|i l IH]; intros w last Hc.
  - cbn. repeat split; auto; lia.
  - cbn [fold_left].
    change (fade_iter config io start target steps (w, last) i)
      with (if negb (brightness_at config start target steps i =? last)
            then (snd (set_brightness io w
                         (brightness_at config start target steps i)),
                  brightness_at config start target steps i)
            else (w, last)).
    destruct (negb (brightness_at config start target steps i =? last)).
    + set (b := brightness_at config start target steps i) in *.
      destruct (set_brightness_any w b) as (Hm & Ht & Hw & Ha).
      set (w1 := snd (set_brightness io w b)) in *.
      destruct (IH w1 b (Ht Hc)) as (H1 & H2 & H3 & H4).
      set (wf := fst (fold_left (fade_iter config io start target steps) l (w1, b))) in *.
      cbn zeta. split; [congruence|]. split; [exact H2|].
      split; [|cbn [List.length]; lia].
      intros v Hv. destruct (H3 v Hv) as [Hin|[c Hb]].
      * destruct Hw as [Hw|Hw]; rewrite Hw in Hin; [now left|].
        destruct Hin as [<-|Hin]; [right; eexists; reflexivity|now left].
      * right. exists c. now rewrite <- Hm.
    + destruct (IH w last Hc) as (H1 & H2 & H3 & H4).
      cbn zeta. repeat split; auto. cbn [List.length]. lia.
Qed.

(** X14: [fade_to] of the script keeps [current_brightness] equal to
    what the brightness file holds, whether its writes go through or
    fail, and writes nothing outside [0, max_brightness]: the display
    of the script never tracks a value that the file does not hold. *)
Theorem script_tracks_the_file
    (w : DisplayController) (target : Z) (duration : Q) (steps : option Z)
    (w' : DisplayController) :
  current_brightness w = content w ->
  fade_to config io w target duration steps = Some w' ->
  current_brightness w' = content w'
  /\ max_brightness w' = max_brightness w
  /\ (0 <= max_brightness w ->
      forall v, In v (written w') ->
                In v (written w) \/ 0 <= v <= max_brightness w).
Proof.
  intros Hc. unfold fade_to.
  destruct (current_brightness w =? _).
  { intros H. injection H as <-. repeat split; auto. }
  destruct (settle_steps _ _) as [n|]; [|discriminate].
  intros H. injection H as <-. unfold fade_loop.
  destruct (fade_fold_any (current_brightness w)
              (Z.max 0 (Z.min target (max_brightness w))) n
              (Py.range (n + 1)) w (current_brightness w) Hc)
    as (H1 & H2 & H3 & _).
  split; [exact H2|]. split; [exact H1|].
  intros Hm v Hv. destruct (H3 v Hv) as [Hin|[b ->]]; [now left|right; lia].
Qed.

Hypothesis io_ok : forall k, io k = true.

(** X15: a target out of range is clamped before the fade: when the
    writes go through, a fade that runs to its end stops on
    [max(0, min(target, max_brightness))], so on [max_brightness] for a
    target above it and on 0 for a negative one. *)
Theorem fade_to_clamps_target
    (w : DisplayController) (target : Z) (duration : Q) (steps : option Z) :
  0 < match steps with None => fade_steps config | Some s => s end ->
  (0 <= duration)%Q ->
  0 <= max_brightness w ->
  match fade_to config io w target duration steps with
  | None => (duration < 1 # 600)%Q
  | Some w' =>
      current_brightness w' = Z.max 0 (Z.min target (max_brightness w))
      /\ (max_brightness w <= target -> current_brightness w' = max_brightness w)
      /\ (target <= 0 -> current_brightness w' = 0)
  end.
Proof.
  intros Hs Hd Hm.
  set (t := Z.max 0 (Z.min target (max_brightness w))).
  assert (He : fade_to config io w target duration steps
               = fade_to config io w t duration steps).
  { unfold fade_to. replace (Z.max 0 (Z.min t (max_brightness w))) with t
      by (unfold t; lia). reflexivity. }
  rewrite He.
  pose proof (fade_to_reaches_target config io io_ok w t duration steps Hs Hd) as H.
  destruct (fade_to config io w t duration steps); [|apply H; unfold t; lia].
  rewrite H by (unfold t; lia). unfold t. repeat split; lia.
Qed.

(** X16: the steps of a fade. The number of steps that [fade_to]
    settles on is positive and at most the number asked for: the guard
    on the pace only ever reduces it. *)
Theorem settled_steps_bounds (duration : Q) (steps n : Z) :
  0 < steps -> (0 <= duration)%Q ->
  settle_steps duration steps = Some n ->
  0 < n <= steps.
Proof.
  intros Hs Hd Hn.
  pose proof (settle_steps_positive duration steps Hs Hd) as Hpos.
  rewrite Hn in Hpos. split; [exact Hpos|].
  revert Hn. unfold settle_steps.
  rewrite div_inject_Z by lia.
  assert (Hsq : (0 < inject_Z steps)%Q)
    by (change 0%Q with (inject_Z 0); now rewrite <- Zlt_Qlt).
  destruct (Py.ltb _ min_step_delay) eqn:Hl.
  - apply ltb_lt in Hl. rewrite min_step_delay_val in Hl.
    set (m := Py.int (duration / min_step_delay)) in *.
    assert (He : (duration / min_step_delay == duration * 600)%Q)
      by (rewrite min_step_delay_val; field).
    destruct (Z.eq_dec m 0) as [Hz|Hz].
    { rewrite Hz. cbn. discriminate. }
    rewrite div_inject_Z by exact Hz. intros H. injection H as <-.
    assert (Hds : (duration * 600 <= inject_Z steps)%Q).
    { assert (E : (duration == duration / inject_Z steps * inject_Z steps)%Q).
      { field. intros Hs0. rewrite Hs0 in Hsq. exact (Qlt_irrefl 0 Hsq). }
      set (q := (duration / inject_Z steps)%Q) in *. nra. }
    rewrite <- (int_Z steps). apply int_mono. rewrite He. exact Hds.
  - intros H. injection H as <-. lia.
Qed.

(** The value of a step lies between the start and the target. *)
Lemma brightness_at_between (start target steps i : Z) :
  0 < steps -> 0 <= i <= steps ->
  Z.min start target <= brightness_at config start target steps i
  <= Z.max start target.
Proof.
  intros Hs Hi. unfold brightness_at.
  apply round_between; apply lerp_between;
    apply (eased_unit config (inject_Z i / inject_Z steps));
    now apply progress_unit.
Qed.

Lemma div_some_nonzero (x : Q) (z : Z) (q : Q) :
  Py.div x (inject_Z z) = Some q -> z <> 0.
Proof.
  unfold Py.div. destruct (Qeq_bool (inject_Z z) 0) eqn:E; [discriminate|].
  intros _ Hz. subst z. discriminate.
Qed.

Lemma settle_steps_nonzero (duration : Q) (steps n : Z) :
  settle_steps duration steps = Some n -> n <> 0.
Proof.
  unfold settle_steps.
  destruct (Py.div duration (inject_Z steps)) as [sd|] eqn:E; [|discriminate].
  destruct (Py.ltb sd min_step_delay).
  - destruct (Py.div duration (inject_Z (Py.int (duration / min_step_delay))))
      as [sd'|] eqn:E'; [|discriminate].
    intros H. injection H as <-. exact (div_some_nonzero _ _ _ E').
  - intros H. injection H as <-. exact (div_some_nonzero _ _ _ E).
Qed.

Lemma no_repeat_cons (b : Z) (l : list Z) :
  (forall a, hd_error l = Some a -> b <> a) ->
  Writes.no_repeat l -> Writes.no_repeat (b :: l).
Proof.
  intros Hh Hl i x y Hx Hy. destruct i as [|i].
  - cbn in Hx, Hy. injection Hx as <-. apply Hh.
    destruct l; [discriminate|]. cbn in *. congruence.
  - cbn in Hx, Hy. exact (Hl i x y Hx Hy).
Qed.

(** The loop writes a value only when it differs from the one before. *)
Lemma fade_fold_changes (start target steps : Z) (old : list Z) (l : list Z)
    (w : DisplayController) (last : Z) (new : list Z) :
  0 < steps ->
  Forall (fun i => 0 <= i <= steps) l ->
  0 <= Z.min start target -> Z.max start target <= max_brightness w ->
  written w = (new ++ old)%list ->
  Writes.no_repeat (new ++ [start]) ->
  hd_error (new ++ [start]) = Some last ->
  Forall (fun v => Z.min start target <= v <= Z.max start target) new ->
  exists new',
    written (fst (fold_left (fade_iter config io start target steps) l (w, last)))
    = (new' ++ old)%list
    /\ Writes.no_repeat (new' ++ [start])
    /\ Forall (fun v => Z.min start target <= v <= Z.max start target) new'.
Proof.
  intros Hs Hl Hlo Hhi. revert w last new Hhi.
  induction l as [|i l IH]; intros w last new Hhi Hw Hn Hh Hnew.
  - exists new. repeat split; assumption.
  - inversion Hl as [|? ? Hi Hl']; subst. cbn [fold_left].
    change (fade_iter config io start target steps (w, last) i)
      with (if negb (brightness_at config start target steps i =? last)
            then (snd (set_brightness io w
                         (brightness_at config start target steps i)),
                  brightness_at config start target steps i)
            else (w, last)).
    pose proof (brightness_at_between start target steps i Hs Hi) as Hb.
    set (b := brightness_at config start target steps i) in *.
    destruct (b =? last) eqn:E; cbn [negb].
    + exact (IH Hl' w last new Hhi Hw Hn Hh Hnew).
    + apply Z.eqb_neq in E.
      destruct (set_brightness_ok io io_ok w b) as (_ & _ & _ & Hwr & Hm).
      apply (IH Hl' _ b (b :: new)).
      * now rewrite Hm.
      * rewrite Hwr, Hw. cbn [app]. f_equal. lia.
      * cbn [app]. apply no_repeat_cons; [|exact Hn].
        intros a Ha. rewrite Hh in Ha. congruence.
      * reflexivity.
      * constructor; assumption.
Qed.

(** X17: a fade writes no value twice in a row: among the values
    written to the file by one [fade_to], starting from the brightness
    before it, no two neighbours are equal, and all lie within
    [0, max_brightness]. *)
Theorem fade_to_writes_only_changes
    (w : DisplayController) (target : Z) (duration : Q) (steps : option Z)
    (w' : DisplayController) :
  0 <= current_brightness w <= max_brightness w ->
  fade_to config io w target duration steps = Some w' ->
  exists new,
    written w' = (new ++ written w)%list
    /\ Writes.no_repeat (new ++ [current_brightness w])
    /\ (forall v, In v new -> 0 <= v <= max_brightness w).
Proof.
  intros Hc. unfold fade_to.
  set (t := Z.max 0 (Z.min target (max_brightness w))).
  destruct (current_brightness w =? t).
  { intros H. injection H as <-. exists [].
    split; [reflexivity|]. split; [|intros v Hv; destruct Hv].
    intros i a b Ha Hb. destruct i; cbn in Hb; [discriminate|].
    destruct i; discriminate. }
  destruct (settle_steps _ _) as [n|] eqn:En; [|discriminate].
  intros H. injection H as <-. unfold fade_loop.
  pose proof (settle_steps_nonzero _ _ _ En) as Hn0.
  destruct (Z_lt_le_dec 0 n) as [Hn|Hn].
  - destruct (fade_fold_changes (current_brightness w) t n (written w)
                (Py.range (n + 1)) w (current_brightness w) [])
      as (new & Hw & Hr & Hb); try (unfold t; lia); try reflexivity.
    + apply Forall_forall. intros i Hi. apply range_bounds in Hi. lia.
    + intros i a b Ha Hb. destruct i; cbn in Hb; [discriminate|].
      destruct i; discriminate.
    + constructor.
    + exists new. split; [exact Hw|]. split; [exact Hr|].
      intros v Hv. rewrite Forall_forall in Hb. specialize (Hb v Hv).
      unfold t in Hb. lia.
  - replace (Py.range (n + 1)) with (@nil Z).
    + exists []. split; [reflexivity|]. split; [|intros v Hv; destruct Hv].
      intros i a b Ha Hb. destruct i; cbn in Hb; [discriminate|].
      destruct i; discriminate.
    + unfold Py.range. replace (Z.to_nat (n + 1)) with 0%nat by lia. reflexivity.
Qed.

End ScriptDisplayFacts.

Lemma script_tracks_the_file_witness :
  let io := fun k : nat => Nat.even k in
  let w :=
    {| Script.max_brightness := 255; Script.current_brightness := 0;
       Script.content := 0; Script.written := []; Script.attempts := 0 |} in
  let w' :=
    match Script.fade_to Script.default_config io w 300 1 (Some 4) with
    | Some w' => w'
    | None => w
    end in
  (Script.current_brightness w = Script.content w
   /\ Script.fade_to Script.default_config io w 300 1 (Some 4) = Some w')
  /\ Script.current_brightness w' = Script.content w'.
Proof.
  intros io w w'.
  assert (H1 : Script.current_brightness w = Script.content w) by reflexivity.
  assert (H2 : Script.fade_to Script.default_config io w 300 1 (Some 4) = Some w')
    by (vm_compute; reflexivity).
  split; [split; assumption|].
  exact (proj1 (script_tracks_the_file Script.default_config io w 300 1 (Some 4)
                  w' H1 H2)).
Defined.

Lemma fade_to_clamps_target_witness :
  let io := fun _ : nat => true in
  let w :=
    {| Script.max_brightness := 255; Script.current_brightness := 0;
       Script.content := 0; Script.written := []; Script.attempts := 0 |} in
  ((forall k, io k = true)
   /\ 0 < 4
   /\ (0 <= 1)%Q
   /\ 0 <= Script.max_brightness w)
  /\ match Script.fade_to Script.default_config io w 300 1 (Some 4) with
     | None => (1 < 1 # 600)%Q
     | Some w' =>
         Script.current_brightness w'
         = Z.max 0 (Z.min 300 (Script.max_brightness w))
         /\ (Script.max_brightness w <= 300 ->
             Script.current_brightness w' = Script.max_brightness w)
         /\ (300 <= 0 -> Script.current_brightness w' = 0)
     end.
Proof.
  intros io w.
  assert (H0 : forall k, io k = true) by (intros k; reflexivity).
  assert (H1 : 0 < 4) by reflexivity.
  assert (H2 : (0 <= 1)%Q) by (vm_compute; discriminate).
  assert (H3 : 0 <= Script.max_brightness w) by (vm_compute; discriminate).
  split; [repeat split; assumption|].
  exact (fade_to_clamps_target Script.default_config io H0 w 300 1 (Some 4)
           H1 H2 H3).
Defined.

Lemma settled_steps_bounds_witness :
  (0 < 120 /\ (0 <= 1 # 10)%Q /\ Script.settle_steps (1 # 10) 120 = Some 60)
  /\ 0 < 60 <= 120.
Proof.
  assert (H1 : 0 < 120) by reflexivity.
  assert (H2 : (0 <= 1 # 10)%Q) by (vm_compute; discriminate).
  assert (H3 : Script.settle_steps (1 # 10) 120 = Some 60)
    by (vm_compute; reflexivity).
  split; [repeat split; assumption|].
  exact (settled_steps_bounds (1 # 10) 120 60 H1 H2 H3).
Defined.

Lemma fade_to_writes_only_changes_witness :
  let io := fun _ : nat => true in
  let w :=
    {| Script.max_brightness := 255; Script.current_brightness := 10;
       Script.content := 10; Script.written := [10]; Script.attempts := 1 |} in
  let w' :=
    match Script.fade_to Script.default_config io w 12 1 (Some 8) with
    | Some w' => w'
    | None => w
    end in
  ((forall k, io k = true)
   /\ 0 <= Script.current_brightness w <= Script.max_brightness w
   /\ Script.fade_to Script.default_config io w 12 1 (Some 8) = Some w')
  /\ exists new,
       Script.written w' = (new ++ Script.written w)%list
       /\ Writes.no_repeat (new ++ [Script.current_brightness w]).
Proof.
  intros io w w'.
  assert (H0 : forall k, io k = true) by (intros k; reflexivity).
  assert (H1 : 0 <= Script.current_brightness w <= Script.max_brightness w)
    by (split; vm_compute; discriminate).
  assert (H2 : Script.fade_to Script.default_config io w 12 1 (Some 8) = Some w')
    by (vm_compute; reflexivity).
  split; [repeat split; (assumption || apply H1)|].
  destruct (fade_to_writes_only_changes Script.default_config io H0 w 12 1 (Some 8)
              w' H1 H2) as (new & Hw & Hn & _).
  exists new. split; assumption.
Defined.

(** * Further properties of the display controller *)

Section ControllerFacts.

Import Display.

Variable io : nat -> bool.

(** [_write_brightness], whatever the outcome of the write. *)
Lemma write_brightness_any (w : DisplayController) (b : Z) :
  let w' := snd (_write_brightness io w b) in
  let clamped :=
    Z.max (min_brightness (config w)) (Z.min (max_brightness (config w)) b) in
  state w' = state w
  /\ config w' = config w
  /\ _brightness_path w' = _brightness_path w
  /\ ((fst (_write_brightness io w b) = false
       /\ content w' = content w /\ written w' = written w)
      \/ (fst (_write_brightness io w b) = true
          /\ content w' = clamped /\ written w' = clamped :: written w))
  /\ (_brightness_path w <> None -> attempts w' = S (attempts w)).
Proof.
  unfold _write_brightness.
  destruct (_brightness_path w) as [p|] eqn:Ep;
    [destruct (io (attempts w))|]; cbn; rewrite ?Ep;
    repeat split; auto; intros; congruence.
Qed.

(** One iteration of the fade, whatever the outcome of the write. *)
Lemma fade_step_any (start diff target steps : Z) (w : DisplayController) (step : Z) :
  let w' := fade_step io start diff target steps w step in
  let b := new_brightness (config w) start diff target steps step in
  let clamped :=
    Z.max (min_brightness (config w)) (Z.min (max_brightness (config w)) b) in
  config w' = config w
  /\ _brightness_path w' = _brightness_path w
  /\ target_brightness (state w') = target_brightness (state w)
  /\ is_fading (state w') = is_fading (state w)
  /\ is_awake (state w') = is_awake (state w)
  /\ ((state w' = state w /\ content w' = content w /\ written w' = written w)
      \/ (current_brightness (state w') = b
          /\ content w' = clamped /\ written w' = clamped :: written w))
  /\ (_brightness_path w <> None -> attempts w' = S (attempts w)).
Proof.
  unfold fade_step.
  destruct (write_brightness_any w
              (new_brightness (config w) start diff target steps step))
    as (Hs & Hc & Hp & Hw & Ha).
  destruct (_write_brightness io w _) as [ok w1]. cbn [fst snd] in *.
  destruct Hw as [(-> & Hct & Hwr)|(-> & Hct & Hwr)]; cbn; rewrite ?Hs;
    repeat split; auto.
Qed.

(** The run of the loop, whatever the outcomes of the writes. *)
Lemma fade_steps_any (start diff target steps : Z) (l : list Z)
    (w : DisplayController) :
  let w' := fold_left (fade_step io start diff target steps) l w in
  let lo := min_brightness (config w) in
  let hi := max_brightness (config w) in
  config w' = config w
  /\ _brightness_path w' = _brightness_path w
  /\ target_brightness (state w') = target_brightness (state w)
  /\ is_fading (state w') = is_fading (state w)
  /\ is_awake (state w') = is_awake (state w)
  /\ (lo <= hi ->
      (forall v, In v (written w') -> In v (written w) \/ lo <= v <= hi)
      /\ (content w' = content w \/ lo <= content w' <= hi))
  /\ (_brightness_path w <> None ->
      attempts w' = (attempts w + List.length l)%nat).
Proof.
  revert w. induction l as [|i l IH]; intros w.
  - cbn. repeat split; auto; lia.
  - cbn [fold_left].
    destruct (fade_step_any start diff target steps w i)
      as (Hc & Hp & Ht & Hf & Ha & Hw & Hn).
    set (w1 := fade_step io start diff target steps w i) in *.
    destruct (IH w1) as (H1 & H2 & H3 & H4 & H5 & H6 & H7).
    cbn zeta in *.
    set (wf := fold_left (fade_step io start diff target steps) l w1) in *.
    split; [congruence|]. split; [congruence|]. split; [congruence|].
    split; [congruence|]. split; [congruence|]. split.
    + intros Hr. rewrite Hc in H6. destruct (H6 Hr) as [H6a H6b]. split.
      * intros v Hv. destruct (H6a v Hv) as [Hin|Hin]; [|now right].
        destruct Hw as [(_ & _ & Hwr)|(_ & _ & Hwr)]; rewrite Hwr in Hin;
          [now left|]. destruct Hin as [<-|Hin]; [right; lia|now left].
      * destruct H6b as [H6b|H6b]; [|now right].
        rewrite H6b. destruct Hw as [(_ & Hct & _)|(_ & Hct & _)]; rewrite Hct;
          [now left|right; lia].
    + intros Hpath. rewrite H7 by (rewrite Hp; exact Hpath).
      rewrite (Hn Hpath). cbn [List.length]. lia.
Qed.

(** X18: whatever the target of a fade and whichever writes fail,
    the worker writes only values within
    [min_brightness, max_brightness] to the file, and the file ends
    holding such a value or what it held before. *)
Theorem fade_worker_writes_within_range
    (w : DisplayController) (target : Z) (duration : Q) (w' : DisplayController) :
  min_brightness (config w) <= max_brightness (config w) ->
  _fade_worker io w target duration = Some w' ->
  (forall v, In v (written w') ->
             In v (written w)
             \/ min_brightness (config w) <= v <= max_brightness (config w))
  /\ (content w' = content w
      \/ min_brightness (config w) <= content w' <= max_brightness (config w)).
Proof.
  intros Hr. unfold _fade_worker.
  destruct (_ =? 0).
  { intros H. injection H as <-. split; auto. }
  destruct (Py.div _ _); [|discriminate].
  intros H. injection H as <-.
  destruct (fade_steps_any (current_brightness (state w))
              (target - current_brightness (state w)) target
              (fade_steps (config w)) (Py.range (fade_steps (config w) + 1)) w)
    as (_ & _ & _ & _ & _ & H6 & _).
  exact (H6 Hr).
Qed.

(** X19: the step count of the worker at its edges. A fade to the
    brightness already tracked does nothing and needs no step count;
    otherwise [fade_steps = 0] is a division by zero, a negative
    [fade_steps] makes the fade a no-op, and a positive one makes
    exactly [fade_steps + 1] attempts to write. *)
Theorem fade_worker_step_count
    (w : DisplayController) (target : Z) (duration : Q) :
  let steps := fade_steps (config w) in
  (current_brightness (state w) = target ->
   _fade_worker io w target duration = Some w)
  /\ (current_brightness (state w) <> target -> steps = 0 ->
      _fade_worker io w target duration = None)
  /\ (current_brightness (state w) <> target -> steps < 0 ->
      _fade_worker io w target duration = Some w)
  /\ (current_brightness (state w) <> target -> 0 < steps ->
      _brightness_path w <> None ->
      exists w',
        _fade_worker io w target duration = Some w'
        /\ attempts w' = (attempts w + Z.to_nat (steps + 1))%nat).
Proof.
  cbn zeta. unfold _fade_worker. repeat split.
  - intros ->. now rewrite Z.sub_diag.
  - intros Hne Hs.
    replace (_ =? 0) with false by (symmetry; apply Z.eqb_neq; lia).
    rewrite Hs. reflexivity.
  - intros Hne Hs.
    replace (_ =? 0) with false by (symmetry; apply Z.eqb_neq; lia).
    rewrite div_inject_Z by lia.
    replace (Py.range (fade_steps (config w) + 1)) with (@nil Z); [reflexivity|].
    unfold Py.range. replace (Z.to_nat _) with 0%nat by lia. reflexivity.
  - intros Hne Hs Hp.
    replace (_ =? 0) with false by (symmetry; apply Z.eqb_neq; lia).
    rewrite div_inject_Z by lia. eexists. split; [reflexivity|].
    destruct (fade_steps_any (current_brightness (state w))
                (target - current_brightness (state w)) target
                (fade_steps (config w)) (Py.range (fade_steps (config w) + 1)) w)
      as (_ & _ & _ & _ & _ & _ & H7).
    rewrite (H7 Hp). unfold Py.range. now rewrite length_map, length_seq.
Qed.

(** When no write goes through, nothing moves. *)
Lemma fade_steps_failing (start diff target steps : Z) (l : list Z)
    (w : DisplayController) :
  (_brightness_path w = None \/ forall k, io k = false) ->
  let w' := fold_left (fade_step io start diff target steps) l w in
  state w' = state w /\ content w' = content w /\ written w' = written w
  /\ _brightness_path w' = _brightness_path w.
Proof.
  intros Hf. revert w Hf. induction l as [|i l IH]; intros w Hf; [now cbn|].
  cbn [fold_left].
  assert (H1 : let w1 := fade_step io start diff target steps w i in
               state w1 = state w /\ content w1 = content w
               /\ written w1 = written w
               /\ _brightness_path w1 = _brightness_path w).
  { unfold fade_step, _write_brightness.
    destruct (_brightness_path w) as [p|] eqn:Ep.
    - destruct Hf as [Hf|Hf]; [discriminate|]. rewrite Hf. cbn.
      rewrite ?Ep. repeat split.
    - cbn. rewrite ?Ep. repeat split. }
  cbn zeta in H1. destruct H1 as (Hs & Hc & Hw & Hp).
  destruct (IH (fade_step io start diff target steps w i)) as (H2 & H3 & H4 & H5).
  { destruct Hf as [Hf|Hf]; [left; now rewrite Hp|now right]. }
  cbn zeta. rewrite H2, H3, H4, H5. auto.
Qed.

(** X20: a fade without a brightness path, or whose writes all fail,
    runs to its end and leaves the tracked state and the file as they
    were. *)
Theorem fade_worker_failed_writes
    (w : DisplayController) (target : Z) (duration : Q) :
  (_brightness_path w = None \/ forall k, io k = false) ->
  fade_steps (config w) <> 0 ->
  exists w',
    _fade_worker io w target duration = Some w'
    /\ state w' = state w /\ content w' = content w /\ written w' = written w.
Proof.
  intros Hf Hs. unfold _fade_worker.
  destruct (_ =? 0); [exists w; auto|].
  rewrite div_inject_Z by exact Hs. eexists. split; [reflexivity|].
  destruct (fade_steps_failing (current_brightness (state w))
              (target - current_brightness (state w)) target
              (fade_steps (config w)) (Py.range (fade_steps (config w) + 1)) w Hf)
    as (H1 & H2 & H3 & _).
  auto.
Qed.

(** A fade moves the brightness and nothing else of the state. *)
Lemma fade_worker_flags
    (w : DisplayController) (target : Z) (duration : Q) (w' : DisplayController) :
  _fade_worker io w target duration = Some w' ->
  config w' = config w
  /\ _brightness_path w' = _brightness_path w
  /\ target_brightness (state w') = target_brightness (state w)
  /\ is_fading (state w') = is_fading (state w)
  /\ is_awake (state w') = is_awake (state w).
Proof.
  unfold _fade_worker. destruct (_ =? 0).
  { intros H. injection H as <-. repeat split. }
  destruct (Py.div _ _); [|discriminate].
  intros H. injection H as <-.
  destruct (fade_steps_any (current_brightness (state w))
              (target - current_brightness (state w)) target
              (fade_steps (config w)) (Py.range (fade_steps (config w) + 1)) w)
    as (H1 & H2 & H3 & H4 & H5 & _).
  auto.
Qed.

Lemma start_fade_flags
    (w : DisplayController) (target : Z) (duration : Q) (w' : DisplayController) :
  _start_fade io w target duration = Some w' ->
  config w' = config w
  /\ _brightness_path w' = _brightness_path w
  /\ target_brightness (state w') = target
  /\ is_fading (state w') = false
  /\ is_awake (state w') = is_awake (state w).
Proof.
  unfold _start_fade.
  destruct (_fade_worker io _ target duration) as [w2|] eqn:E; [|discriminate].
  intros H. injection H as <-.
  destruct (fade_worker_flags _ _ _ _ E) as (H1 & H2 & H3 & H4 & H5).
  cbn in *. repeat split; assumption.
Qed.

(** X21: ambient light never wakes the display or puts it to sleep.
    [set_adaptive_brightness] changes nothing at all while the display
    sleeps, when adaptive brightness is disabled, or when the computed
    target is within 10 of the current one; and when it does fade, the
    new target is the computed one. *)
Theorem adaptive_brightness_keeps_sleep
    (w : DisplayController) (lux : Q) (w' : DisplayController) :
  set_adaptive_brightness io w lux = Some w' ->
  is_awake (state w') = is_awake (state w)
  /\ (is_awake (state w) = false \/ adaptive_brightness_enabled (config w) = false
      \/ Z.abs (adaptive_target (config w) lux - target_brightness (state w)) <= 10 ->
      w' = w)
  /\ (w' <> w -> target_brightness (state w') = adaptive_target (config w) lux).
Proof.
  unfold set_adaptive_brightness.
  destruct (adaptive_brightness_enabled (config w)); cbn [negb orb].
  2:{ intros H. injection H as <-. repeat split; auto. congruence. }
  destruct (is_awake (state w)) eqn:Ea; cbn [negb].
  2:{ intros H. injection H as <-. repeat split; auto. congruence. }
  destruct (10 <? _) eqn:E.
  - intros H. destruct (start_fade_flags _ _ _ _ H) as (_ & _ & Ht & _ & Haw).
    apply Z.ltb_lt in E. split; [congruence|]. split; [|auto].
    intros [Hf|[Hf|Hf]]; try discriminate. lia.
  - intros H. injection H as <-. repeat split; auto. congruence.
Qed.

Hypothesis io_ok : forall k, io k = true.

(** A fade that is started ends on its target. *)
Lemma start_fade_ok (w : DisplayController) (target : Z) (duration : Q) :
  _brightness_path w <> None ->
  0 < fade_steps (config w) ->
  exists w',
    _start_fade io w target duration = Some w'
    /\ current_brightness (state w') = target
    /\ target_brightness (state w') = target
    /\ is_fading (state w') = false
    /\ is_awake (state w') = is_awake (state w)
    /\ config w' = config w
    /\ _brightness_path w' = _brightness_path w.
Proof.
  intros Hp Hs.
  destruct (fade_worker_reaches_target io io_ok
              (with_state
                 (set_is_fading true (set_target_brightness target (state w))) w)
              target duration Hp Hs) as (w2 & Hw & Hc & _).
  assert (Hsf : _start_fade io w target duration
                = Some (with_state (set_is_fading false (state w2)) w2)).
  { unfold _start_fade. now rewrite Hw. }
  exists (with_state (set_is_fading false (state w2)) w2).
  split; [exact Hsf|].
  destruct (start_fade_flags _ _ _ _ Hsf) as (H1 & H2 & H3 & H4 & H5).
  repeat split; auto.
Qed.

(** X22: [wake_display], when the writes go through, leaves the
    display awake with the given target (by default
    [max_brightness]); the call is a no-op on a display that is awake
    with that target, and otherwise ends with [current_brightness] on
    the target and no fade in progress. *)
Theorem wake_display_effect (w : DisplayController) (target : option Z) :
  _brightness_path w <> None ->
  0 < fade_steps (config w) ->
  let t := match target with None => max_brightness (config w) | Some t => t end in
  exists w',
    wake_display io w target = Some w'
    /\ is_awake (state w') = true
    /\ target_brightness (state w') = t
    /\ (is_awake (state w) = true /\ target_brightness (state w) = t -> w' = w)
    /\ (is_awake (state w) = false \/ target_brightness (state w) <> t ->
        current_brightness (state w') = t /\ is_fading (state w') = false).
Proof.
  intros Hp Hs t. unfold wake_display. fold t.
  destruct (is_awake (state w) && (target_brightness (state w) =? t)) eqn:E.
  - apply andb_true_iff in E. destruct E as [Ea Et]. apply Z.eqb_eq in Et.
    exists w. split; [reflexivity|]. split; [exact Ea|]. split; [exact Et|].
    split; [intros _; reflexivity|]. intros [Hf|Hf]; congruence.
  - destruct (start_fade_ok w t (fade_in_duration (config w)) Hp Hs)
      as (w1 & Hw & Hc & Ht & Hf & _).
    rewrite Hw. eexists. split; [reflexivity|]. cbn.
    split; [reflexivity|]. split; [exact Ht|]. split.
    + intros [Ea Et]. rewrite Ea, Et, Z.eqb_refl in E. discriminate.
    + intros _. split; assumption.
Qed.

(** X23: [sleep_display], when the writes go through, leaves the
    display asleep; it is a no-op on a sleeping display, and otherwise
    fades [current_brightness] to [min_brightness]. *)
Theorem sleep_display_effect (w : DisplayController) :
  _brightness_path w <> None ->
  0 < fade_steps (config w) ->
  exists w',
    sleep_display io w = Some w'
    /\ is_awake (state w') = false
    /\ (is_awake (state w) = false -> w' = w)
    /\ (is_awake (state w) = true ->
        current_brightness (state w') = min_brightness (config w)
        /\ target_brightness (state w') = min_brightness (config w)
        /\ is_fading (state w') = false).
Proof.
  intros Hp Hs. unfold sleep_display.
  destruct (is_awake (state w)) eqn:Ea; cbn [negb].
  - destruct (start_fade_ok w (min_brightness (config w))
                (fade_out_duration (config w)) Hp Hs)
      as (w1 & Hw & Hc & Ht & Hf & _).
    rewrite Hw. eexists. split; [reflexivity|]. cbn.
    split; [reflexivity|]. split; [discriminate|]. intros _. auto.
  - exists w. split; [reflexivity|]. split; [exact Ea|].
    split; [intros _; reflexivity|]. discriminate.
Qed.

End ControllerFacts.

Section AdaptiveTargetFacts.

Import Display.

(** Between the thresholds the ratio is a fraction. *)
Lemma ratio_unit (lo hi l : Q) :
  (lo < l)%Q -> (l < hi)%Q -> (0 <= (l - lo) / (hi - lo) <= 1)%Q.
Proof.
  intros H1 H2. split.
  - apply Qle_shift_div_l; lra.
  - apply Qle_shift_div_r; lra.
Qed.

(** X24: the target of [set_adaptive_brightness] grows with the
    ambient light and stays within
    [min_brightness + 50, max_brightness], provided [min_brightness]
    is not positive and [max_brightness] is at least 50. *)
Theorem adaptive_target_monotone (cfg : DisplayConfig) (l1 l2 : Q) :
  (light_threshold_low cfg < light_threshold_high cfg)%Q ->
  min_brightness cfg <= 0 ->
  50 <= max_brightness cfg ->
  (l1 <= l2)%Q ->
  adaptive_target cfg l1 <= adaptive_target cfg l2
  /\ min_brightness cfg + 50 <= adaptive_target cfg l1 <= max_brightness cfg.
Proof.
  intros Hlh Hmin Hmax Hl.
  assert (Hd : (0 <= inject_Z (max_brightness cfg - 50))%Q)
    by (change 0%Q with (inject_Z 0); rewrite <- Zle_Qle; lia).
  assert (Hb : forall l,
             min_brightness cfg + 50 <= adaptive_target cfg l <= max_brightness cfg).
  { intros l. unfold adaptive_target.
    destruct (Qle_bool l (light_threshold_low cfg)) eqn:E1; [lia|].
    destruct (Qle_bool (light_threshold_high cfg) l) eqn:E2; [lia|].
    apply Qle_bool_false in E1, E2.
    pose proof (ratio_unit _ _ _ E1 E2) as Hr.
    set (ratio := ((l - light_threshold_low cfg)
                   / (light_threshold_high cfg - light_threshold_low cfg))%Q) in *.
    assert (H : 50 <= Py.int (50 + ratio * inject_Z (max_brightness cfg - 50))
                <= max_brightness cfg); [|lia].
    apply int_between.
    - change (inject_Z 50) with 50%Q. nra.
    - assert (He : (inject_Z (max_brightness cfg)
                    == 50 + inject_Z (max_brightness cfg - 50))%Q).
      { unfold Z.sub. rewrite inject_Z_plus, inject_Z_opp.
        change (inject_Z 50) with 50%Q. ring. }
      rewrite He. nra. }
  split; [|apply Hb].
  unfold adaptive_target.
  destruct (Qle_bool l1 (light_threshold_low cfg)) eqn:E1.
  { specialize (Hb l2). unfold adaptive_target in Hb. lia. }
  destruct (Qle_bool l2 (light_threshold_low cfg)) eqn:E2.
  { apply Qle_bool_false in E1. apply Qle_bool_iff in E2. lra. }
  destruct (Qle_bool (light_threshold_high cfg) l2) eqn:E3.
  { specialize (Hb l1). unfold adaptive_target in Hb. rewrite E1 in Hb.
    destruct (Qle_bool (light_threshold_high cfg) l1); lia. }
  destruct (Qle_bool (light_threshold_high cfg) l1) eqn:E4.
  { apply Qle_bool_iff in E4. apply Qle_bool_false in E3. lra. }
  apply int_mono.
  exact (interpolation_mono _ _ l1 l2 50 (max_brightness cfg - 50) Hlh
           ltac:(lia) Hl).
Qed.

End AdaptiveTargetFacts.

Lemma fade_worker_writes_within_range_witness :
  let io := fun k : nat => Nat.even k in
  let cfg :=
    {| Display.fade_in_duration := 2; Display.fade_out_duration := 3;
       Display.adaptive_brightness_enabled := true;
       Display.min_brightness := 20; Display.max_brightness := 255;
       Display.light_threshold_low := 10; Display.light_threshold_high := 500;
       Display.fade_duration := 1; Display.fade_steps := 4;
       Display.fade_easing := "quintic" |} in
  let w :=
    {| Display.config := cfg; Display.state := Display.DisplayState_init;
       Display._brightness_path := Some "/sys/class/backlight/rpi_backlight/brightness"%string;
       Display.content := 0; Display.written := []; Display.attempts := 0 |} in
  let w' :=
    match Display._fade_worker io w 300 2 with
    | Some w' => w'
    | None => w
    end in
  (Display.min_brightness (Display.config w) <= Display.max_brightness (Display.config w)
   /\ Display._fade_worker io w 300 2 = Some w')
  /\ forall v, In v (Display.written w') -> 20 <= v <= 255.
Proof.
  intros io cfg w w'.
  assert (H1 : Display.min_brightness (Display.config w)
               <= Display.max_brightness (Display.config w))
    by (vm_compute; discriminate).
  assert (H2 : Display._fade_worker io w 300 2 = Some w')
    by (vm_compute; reflexivity).
  split; [split; assumption|].
  intros v Hv.
  destruct (proj1 (fade_worker_writes_within_range io w 300 2 w' H1 H2) v Hv)
    as [Hin|Hr]; [destruct Hin|exact Hr].
Defined.

Lemma fade_worker_failed_writes_witness :
  let io := fun _ : nat => false in
  let w :=
    {| Display.config := Display.default_config;
       Display.state := Display.DisplayState_init;
       Display._brightness_path := Some "/sys/class/backlight/rpi_backlight/brightness"%string;
       Display.content := 40; Display.written := []; Display.attempts := 0 |} in
  ((Display._brightness_path w = None \/ forall k, io k = false)
   /\ Display.fade_steps (Display.config w) <> 0)
  /\ exists w',
       Display._fade_worker io w 255 2 = Some w'
       /\ Display.state w' = Display.state w
       /\ Display.content w' = 40.
Proof.
  intros io w.
  assert (H1 : Display._brightness_path w = None \/ forall k, io k = false)
    by (right; intros k; reflexivity).
  assert (H2 : Display.fade_steps (Display.config w) <> 0)
    by (vm_compute; discriminate).
  split; [split; assumption|].
  destruct (fade_worker_failed_writes io w 255 2 H1 H2) as (w' & Hw & Hs & Hc & _).
  exists w'. repeat split; assumption.
Defined.

Lemma adaptive_brightness_keeps_sleep_witness :
  let io := fun _ : nat => true in
  let cfg :=
    {| Display.fade_in_duration := 2; Display.fade_out_duration := 3;
       Display.adaptive_brightness_enabled := true;
       Display.min_brightness := 0; Display.max_brightness := 255;
       Display.light_threshold_low := 10; Display.light_threshold_high := 500;
       Display.fade_duration := 1; Display.fade_steps := 4;
       Display.fade_easing := "quintic" |} in
  let w :=
    {| Display.config := cfg;
       Display.state :=
         {| Display.current_brightness := 255; Display.target_brightness := 255;
            Display.is_fading := false; Display.is_awake := true |};
       Display._brightness_path := Some "/sys/class/backlight/rpi_backlight/brightness"%string;
       Display.content := 255; Display.written := []; Display.attempts := 0 |} in
  let w' :=
    match Display.set_adaptive_brightness io w 5 with
    | Some w' => w'
    | None => w
    end in
  Display.set_adaptive_brightness io w 5 = Some w'
  /\ Display.is_awake (Display.state w') = true.
Proof.
  intros io cfg w w'.
  assert (H1 : Display.set_adaptive_brightness io w 5 = Some w')
    by (vm_compute; reflexivity).
  split; [exact H1|].
  exact (proj1 (adaptive_brightness_keeps_sleep io w 5 w' H1)).
Defined.

Lemma wake_display_effect_witness :
  let io := fun _ : nat => true in
  let w :=
    {| Display.config := Display.default_config;
       Display.state := Display.DisplayState_init;
       Display._brightness_path := Some "/sys/class/backlight/rpi_backlight/brightness"%string;
       Display.content := 0; Display.written := []; Display.attempts := 0 |} in
  ((forall k, io k = true)
   /\ Display._brightness_path w <> None
   /\ 0 < Display.fade_steps (Display.config w))
  /\ exists w',
       Display.wake_display io w None = Some w'
       /\ Display.is_awake (Display.state w') = true
       /\ Display.current_brightness (Display.state w') = 255.
Proof.
  intros io w.
  assert (H0 : forall k, io k = true) by (intros k; reflexivity).
  assert (H1 : Display._brightness_path w <> None) by discriminate.
  assert (H2 : 0 < Display.fade_steps (Display.config w)) by reflexivity.
  split; [repeat split; assumption|].
  destruct (wake_display_effect io H0 w None H1 H2) as (w' & Hw & Ha & _ & _ & Hc).
  exists w'. split; [exact Hw|]. split; [exact Ha|].
  apply Hc. left. reflexivity.
Defined.

Lemma sleep_display_effect_witness :
  let io := fun _ : nat => true in
  let w :=
    {| Display.config := Display.default_config;
       Display.state :=
         {| Display.current_brightness := 255; Display.target_brightness := 255;
            Display.is_fading := false; Display.is_awake := true |};
       Display._brightness_path := Some "/sys/class/backlight/rpi_backlight/brightness"%string;
       Display.content := 255; Display.written := []; Display.attempts := 0 |} in
  ((forall k, io k = true)
   /\ Display._brightness_path w <> None
   /\ 0 < Display.fade_steps (Display.config w))
  /\ exists w',
       Display.sleep_display io w = Some w'
       /\ Display.is_awake (Display.state w') = false
       /\ Display.current_brightness (Display.state w') = 0.
Proof.
  intros io w.
  assert (H0 : forall k, io k = true) by (intros k; reflexivity).
  assert (H1 : Display._brightness_path w <> None) by discriminate.
  assert (H2 : 0 < Display.fade_steps (Display.config w)) by reflexivity.
  split; [repeat split; assumption|].
  destruct (sleep_display_effect io H0 w H1 H2) as (w' & Hw & Ha & _ & Hc).
  exists w'. split; [exact Hw|]. split; [exact Ha|].
  apply Hc. reflexivity.
Defined.

Lemma adaptive_target_monotone_witness :
  let cfg := Display.default_config in
  ((Display.light_threshold_low cfg < Display.light_threshold_high cfg)%Q
   /\ Display.min_brightness cfg <= 0
   /\ 50 <= Display.max_brightness cfg
   /\ (100 <= 250)%Q)
  /\ Display.adaptive_target cfg 100 <= Display.adaptive_target cfg 250.
Proof.
  intros cfg.
  assert (H1 : (Display.light_threshold_low cfg < Display.light_threshold_high cfg)%Q)
    by reflexivity.
  assert (H2 : Display.min_brightness cfg <= 0) by (vm_compute; discriminate).
  assert (H3 : 50 <= Display.max_brightness cfg) by (vm_compute; discriminate).
  assert (H4 : (100 <= 250)%Q) by (vm_compute; discriminate).
  split; [repeat split; assumption|].
  exact (proj1 (adaptive_target_monotone cfg 100 250 H1 H2 H3 H4)).
Defined.

(** * Properties of the display manager *)

Section ManagerFacts.

Import Manager.

Variable io : nat -> bool.

Lemma write_all_none (l : list Z) : write_all io l None = None.
Proof. induction l as [|b l IH]; [reflexivity|exact IH]. Qed.

(** Writing the values [l] one after the other. *)
Lemma write_all_spec (l : list Z) (w w' : DisplayManager) :
  write_all io l (Some w) = Some w' ->
  config w' = config w /\ state w' = state w
  /\ max_brightness w' = max_brightness w /\ readable w' = readable w
  /\ written w' = (rev (map (clamp w) l) ++ written w)%list
  /\ attempts w' = (attempts w + List.length l)%nat
  /\ (forall k, (attempts w <= k < attempts w')%nat -> io k = true).
Proof.
  revert w. induction l as [|b l IH]; intros w.
  - cbn. intros H. injection H as <-. repeat split; auto; lia.
  - cbn [write_all fold_left]. unfold set_brightness at 2.
    destruct (io (attempts w)) eqn:E;
      [|fold (write_all io l None); now rewrite write_all_none].
    fold (write_all io l). intros H. apply IH in H. cbn in H.
    destruct H as (H1 & H2 & H3 & H4 & H5 & H6 & H8).
    split; [exact H1|]. split; [exact H2|]. split; [exact H3|]. split; [exact H4|].
    split; [|split].
    + rewrite H5. cbn [map rev]. rewrite <- app_assoc. reflexivity.
    + rewrite H6. cbn [List.length]. lia.
    + intros k Hk. destruct (Nat.eq_dec k (attempts w)) as [->|Hne]; [exact E|].
      apply H8. lia.
Qed.

Lemma write_all_ok (l : list Z) (w : DisplayManager) :
  (forall k, io k = true) -> exists w', write_all io l (Some w) = Some w'.
Proof.
  intros Hio. revert w. induction l as [|b l IH]; intros w; [now exists w|].
  cbn [write_all fold_left]. unfold set_brightness at 2. rewrite Hio.
  apply IH.
Qed.

Lemma fade_to_unfold (w : DisplayManager) (target : Z) :
  fade_to io w target
  = match write_all io (requested w target) (Some w) with
    | None => None
    | Some w' => Some w'
    end.
Proof.
  unfold fade_to, requested, write_all. rewrite fold_left_app. cbn [fold_left].
  replace ((if get_brightness w <? target then FADE_STEP else - FADE_STEP) =? 0)
    with false by (destruct (_ <? _); reflexivity).
  destruct (fold_left _ _ (Some w)) as [w1|]; [|reflexivity].
  destruct (set_brightness io w1 target); reflexivity.
Qed.

(** A fade of the manager, write by write. *)
Lemma fade_to_spec (w : DisplayManager) (target : Z) (w' : DisplayManager) :
  fade_to io w target = Some w' ->
  written w' = (rev (map (clamp w) (requested w target)) ++ written w)%list
  /\ content w' = clamp w target
  /\ state w' = state w /\ max_brightness w' = max_brightness w
  /\ attempts w' = (attempts w + List.length (requested w target))%nat
  /\ (forall k, (attempts w <= k < attempts w')%nat -> io k = true).
Proof.
  rewrite fade_to_unfold.
  destruct (write_all io (requested w target) (Some w)) as [w1|] eqn:E;
    [|discriminate].
  intros H. injection H as <-.
  destruct (write_all_spec _ _ _ E) as (_ & H2 & H3 & _ & H5 & H6 & H8).
  split; [exact H5|]. split; [|auto].
  unfold requested, write_all in E. rewrite fold_left_app in E. cbn [fold_left] in E.
  destruct (fold_left _ _ (Some w)) as [w0|] eqn:E0; [|discriminate].
  fold (write_all io (range3 (get_brightness w) target
                        (if get_brightness w <? target then FADE_STEP
                         else - FADE_STEP)) (Some w)) in E0.
  destruct (write_all_spec _ _ _ E0) as (_ & _ & Hm & _).
  unfold set_brightness in E. destruct (io (attempts w0)); [|discriminate].
  injection E as <-. cbn. unfold clamp. now rewrite Hm.
Qed.

(** The k-th value of [range(n)] mapped by [f]. *)
Lemma nth_error_range_map (f : Z -> Z) (n : Z) (i : nat) (v : Z) :
  nth_error (map f (Py.range n)) i = Some v ->
  v = f (Z.of_nat i) /\ Z.of_nat i < n.
Proof.
  intros H. assert (Hi : (i < List.length (map f (Py.range n)))%nat)
    by (apply nth_error_Some; congruence).
  unfold Py.range in *. rewrite !length_map, length_seq in Hi.
  apply (nth_error_nth _ _ (f 0)) in H.
  rewrite <- H. rewrite (map_nth f), (map_nth Z.of_nat _ 0%nat), seq_nth by exact Hi.
  split; [reflexivity|lia].
Qed.

(** The values of [range(start, stop, step)] for the two steps of a
    fade. *)
Lemma range3_up (c t : Z) (i : nat) (v : Z) :
  nth_error (range3 c t 5) i = Some v ->
  v = c + Z.of_nat i * 5 /\ c <= v < t.
Proof.
  unfold range3. cbn [Z.ltb Z.compare]. intros H.
  apply nth_error_range_map in H. destruct H as [-> Hi].
  split; [reflexivity|]. destruct (c <? t) eqn:E; [apply Z.ltb_lt in E|lia].
  assert (Hd : (t - c + 5 - 1) / 5 * 5 <= t - c + 5 - 1)
    by (rewrite Z.mul_comm; apply Z.mul_div_le; lia).
  lia.
Qed.

Lemma range3_down (c t : Z) (i : nat) (v : Z) :
  nth_error (range3 c t (-5)) i = Some v ->
  v = c - Z.of_nat i * 5 /\ t < v <= c.
Proof.
  unfold range3. cbn [Z.ltb Z.compare Z.opp]. intros H.
  apply nth_error_range_map in H. destruct H as [-> Hi].
  split; [lia|]. destruct (t <? c) eqn:E; [apply Z.ltb_lt in E|lia].
  replace (c - t - -5 - 1) with (c - t + 5 - 1) in Hi by lia.
  assert (Hd : (c - t + 5 - 1) / 5 * 5 <= c - t + 5 - 1)
    by (rewrite Z.mul_comm; apply Z.mul_div_le; lia).
  lia.
Qed.

Lemma range3_length (c t : Z) :
  Z.of_nat (List.length (range3 c t (if c <? t then 5 else -5)))
  = (Z.abs (t - c) + 4) / 5.
Proof.
  unfold range3, Py.range. rewrite !length_map, length_seq.
  destruct (c <? t) eqn:E; cbn [Z.ltb Z.compare Z.opp].
  - apply Z.ltb_lt in E.
    rewrite Z2Nat.id by (apply Z.div_pos; lia). f_equal. lia.
  - apply Z.ltb_ge in E. destruct (t <? c) eqn:F.
    + apply Z.ltb_lt in F. rewrite Z2Nat.id by (apply Z.div_pos; lia).
      f_equal. lia.
    + apply Z.ltb_ge in F. replace (t - c) with 0 by lia. reflexivity.
Qed.

(** The requests of a fade form a ramp from the current value to the
    target. *)
Lemma requested_ramp (w : DisplayManager) (target : Z) :
  let current := get_brightness w in
  Writes.stride 5 (requested w target)
  /\ (forall v, In v (requested w target) ->
                Z.min current target <= v <= Z.max current target)
  /\ last (requested w target) 0 = target
  /\ (current <> target -> hd_error (requested w target) = Some current)
  /\ Z.of_nat (List.length (requested w target))
     = (Z.abs (target - current) + 4) / 5 + 1.
Proof.
  cbn zeta. unfold requested. set (c := get_brightness w).
  change FADE_STEP with 5. change (Z.opp 5) with (-5).
  split; [|split; [|split; [|split]]].
  - intros i a b Ha Hb.
    assert (Hlen : forall v, nth_error (range3 c target (if c <? target then 5 else -5)) i
                           = Some v ->
                   (v = c + Z.of_nat i * 5 /\ c <= v < target)
                   \/ (v = c - Z.of_nat i * 5 /\ target < v <= c)).
    { intros v Hv. destruct (c <? target);
        [left; now apply range3_up|right; now apply range3_down]. }
    remember (range3 c target (if c <? target then 5 else -5)) as l eqn:El.
    destruct (Nat.lt_ge_cases i (List.length l)) as [Hi|Hi].
    + rewrite nth_error_app1 in Ha by exact Hi.
      destruct (Nat.lt_ge_cases (S i) (List.length l)) as [Hsi|Hsi].
      * rewrite nth_error_app1 in Hb by exact Hsi.
        assert (Hb' : (b = c + Z.of_nat (S i) * 5 /\ c <= b < target)
                      \/ (b = c - Z.of_nat (S i) * 5 /\ target < b <= c)).
        { rewrite El in Hb. destruct (c <? target);
            [left; now apply range3_up|right; now apply range3_down]. }
        destruct (Hlen a Ha) as [[-> Hr]|[-> Hr]];
          destruct Hb' as [[-> Hr']|[-> Hr']]; lia.
      * rewrite nth_error_app2 in Hb by exact Hsi.
        replace (S i - List.length l)%nat with 0%nat in Hb by lia.
        cbn in Hb. assert (Hbt : b = target) by congruence. subst b.
        assert (Hlast : Z.of_nat (S i) = (Z.abs (target - c) + 4) / 5).
        { rewrite <- (range3_length c target), <- El. lia. }
        assert (Hd : 5 * ((Z.abs (target - c) + 4) / 5) <= Z.abs (target - c) + 4)
          by (apply Z.mul_div_le; lia).
        assert (Hd' : Z.abs (target - c) + 4
                      < 5 * ((Z.abs (target - c) + 4) / 5) + 5).
        { pose proof (Z.mod_pos_bound (Z.abs (target - c) + 4) 5 ltac:(lia)).
          pose proof (Z.div_mod (Z.abs (target - c) + 4) 5 ltac:(lia)). lia. }
        destruct (Hlen a Ha) as [[-> Hr]|[-> Hr]]; lia.
    + rewrite nth_error_app2 in Hb by lia.
      destruct (S i - List.length l)%nat eqn:En; [lia|].
      destruct n; discriminate.
  - intros v Hv. apply in_app_or in Hv. destruct Hv as [Hv|[<-|[]]]; [|lia].
    apply In_nth_error in Hv. destruct Hv as [i Hi].
    destruct (c <? target);
      [apply range3_up in Hi|apply range3_down in Hi]; lia.
  - apply last_last.
  - intros Hne.
    destruct (range3 c target (if c <? target then 5 else -5)) as [|x l] eqn:E.
    + exfalso. pose proof (range3_length c target) as Hl. rewrite E in Hl.
      cbn [List.length Z.of_nat] in Hl.
      assert (1 <= (Z.abs (target - c) + 4) / 5); [|lia].
      apply Z.div_le_lower_bound; lia.
    + cbn. f_equal.
      assert (Hx : nth_error (range3 c target (if c <? target then 5 else -5)) 0
                   = Some x) by now rewrite E.
      destruct (c <? target);
        [apply range3_up in Hx|apply range3_down in Hx]; cbn in Hx; lia.
  - rewrite length_app, Nat2Z.inj_add, range3_length. reflexivity.
Qed.

(** X25: a fade of the display manager, when the writes go through.
    The requests form a ramp from the brightness read to the target:
    neighbours are at most [FADE_STEP] apart, every request lies
    between the two, the last one is the target, and there are
    [ceil(|target - current| / 5) + 1] of them; each is written after
    clamping to [0, max_brightness], so the file ends on the clamped
    target. *)
Theorem manager_fade_ramp (w : DisplayManager) (target : Z) :
  (forall k, io k = true) ->
  let current := get_brightness w in
  exists w',
    fade_to io w target = Some w'
    /\ content w' = clamp w target
    /\ written w' = (rev (map (clamp w) (requested w target)) ++ written w)%list
    /\ Writes.stride 5 (requested w target)
    /\ (forall v, In v (requested w target) ->
                  Z.min current target <= v <= Z.max current target)
    /\ last (requested w target) 0 = target
    /\ Z.of_nat (List.length (requested w target))
       = (Z.abs (target - current) + 4) / 5 + 1.
Proof.
  intros Hio current.
  destruct (write_all_ok (requested w target) w Hio) as [w' Hw].
  assert (Hf : fade_to io w target = Some w') by (rewrite fade_to_unfold; now rewrite Hw).
  exists w'. split; [exact Hf|].
  destruct (fade_to_spec w target w' Hf) as (H1 & H2 & _).
  destruct (requested_ramp w target) as (R1 & R2 & R3 & _ & R5).
  auto 10.
Qed.

(** X26: the first write that fails aborts the fade of the manager:
    [set_brightness] raises and nothing catches it. *)
Theorem manager_fade_aborts (w : DisplayManager) (target : Z) (k : nat) :
  (attempts w <= k < attempts w + List.length (requested w target))%nat ->
  io k = false ->
  fade_to io w target = None.
Proof.
  intros Hk Hf. destruct (fade_to io w target) as [w'|] eqn:E; [|reflexivity].
  destruct (fade_to_spec w target w' E) as (_ & _ & _ & _ & Ha & Hio).
  rewrite Hio in Hf by lia. discriminate.
Qed.

(** X27: [set_adaptive_brightness] of the manager never updates the
    tracked state: [target_brightness] stays what it was, so that the
    test against micro-adjustments compares every new target with the
    same old value. When it fades, the file ends on the clamped
    computed target. *)
Theorem manager_state_is_never_updated
    (w : DisplayManager) (lux : Q) (w' : DisplayManager) :
  set_adaptive_brightness io w lux = Some w' ->
  state w' = state w
  /\ (w' <> w ->
      content w' = clamp w (Display.adaptive_target (config w) lux)).
Proof.
  unfold set_adaptive_brightness.
  destruct (negb _); [intros H; injection H as <-; split; congruence|].
  destruct (10 <? _); [|intros H; injection H as <-; split; congruence].
  intros H. destruct (fade_to_spec _ _ _ H) as (_ & Hc & Hs & _). auto.
Qed.

End ManagerFacts.

Lemma manager_fade_ramp_witness :
  let io := fun _ : nat => true in
  let w :=
    {| Manager.config := Display.default_config;
       Manager.state := Display.DisplayState_init;
       Manager.max_brightness := 255; Manager.content := 12;
       Manager.readable := true; Manager.written := []; Manager.attempts := 0 |} in
  (forall k, io k = true)
  /\ exists w',
       Manager.fade_to io w 300 = Some w'
       /\ Manager.content w' = 255
       /\ Z.of_nat (List.length (Manager.requested w 300)) = 59.
Proof.
  intros io w.
  assert (H0 : forall k, io k = true) by (intros k; reflexivity).
  split; [exact H0|].
  destruct (manager_fade_ramp io w 300 H0) as (w' & Hw & Hc & _ & _ & _ & _ & Hn).
  exists w'. split; [exact Hw|]. split; [exact Hc|exact Hn].
Defined.

Lemma manager_fade_aborts_witness :
  let io := fun k : nat => Nat.ltb k 3 in
  let w :=
    {| Manager.config := Display.default_config;
       Manager.state := Display.DisplayState_init;
       Manager.max_brightness := 255; Manager.content := 0;
       Manager.readable := true; Manager.written := []; Manager.attempts := 0 |} in
  ((Manager.attempts w <= 3
    < Manager.attempts w + List.length (Manager.requested w 100))%nat
   /\ io 3%nat = false)
  /\ Manager.fade_to io w 100 = None.
Proof.
  intros io w.
  assert (H1 : (Manager.attempts w <= 3
                < Manager.attempts w + List.length (Manager.requested w 100))%nat)
    by (vm_compute; lia).
  assert (H2 : io 3%nat = false) by reflexivity.
  split; [split; assumption|].
  exact (manager_fade_aborts io w 100 3%nat H1 H2).
Defined.

Lemma manager_state_is_never_updated_witness :
  let io := fun _ : nat => true in
  let w :=
    {| Manager.config := Display.default_config;
       Manager.state := Display.DisplayState_init;
       Manager.max_brightness := 255; Manager.content := 0;
       Manager.readable := true; Manager.written := []; Manager.attempts := 0 |} in
  let w' :=
    match Manager.set_adaptive_brightness io w 250 with
    | Some w' => w'
    | None => w
    end in
  Manager.set_adaptive_brightness io w 250 = Some w'
  /\ Display.target_brightness (Manager.state w') = 0.
Proof.
  intros io w w'.
  assert (H1 : Manager.set_adaptive_brightness io w 250 = Some w')
    by (vm_compute; reflexivity).
  split; [exact H1|].
  rewrite (proj1 (manager_state_is_never_updated io w 250 w' H1)). reflexivity.
Defined.

(** * Properties of the air quality score *)

Section EnvironmentFacts.

Import Environment.

Local Open Scope Q_scope.

Ltac ltb_cases :=
  repeat match goal with
         | |- context [Py.ltb ?a ?b] =>
             let E := fresh "E" in
             destruct (Py.ltb a b) eqn:E;
             [apply ltb_lt in E|apply ltb_ge in E]
         | H : context [Py.ltb ?a ?b] |- _ =>
             let E := fresh "E" in
             destruct (Py.ltb a b) eqn:E;
             [apply ltb_lt in E|apply ltb_ge in E]
         end.

Ltac inverses :=
  unfold Qdiv in *;
  repeat match goal with
         | |- context [Qinv (Qmake ?n ?d)] =>
             let v := eval vm_compute in (Qinv (Qmake n d)) in
             change (Qinv (Qmake n d)) with v in *
         | H : context [Qinv (Qmake ?n ?d)] |- _ =>
             let v := eval vm_compute in (Qinv (Qmake n d)) in
             change (Qinv (Qmake n d)) with v in *
         end.

(** The score before [int], piece by piece. *)
Lemma air_quality_pieces (g : Q) :
  (200000 < g -> 90 < air_quality g <= 100)
  /\ (100000 < g <= 200000 -> 70 < air_quality g <= 90
                               /\ (air_quality g == 90 -> g == 200000))
  /\ (50000 < g <= 100000 -> 40 < air_quality g <= 60)
  /\ (10000 < g <= 50000 -> 10 < air_quality g < 40)
  /\ (g <= 10000 -> 0 <= air_quality g <= 10
                    /\ (10 <= air_quality g -> g == 10000)).
Proof.
  unfold air_quality, min, max. repeat split; intros; ltb_cases; inverses; lra.
Qed.

Lemma air_quality_mono (g1 g2 : Q) : g1 <= g2 -> air_quality g1 <= air_quality g2.
Proof.
  intros H. unfold air_quality, min, max. ltb_cases; inverses; lra.
Qed.

(** Where the score before [int] crosses the bounds of the
    descriptions. *)
Lemma air_quality_thresholds (g : Q) :
  0 <= air_quality g <= 100
  /\ (90 <= air_quality g <-> 200000 <= g)
  /\ (70 <= air_quality g <-> 100000 < g)
  /\ (40 <= air_quality g <-> 50000 < g)
  /\ (10 <= air_quality g <-> 10000 <= g).
Proof.
  unfold air_quality, min, max.
  repeat split; intros; ltb_cases; inverses; lra.
Qed.

(** [int] of a number that is not negative reaches an integer exactly
    when the number does. *)
Lemma int_ge (n : Z) (x : Q) :
  0 <= x -> (n <= Py.int x)%Z <-> inject_Z n <= x.
Proof.
  intros Hx. unfold Py.int.
  replace (Qle_bool 0 x) with true by (symmetry; now apply Qle_bool_iff).
  split.
  - intros H. apply Qle_trans with (inject_Z (Qfloor x)).
    + now rewrite <- Zle_Qle.
    + apply Qfloor_le.
  - intros H. rewrite <- (Qfloor_Z n). now apply Qfloor_resp_le.
Qed.

(** The score of a measurement with a stable heater. *)
Lemma score_thresholds (g : Q) :
  let s := Py.int (air_quality g) in
  (0 <= s <= 100)%Z
  /\ ((90 <= s)%Z <-> 200000 <= g)
  /\ ((70 <= s)%Z <-> 100000 < g)
  /\ ((40 <= s)%Z <-> 50000 < g)
  /\ ((10 <= s)%Z <-> 10000 <= g).
Proof.
  destruct (air_quality_thresholds g) as ([H0 H100] & H90 & H70 & H40 & H10).
  cbn zeta. split.
  - apply int_between; assumption.
  - rewrite !int_ge by exact H0. auto.
Qed.

(** X28: the air quality score stays within 0..100 through every
    call of [read_environmental_data]. The call changes nothing when
    the sensor is disabled or missing, raises, or has no new data; and
    with a heater that is not stable it reports a gas resistance of 0
    and keeps the previous score. *)
Theorem air_quality_score_range
    (enabled has_sensor gas_enabled : bool) (m : Measurement)
    (current_data : EnvironmentalData) :
  (0 <= air_quality_score current_data <= 100)%Z ->
  let d := read_environmental_data enabled has_sensor gas_enabled m current_data in
  (0 <= air_quality_score d <= 100)%Z
  /\ (enabled = false \/ has_sensor = false \/ m = Raises \/ m = NoData ->
      d = current_data)
  /\ (forall data, m = NewData data -> data_heat_stable data = false ->
                   enabled = true -> has_sensor = true ->
                   gas_resistance d = 0
                   /\ air_quality_score d = air_quality_score current_data).
Proof.
  intros Hs. unfold read_environmental_data.
  destruct enabled, has_sensor; cbn [negb orb];
    try (split; [exact Hs|split; [reflexivity|intros; discriminate]]).
  destruct m as [| |data].
  - split; [exact Hs|split; [reflexivity|intros; discriminate]].
  - split; [exact Hs|split; [reflexivity|intros; discriminate]].
  - cbn. split; [|split].
    + destruct (data_heat_stable data && gas_enabled); [|exact Hs].
      apply (score_thresholds (data_gas_resistance data)).
    + intros [H|[H|[H|H]]]; discriminate.
    + intros data' H Hh _ _. injection H as <-. rewrite Hh. cbn. auto.
Qed.

(** X29: the description of the air quality after a measurement with
    a stable heater, by gas resistance: Excellent from 200000 ohm,
    Good above 100000 up to 199999, Moderate above 50000, Poor from
    10000, and Very Poor up to 9999. Within an ohm below 200000 and
    below 10000, where the rounding of the division decides, nothing
    is stated. *)
Theorem air_quality_description_bands
    (data : SensorData) (current_data : EnvironmentalData) :
  data_heat_stable data = true ->
  let g := data_gas_resistance data in
  let d := read_environmental_data true true true (NewData data) current_data in
  (200000 <= g -> get_air_quality_description d = "Excellent 🌟"%string)
  /\ (100000 < g <= 199999 -> get_air_quality_description d = "Good 😊"%string)
  /\ (50000 < g <= 100000 -> get_air_quality_description d = "Moderate 😐"%string)
  /\ (10000 <= g <= 50000 -> get_air_quality_description d = "Poor 😞"%string)
  /\ (g <= 9999 -> get_air_quality_description d = "Very Poor ⚠️"%string).
Proof.
  intros Hh. cbn zeta. unfold read_environmental_data, get_air_quality_description.
  cbn. rewrite Hh. cbn.
  destruct (score_thresholds (data_gas_resistance data))
    as (_ & H90 & H70 & H40 & H10). cbn zeta in *.
  set (s := Py.int (air_quality (data_gas_resistance data))) in *.
  set (g := data_gas_resistance data) in *.
  destruct (90 <=? s)%Z eqn:E90; [apply Z.leb_le in E90|apply Z.leb_gt in E90].
  { apply H90 in E90. repeat split; intros; try reflexivity; exfalso; lra. }
  assert (G90 : g < 200000) by (apply Qnot_le_lt; intros H; apply H90 in H; lia).
  destruct (70 <=? s)%Z eqn:E70; [apply Z.leb_le in E70|apply Z.leb_gt in E70].
  { apply H70 in E70. repeat split; intros; try reflexivity; exfalso; lra. }
  assert (G70 : g <= 100000) by (apply Qnot_lt_le; intros H; apply H70 in H; lia).
  destruct (40 <=? s)%Z eqn:E40; [apply Z.leb_le in E40|apply Z.leb_gt in E40].
  { apply H40 in E40. repeat split; intros; try reflexivity; exfalso; lra. }
  assert (G40 : g <= 50000) by (apply Qnot_lt_le; intros H; apply H40 in H; lia).
  destruct (10 <=? s)%Z eqn:E10; [apply Z.leb_le in E10|apply Z.leb_gt in E10].
  { apply H10 in E10. repeat split; intros; try reflexivity; exfalso; lra. }
  assert (G10 : g < 10000) by (apply Qnot_le_lt; intros H; apply H10 in H; lia).
  repeat split; intros; try reflexivity; exfalso; lra.
Qed.

(** X30: over measurements with a stable heater, the air quality
    score grows with the gas resistance, and it never takes a value
    from 61 to 69: the Moderate band of the formula stops at 60. *)
Theorem air_quality_score_monotone
    (data1 data2 : SensorData) (c1 c2 : EnvironmentalData) :
  data_heat_stable data1 = true ->
  data_heat_stable data2 = true ->
  data_gas_resistance data1 <= data_gas_resistance data2 ->
  let s1 := air_quality_score
              (read_environmental_data true true true (NewData data1) c1) in
  let s2 := air_quality_score
              (read_environmental_data true true true (NewData data2) c2) in
  (s1 <= s2)%Z /\ ~ (60 < s1 < 70)%Z.
Proof.
  intros Hh1 Hh2 H. unfold read_environmental_data. cbn. rewrite Hh1, Hh2. cbn.
  set (g1 := data_gas_resistance data1) in *.
  set (g2 := data_gas_resistance data2) in *.
  split; [now apply int_mono, air_quality_mono|].
  destruct (score_thresholds g1) as (_ & _ & H70 & _). cbn zeta in H70.
  destruct (air_quality_pieces g1) as (_ & _ & P3 & P4 & P5).
  destruct (air_quality_thresholds g1) as ([H0 _] & _).
  intros [Hlo Hhi].
  assert (Hq : inject_Z 61 <= air_quality g1) by (apply int_ge; [exact H0|lia]).
  change (inject_Z 61) with 61 in Hq.
  destruct (Qlt_le_dec 100000 g1) as [Hg|Hg]; [apply H70 in Hg; lia|].
  destruct (Qlt_le_dec 50000 g1) as [Hg'|Hg']; [specialize (P3 (conj Hg' Hg)); lra|].
  destruct (Qlt_le_dec 10000 g1) as [Hg''|Hg''];
    [specialize (P4 (conj Hg'' Hg')); lra|specialize (P5 Hg''); lra].
Qed.

End EnvironmentFacts.

Lemma air_quality_score_range_witness :
  let data :=
    {| Environment.data_temperature := 21; Environment.data_pressure := 1013;
       Environment.data_humidity := 40;
       Environment.data_gas_resistance := 150000;
       Environment.data_heat_stable := true |} in
  let d :=
    Environment.read_environmental_data true true true
      (Environment.NewData data) Environment.EnvironmentalData_init in
  0 <= Environment.air_quality_score Environment.EnvironmentalData_init <= 100
  /\ 0 <= Environment.air_quality_score d <= 100.
Proof.
  intros data d.
  assert (H1 : 0 <= Environment.air_quality_score Environment.EnvironmentalData_init
               <= 100) by (split; vm_compute; discriminate).
  split; [exact H1|].
  exact (proj1 (air_quality_score_range true true true (Environment.NewData data)
                  Environment.EnvironmentalData_init H1)).
Defined.

Lemma air_quality_description_bands_witness :
  let data :=
    {| Environment.data_temperature := 21; Environment.data_pressure := 1013;
       Environment.data_humidity := 40;
       Environment.data_gas_resistance := 150000;
       Environment.data_heat_stable := true |} in
  let d :=
    Environment.read_environmental_data true true true
      (Environment.NewData data) Environment.EnvironmentalData_init in
  (Environment.data_heat_stable data = true
   /\ (100000 < Environment.data_gas_resistance data <= 199999)%Q)
  /\ Environment.get_air_quality_description d = "Good 😊"%string.
Proof.
  intros data d.
  assert (H1 : Environment.data_heat_stable data = true) by reflexivity.
  assert (H2 : (100000 < Environment.data_gas_resistance data <= 199999)%Q)
    by (split; vm_compute; [reflexivity|discriminate]).
  split; [split; assumption|].
  destruct (air_quality_description_bands data Environment.EnvironmentalData_init H1)
    as (_ & H & _).
  exact (H H2).
Defined.

Lemma air_quality_score_monotone_witness :
  let data1 :=
    {| Environment.data_temperature := 21; Environment.data_pressure := 1013;
       Environment.data_humidity := 40;
       Environment.data_gas_resistance := 60000;
       Environment.data_heat_stable := true |} in
  let data2 :=
    {| Environment.data_temperature := 21; Environment.data_pressure := 1013;
       Environment.data_humidity := 40;
       Environment.data_gas_resistance := 150000;
       Environment.data_heat_stable := true |} in
  let c := Environment.EnvironmentalData_init in
  (Environment.data_heat_stable data1 = true
   /\ Environment.data_heat_stable data2 = true
   /\ (Environment.data_gas_resistance data1
       <= Environment.data_gas_resistance data2)%Q)
  /\ Environment.air_quality_score
       (Environment.read_environmental_data true true true
          (Environment.NewData data1) c)
     <= Environment.air_quality_score
          (Environment.read_environmental_data true true true
             (Environment.NewData data2) c).
Proof.
  intros data1 data2 c.
  assert (H1 : Environment.data_heat_stable data1 = true) by reflexivity.
  assert (H2 : Environment.data_heat_stable data2 = true) by reflexivity.
  assert (H3 : (Environment.data_gas_resistance data1
                <= Environment.data_gas_resistance data2)%Q)
    by (vm_compute; discriminate).
  split; [repeat split; assumption|].
  exact (proj1 (air_quality_score_monotone data1 data2 c c H1 H2 H3)).
Defined.
